(* ===== verification/_CoqProject ===== *)
-Q . S2P
Prelude.v
PyValue.v
Uuid.v
PyFloat.v
Json.v
Utf8.v
Paths.v
Pipeline.v
World.v
BlobUrl.v
Model.v
Upload.v
Handler.v
Service.v
Contract.v
App.v
Concurrency.v
