(* ===== verification/Prelude.v ===== *)
(** * A verification development of the split-screen media service

    The repository is one Flask application, [src/app.py] (93 lines).
    It has one HTTP route, [POST /process], served by [process_video].
    The route dispatches on the [operation] field of the JSON body:

    - [extract_audio] (lines 31-49) validates [videoUrl], builds a path
      [/tmp/<uuid4>.mp3], runs an ffmpeg-python pipeline that drops the
      video and encodes MP3 at 44100 Hz, uploads the file with
      [upload_to_gcs], and answers [200 {"audioUrl": url}].
    - [create_split_screen_clip] (lines 52-91) validates four fields of
      [params] by Python truthiness, computes
      [duration = float(end_time) - float(start_time)], and builds the
      path [/tmp/<uuid4>.mp4]. It runs a pipeline that trims the podcast
      to [start_time, start_time + duration] and the gameplay to
      [0, duration]. Both are scaled to width 1080 and cropped to 1080x960,
      then stacked vertically. The audio is the podcast's own, or that
      audio mixed with a looped background track when [bgm_url] is truthy.
      Then it uploads and answers [200 {"clipUrl": url}].
    - any other [operation] answers [400].
    - [upload_to_gcs] (lines 16-23) names the object after
      [os.path.basename] of the local path, uploads, removes the local
      file and returns the object's public URL.

    Every ffmpeg or upload failure inside the [try] blocks is caught and
    answered [500 {"error": "FFmpeg error: ..."}]. Exceptions raised
    outside them are caught by Flask, which answers a 500 HTML page:
    [data.get] on a body that is not an object, [params.get] on a
    [params] that is not an object, and [float()] on a bad time.

    ** Files and what they model

    - [Prelude] (this file): the state-and-exception monad [st] used for
      all effectful code. Its state survives an exception, as Python's
      heap and file system do. It also holds the notation scope
      [py_scope] ([let*], [ret]), the hint databases [pyapp] and [pyrw],
      the tactic [st_run], and generic lemmas on strings.
    - [PyValue]: Python values as [json.loads] returns them ([value]),
      Python truthiness ([truthy], used by [not x] and [all([...])]),
      [dict.get] ([py_get], raising [AttributeError] on non-dicts),
      [float()] ([py_float]) on binary64 [spec_float]s, and the exception
      type [exn] with [str(e)].
    - [PyFloat]: CPython's [float(str)] ([py_float_of_str], the
      instance [cpython_float] of [FloatParser]). It covers the
      transform of non-ASCII white space, PEP 515 underscores, the
      stripping of white space, the grammar of [_Py_dg_strtod] with
      [inf] and [nan], and correct rounding to binary64. Theorem:
      [float(str(n))] is [n] rounded, as [float(n)] is.
    - [Uuid]: [uuid.uuid4()] from the 16 bytes of [os.urandom(16)]
      ([uuid4], with the version and variant bits set as CPython's
      [uuid] module does) and [str(u)] as 8-4-4-4-12 lowercase hex
      ([uuid_str]). Theorems: [str(u)] has 36 characters and no ['/'];
      reading its hex digits back gives [u mod 2^128], so [uuid_str] is
      injective on 128-bit integers; [uuid4] is below [2^128]; its
      string has the version digit 4 and a variant digit in 8..b.
    - [Json]: [json.loads] as [request.get_json()] calls it (line 27),
      after CPython's C scanner: strings and escapes, numbers with the
      4300-digit limit of [int()], literals, arrays, and objects built as
      [dict(pairs)], each array and object entered through the
      interpreter's recursion guard, whose room is a parameter
      ([RecursionLimit]). Also [jsonify]'s [json.dumps] (sorted keys,
      ASCII, compact separators). Theorems: the fuel-indexed decoder
      never runs out of fuel ([json_loads_terminates]); decoding the
      encoding of a value that fits the guard's room gives it back
      ([json_roundtrip]); every decoded value fits the room
      ([loads_depth]) and one level more raises [RecursionError]
      ([nest_too_deep]); the encoding is printable ASCII.
    - [Utf8]: [json.loads] on the body's bytes: [json.detect_encoding]
      (byte order marks, NUL bytes), CPython's UTF-8 decoder with
      ['surrogatepass'] ([utf8_decode]) and ['utf-8-sig'].
      Theorems: decoding the UTF-8 encoding of a text gives it back
      ([utf8_roundtrip]); printable ASCII is read as itself.
    - [Paths]: [os.path.basename] ([basename], after CPython's
      [posixpath]) and the temporary paths of lines 36 and 64.
      Theorems: [basename p] is [p.split('/')[-1]]; the object name of a
      temporary file is [<uuid>.<ext>].
    - [Pipeline]: the ffmpeg-python stream graph ([stream], [output])
      and the two pipelines of lines 39-45 and 68-85. Denotations
      ([video_layout], [audio_mix], [input_nodes], [filter_names],
      [wf_output]) give the time windows and sources each output track
      is made of, and [frame_size] the frame size ffmpeg's [scale],
      [crop] and [vstack] compute. Theorems: trim windows, stacking
      order, inputs, when the mixer is used, and that a source wider
      than 5:4 makes the crop, hence the clip, fail.
    - [World]: the state the handler acts on (local files, the bucket,
      the number of [os.urandom] draws, and a log of external calls).
      It also holds the interfaces of the external collaborators as
      type classes with laws: [Entropy] ([os.urandom(16)]), [Ffmpeg]
      (running a pipeline) and [Gcs] (upload, public URL). [os.remove]
      is modelled concretely.
    - [BlobUrl]: google-cloud-storage's [Blob.public_url] (line 23):
      the default endpoint, the bucket and the name quoted by
      [urllib.parse.quote] in UTF-8 with [safe='/~'] ([url_quote]), and
      the law [GcsPublicUrl] that the [Gcs] interface's URL is it.
      Lemma: the handler's object names are left unquoted.
    - [Model]: one executable instance of each interface, with its laws
      proved, and a recursion guard with room for 990 levels. The
      witnesses of the theorems run the handler on it.
    - [Upload]: [upload_to_gcs] and its success and failure behaviour;
      the URL of a temporary file's object is the endpoint, the bucket
      and [<uuid><ext>] unquoted ([upload_public_url]).
    - [Handler]: [process_video], both operations, the [try]/[except]
      blocks, and Flask's handling of returned pairs and uncaught
      exceptions ([flask_dispatch], [serve]). Theorems: the behaviour of
      every branch (well-formed requests, each 400, the uncaught
      exceptions, the rejected start time 0, the temporary-file leak),
      and a start time ["nan"] reaching ffmpeg as a NaN duration.
    - [Service]: a server run as a sequence of requests ([serve_all],
      the step relation [reachable]); every request classified
      ([request_effect]); invariants by rule induction (local files are
      temporary files; objects are named after earlier uuid draws); and
      no upload overwrites an object when the run's uuids are distinct.
    - [Contract]: the request contract of spec sections 4, 6 and 7 on
      an abstract state (stored objects and local files), and the
      refinement theorem [serve_refines]: [serve] implements it on every
      request of the spec's grammar; [outside_uncaught]: every other
      request gets Flask's HTML 500 and changes nothing.
    - [App]: the layers around the handler. Start-up ([load_app], lines
      7-14) builds the storage client and reads [GCS_BUCKET_NAME] once.
      Routing ([match_route], line 25) sends [POST /process] to the view,
      answers [OPTIONS], and refuses other methods (405) and paths (404).
      [request.get_json()] ([get_json], line 27) checks the content type
      (415) and decodes the body's bytes ([Utf8.json_loads_bytes]; 400
      for ill-formed UTF-8 or JSON). [render] is [jsonify]'s text.
      [handle] serves one HTTP request and [handle_all] a run. Theorems:
      - the wire refines the handler: a body that encodes a value is
        served as [serve] serves that value ([wire_refines]);
      - every answer is a JSON object of spec section 6 or an HTML page
        ([handle_reply_wf]);
      - the 415 and 400 pages of [get_json], and Flask's 500 for a
        valid body nested deeper than the recursion guard allows
        ([deep_json_uncaught]);
      - a UTF-8 byte order mark before a body changes no answer
        ([bom_ignored]);
      - with no bucket configured, nothing is ever stored and no job
        answers 200 ([unconfigured_never_stores]).
    - [Concurrency]: spec section 5, every request on its own thread.
      A thread ([phase]) is [process_video] cut at its calls on the
      shared world (the draw of [uuid.uuid4()], ffmpeg's run, the upload,
      [os.remove]); [prepare] is the handler up to the draw and
      [thread_step] one call (a lemma checks that a thread run alone
      computes [process_video]). The server [cstep] runs any unfinished
      thread for one step. Theorems, by invariants every step keeps:
      under any interleaving the local files are temporary files
      ([conc_tmp_only]); no upload overwrites an object when the uuids
      drawn are distinct ([conc_no_overwrite], by the invariant
      [fresh_inv] on the names the threads hold); and a request
      answered 200 holds the public URL of an object the bucket keeps
      ([conc_answer_stored]).

    The theorems about the handler are proved for every instance of the
    interfaces that satisfies their laws, and every bucket name.

    ** Bounds and fuel

    One definition needs fuel: the recursive descent of [json.loads]
    ([Json.scan_once]), which recurses on the rest of the text, not on a
    subterm. [json_loads] gives it twice the length of the text plus one.
    That is enough because every value consumes at least one character,
    and an array or object step consumes its delimiter
    ([json_loads_terminates]). More fuel never changes a result
    ([scan_once_mono]). The scanner also carries the room the recursion
    guard leaves; CPython's room depends on its version, its stack and
    the caller's frames, so the theorems take any room, and the
    witnesses use 990. Every other function is structural, and the
    server's runs are finite lists of requests or finite sequences of
    steps.
    Integers of Python are unbounded, so they are [Z]. Floats are IEEE
    binary64, as [spec_float] with [prec = 53] and [emax = 1024], where Python's
    [float] arithmetic is round-to-nearest-even. uuids are 128-bit [Z]s.

    ** Not modelled

    - In [json.loads]: code points above U+00FF (a Rocq [string] holds
      bytes), and bodies in UTF-16 or UTF-32; both are outside the model
      ([App.BodyOut]). In [json.dumps]: the [repr] of a finite float,
      which no reply of the handler holds. Werkzeug's HTML pages are
      abbreviated to their titles.
    - ffmpeg itself, and the network, are not modelled: [Ffmpeg] is an
      interface whose laws say only which state it may touch. Its run,
      like the upload, is a total function, while spec section 5 says
      the real calls have no timeout and can block: the development
      proves no liveness (that every request is answered), since in the
      model it would hold whatever the handler did.
    - The GCS client's upload is not modelled either: [Gcs] is an
      interface whose laws say that an upload stores the file's bytes
      under the name and that a failed upload changes nothing. Its
      [public_url] is modelled ([BlobUrl]).
    - The theorems of the handler hold for every [float(str)] (the
      [FloatParser] class); [PyFloat] gives CPython's, which the
      witnesses and [Handler.nan_start_time] use. That it rounds
      correctly is the theorem of Flocq about SpecFloat's [SFdiv] and
      [binary_normalize], not proved again here.
    - How [storage.Client()] finds credentials: a parameter
      ([App.StorageClientInit]) that may raise.
    - The scheduler of the threaded server: [Concurrency.cstep] allows
      every interleaving of the requests' calls on the shared world, so
      its theorems hold for any scheduler. *)

From stdpp Require Export base strings list gmap.
From Stdlib Require Export String Ascii ZArith.

Declare Scope py_scope.
Delimit Scope py_scope with py.

(** ** The state-and-exception monad *)

(** A computation on state [S] that may raise an [E]. The state reached
    when the exception is raised is kept, as it is in Python. *)
Definition st (S E A : Type) : Type := S -> S * (E + A).

Definition st_ret {S E A} (a : A) : st S E A := fun s => (s, inr a).

Definition st_bind {S E A B} (m : st S E A) (f : A -> st S E B) : st S E B :=
  fun s => match m s with
           | (s', inl e) => (s', inl e)
           | (s', inr a) => f a s'
           end.

Definition st_raise {S E A} (e : E) : st S E A := fun s => (s, inl e).

(** [try: m except E as e: h(e)] *)
Definition st_try {S E A} (m : st S E A) (h : E -> st S E A) : st S E A :=
  fun s => match m s with
           | (s', inl e) => h e s'
           | (s', inr a) => (s', inr a)
           end.

Definition st_get {S E} : st S E S := fun s => (s, inr s).
Definition st_modify {S E} (f : S -> S) : st S E unit := fun s => (f s, inr tt).

(** Lifting a result computed purely: [inl e] raises [e]. *)
Definition st_lift {S E A} (r : E + A) : st S E A := fun s => (s, r).

Notation "'let*' x ':=' m 'in' k" := (st_bind m (fun x => k))
  (at level 10, x name, m at level 100, k at level 200) : py_scope.
Notation "'ret' a" := (st_ret a) (at level 10) : py_scope.

Open Scope py_scope.

Section Monad.
Context {S E : Type}.

Lemma st_bind_ret_l {A B} (a : A) (f : A -> st S E B) s :
  st_bind (st_ret a) f s = f a s.
Proof. reflexivity. Qed.

Lemma st_bind_assoc {A B C} (m : st S E A) (f : A -> st S E B) (g : B -> st S E C) s :
  st_bind (st_bind m f) g s = st_bind m (fun a => st_bind (f a) g) s.
Proof. unfold st_bind. destruct (m s) as [s' [e|a]]; reflexivity. Qed.

Lemma st_bind_inr {A B} (m : st S E A) (f : A -> st S E B) s s' a :
  m s = (s', inr a) -> st_bind m f s = f a s'.
Proof. intros H. unfold st_bind. by rewrite H. Qed.

Lemma st_bind_inl {A B} (m : st S E A) (f : A -> st S E B) s s' e :
  m s = (s', inl e) -> st_bind m f s = (s', inl e).
Proof. intros H. unfold st_bind. by rewrite H. Qed.

Lemma st_try_inr {A} (m : st S E A) h s s' a :
  m s = (s', inr a) -> st_try m h s = (s', inr a).
Proof. intros H. unfold st_try. by rewrite H. Qed.

Lemma st_try_inl {A} (m : st S E A) h s s' e :
  m s = (s', inl e) -> st_try m h s = h e s'.
Proof. intros H. unfold st_try. by rewrite H. Qed.

(** A computation whose every branch ends in [st_ret] never raises
    past [st_try]. *)
Lemma st_try_total {A} (m : st S E A) (h : E -> st S E A) s :
  (forall e s', exists s'' a, h e s' = (s'', inr a)) ->
  exists s' a, st_try m h s = (s', inr a).
Proof.
  intros Hh. unfold st_try. destruct (m s) as [s' [e|a]]; eauto.
Qed.
End Monad.

Lemma st_bind_lift_inr {S E A B} (a : A) (f : A -> st S E B) s :
  st_bind (st_lift (inr a)) f s = f a s.
Proof. reflexivity. Qed.

Lemma st_bind_lift_inl {S E A B} (e : E) (f : A -> st S E B) s :
  st_bind (st_lift (inl e)) f s = (s, inl e).
Proof. reflexivity. Qed.

Lemma default_Some {A} (d x : A) : default d (Some x) = x.
Proof. reflexivity. Qed.

Lemma default_None {A} (d : A) : default d None = d.
Proof. reflexivity. Qed.

Create HintDb pyapp discriminated.
Create Rewrite HintDb pyrw.
#[export] Hint Constants Opaque : pyapp.
#[export] Hint Rewrite @st_bind_ret_l @st_bind_assoc @st_bind_lift_inr @st_bind_lift_inl
  @default_Some @default_None : pyrw.

(** [st_run H] rewrites the first bind or try of the goal with the
    equation [H] describing its left computation. *)
Ltac st_run H :=
  first [ rewrite (st_bind_inr _ _ _ _ _ H)
        | rewrite (st_bind_inl _ _ _ _ _ H)
        | rewrite (st_try_inr _ _ _ _ _ H)
        | rewrite (st_try_inl _ _ _ _ _ H) ].

(** ** Strings *)

(** stdpp makes [String.append] opaque to [simpl]; these are its two
    equations. *)
Lemma string_app_nil_l (s : string) : ("" ++ s)%string = s.
Proof. reflexivity. Qed.

Lemma string_app_cons c (s1 s2 : string) :
  (String c s1 ++ s2)%string = String c (s1 ++ s2)%string.
Proof. reflexivity. Qed.

(** [c in s] for a character, as Python's [in] on a string. *)
Fixpoint str_has (c : ascii) (s : string) : bool :=
  match s with
  | EmptyString => false
  | String c' s' => if Ascii.eqb c c' then true else str_has c s'
  end.

Lemma str_has_app c s1 s2 :
  str_has c (s1 ++ s2)%string = str_has c s1 || str_has c s2.
Proof.
  induction s1 as [|c' s1 IH]; [done|].
  rewrite string_app_cons. simpl. destruct (Ascii.eqb c c'); auto.
Qed.

Lemma string_app_assoc (s1 s2 s3 : string) :
  ((s1 ++ s2) ++ s3)%string = (s1 ++ (s2 ++ s3))%string.
Proof. induction s1 as [|c s1 IH]; [done|]. rewrite !string_app_cons. congruence. Qed.

Lemma string_length_app (s1 s2 : string) :
  String.length (s1 ++ s2)%string = String.length s1 + String.length s2.
Proof. induction s1 as [|c s1 IH]; [done|]. rewrite string_app_cons. simpl. lia. Qed.

#[export] Hint Rewrite string_app_nil_l string_app_cons str_has_app string_length_app : pyrw.

(** Python slicing [s[n:n+m]] is Stdlib's [substring n m s]. *)
Lemma substring_app_l (s1 s2 : string) :
  substring 0 (String.length s1) (s1 ++ s2) = s1.
Proof. induction s1 as [|c s1 IH]; [by destruct s2|]. rewrite string_app_cons. simpl. by rewrite IH. Qed.

Lemma substring_app_r (s1 s2 : string) n m :
  substring (String.length s1 + n) m (s1 ++ s2) = substring n m s2.
Proof. induction s1 as [|c s1 IH]; [done|]. rewrite string_app_cons. simpl. apply IH. Qed.

Lemma substring_all (s : string) : substring 0 (String.length s) s = s.
Proof. induction s as [|c s IH]; [done|]. simpl. by rewrite IH. Qed.

Lemma string_app_nil_r (s : string) : (s ++ "")%string = s.
Proof. induction s as [|c s IH]; [done|]. rewrite string_app_cons. by rewrite IH. Qed.

#[export] Hint Rewrite string_app_nil_r substring_app_l substring_all : pyrw.
