(* ===== verification/PyValue.v ===== *)
(** * Python values, truthiness, [dict.get] and [float()]

    The request body of [process_video] is what [request.get_json()]
    returns: a Python object built by [json.loads]. This file models those
    objects ([value]) and the Python built-ins the handler applies to them
    in [src/app.py]:
    - [data.get(k)] and [params.get(k, d)] (lines 28, 32, 53-58): [py_get];
    - [not x] (line 33) and [not all([...])] (line 60): [truthy], [py_all];
    - [float(x)] (line 63): [py_float], on IEEE binary64 numbers;
    - the subtraction of line 63: [py_fsub];
    - [str(e)] of a caught exception (lines 49, 91): [exn_str]. *)

From S2P Require Import Prelude.
From Stdlib Require Import Floats.SpecFloat.

(** ** Values *)

(** A Python object produced by [json.loads]: [None], [bool], [int],
    [float], [str], [list], or [dict] with string keys. A dict is an
    association list in insertion order; [json.loads] yields each key
    once. *)
Inductive value : Type :=
| PNone
| PBool (b : bool)
| PInt (z : Z)
| PFloat (f : spec_float)
| PStr (s : string)
| PList (l : list value)
| PDict (kvs : list (string * value)).

(** The [type(v).__name__] of a value, used in error messages. *)
Definition type_name (v : value) : string :=
  match v with
  | PNone => "NoneType"
  | PBool _ => "bool"
  | PInt _ => "int"
  | PFloat _ => "float"
  | PStr _ => "str"
  | PList _ => "list"
  | PDict _ => "dict"
  end.

(** ** Exceptions *)

(** The exceptions the handler can meet. [FFmpegError] is [ffmpeg.Error],
    raised by ffmpeg-python's [run()] when ffmpeg exits with an error;
    [GoogleAPIError] stands for the exceptions of the storage client. *)
Inductive exn : Type :=
| AttributeError (msg : string)
| TypeError (msg : string)
| ValueError (msg : string)
| OverflowError (msg : string)
| FileNotFoundError (msg : string)
| FFmpegError (msg : string)
| GoogleAPIError (msg : string).

(** [str(e)]: the message the exception was raised with. *)
Definition exn_str (e : exn) : string :=
  match e with
  | AttributeError m | TypeError m | ValueError m | OverflowError m
  | FileNotFoundError m | FFmpegError m | GoogleAPIError m => m
  end.

(** ** Truthiness *)

(** [bool(v)]: [None], [False], zero numbers (either sign of [0.0]),
    and empty strings, lists and dicts are false. NaN is true. *)
Definition truthy (v : value) : bool :=
  match v with
  | PNone => false
  | PBool b => b
  | PInt z => negb (Z.eqb z 0)
  | PFloat (S754_zero _) => false
  | PFloat _ => true
  | PStr s => negb (String.eqb s "")
  | PList l => negb (bool_decide (l = []))
  | PDict kvs => negb (bool_decide (kvs = []))
  end.

(** [all([v1, ..., vn])]. *)
Definition py_all (l : list value) : bool := forallb truthy l.

(** ** [dict.get] *)

Fixpoint dict_lookup (k : string) (kvs : list (string * value)) : option value :=
  match kvs with
  | [] => None
  | (k', v) :: kvs' => if String.eqb k k' then Some v else dict_lookup k kvs'
  end.

(** [v.get(k, default)]: only a dict has a [get] method; any other object
    raises [AttributeError]. [v.get(k)] is [py_get v k PNone]. *)
Definition py_get (v : value) (k : string) (default : value) : exn + value :=
  match v with
  | PDict kvs =>
      match dict_lookup k kvs with
      | Some x => inr x
      | None => inr default
      end
  | _ => inl (AttributeError ("'" ++ type_name v ++ "' object has no attribute 'get'"))
  end.

(** ** [float()] and float arithmetic *)

(** Binary64 parameters. *)
Definition prec : Z := 53.
Definition emax : Z := 1024.

(** CPython's parser of [float(str)] is not modelled: it is a parameter. *)
Class FloatParser := { float_of_str : string -> exn + spec_float }.

(** [float(n)] for an [int]: rounded to nearest, ties to even, and
    [OverflowError] when the result would be infinite. *)
Definition float_of_int (z : Z) : exn + spec_float :=
  match binary_normalize prec emax z 0 false with
  | S754_infinity _ => inl (OverflowError "int too large to convert to float")
  | f => inr f
  end.

Section Float.
Context `{FloatParser}.

(** [float(v)]. A [bool] is an [int]; a [float] is returned as is. *)
Definition py_float (v : value) : exn + spec_float :=
  match v with
  | PBool b => float_of_int (if b then 1 else 0)
  | PInt z => float_of_int z
  | PFloat f => inr f
  | PStr s => float_of_str s
  | _ => inl (TypeError ("float() argument must be a string or a real number, not '"
                         ++ type_name v ++ "'"))
  end.
End Float.

(** [x - y] on two Python floats: IEEE subtraction, which never raises. *)
Definition py_fsub (x y : spec_float) : spec_float := SFsub prec emax x y.

(** ** Lemmas *)

Lemma py_all_true l : py_all l = true <-> Forall (fun v => truthy v = true) l.
Proof.
  unfold py_all. induction l as [|v l IH]; cbn [forallb]; [split; [constructor|done]|].
  rewrite andb_true_iff, IH. split; [intros [? ?]; by constructor|intros Hf; by inversion Hf].
Qed.

(** Split [all([a, b, c, d]) = True] into the four truthiness facts. *)
Ltac py_all_facts H :=
  let H1 := fresh H "1" in let H2 := fresh H "2" in
  let H3 := fresh H "3" in let H4 := fresh H "4" in
  apply py_all_true in H; inversion H as [|? ? H1 Ht1]; subst;
  inversion Ht1 as [|? ? H2 Ht2]; subst; inversion Ht2 as [|? ? H3 Ht3]; subst;
  inversion Ht3 as [|? ? H4 _]; subst.

(** Induction on values through the elements of lists and the values of
    dicts. *)
Lemma value_ind_deep (P : value -> Prop)
  (fnone : P PNone) (fbool : forall b, P (PBool b)) (fint : forall z, P (PInt z))
  (ffloat : forall f, P (PFloat f)) (fstr : forall s, P (PStr s))
  (flist : forall l, Forall P l -> P (PList l))
  (fdict : forall kvs, Forall (fun kv => P kv.2) kvs -> P (PDict kvs)) :
  forall v, P v.
Proof.
  fix IH 1. intros [| | | | |l|kvs]; [exact fnone|apply fbool|apply fint|apply ffloat|apply fstr| |].
  - apply flist. induction l as [|x l IHl]; constructor; [apply IH|exact IHl].
  - apply fdict. induction kvs as [|[k x] kvs IHk]; constructor; [apply IH|exact IHk].
Qed.
