(* ===== verification/Uuid.v ===== *)
(** * [uuid.uuid4()] and its string form

    Lines 36 and 64 of [src/app.py] name the temporary file after
    [str(uuid.uuid4())]. CPython builds [uuid4()] as
    [UUID(bytes=os.urandom(16), version=4)]. The constructor reads the
    16 bytes as a big-endian integer, then clears and sets the variant
    and version bits. [str(u)] formats [u.int] as 32 lowercase hex digits
    and inserts dashes after digits 8, 12, 16 and 20.

    This file models both steps ([uuid4_int], [uuid_str]). It shows that
    the string has 36 characters and no ['/']. It also shows that the
    string determines the integer: [unhex] reads it back (a round trip),
    so two uploads collide only when their uuids are equal. And it shows
    that the string carries the version digit ['4'] and a variant digit
    in ['8'..'b'] at the places RFC 4122 puts them. *)

From S2P Require Import Prelude.
From Stdlib Require Import Strings.Byte.

Local Open Scope Z_scope.

(** ** Hex formatting *)

Definition hexchars : string := "0123456789abcdef".

(** The lowercase hex digit of a nibble [0 <= d < 16]. *)
Definition hexdig (d : Z) : ascii :=
  match String.get (Z.to_nat d) hexchars with Some c => c | None => "0"%char end.

(** ['%0*x' % (k, n)] for [0 <= n < 16^k]: the [k] lowest nibbles of [n],
    most significant first. *)
Fixpoint hex_digits (k : nat) (n : Z) : string :=
  match k with
  | O => EmptyString
  | S k' => String (hexdig (Z.shiftr n (4 * Z.of_nat k') mod 16)) (hex_digits k' n)
  end.

(** [UUID.__str__]: [hex = '%032x' % self.int] then
    [hex[:8] + '-' + hex[8:12] + '-' + hex[12:16] + '-' + hex[16:20] + '-' + hex[20:]]. *)
Definition uuid_str (u : Z) : string :=
  let hex := hex_digits 32 u in
  (substring 0 8 hex ++ "-" ++ substring 8 4 hex ++ "-" ++ substring 12 4 hex ++ "-"
   ++ substring 16 4 hex ++ "-" ++ substring 20 12 hex)%string.

(** ** [uuid4()] *)

(** [int.from_bytes(bytes, 'big')]. *)
Definition int_from_bytes (bs : list Byte.byte) : Z :=
  fold_left (fun acc b => (acc * 256 + Z.of_N (Byte.to_N b))%Z) bs 0%Z.

(** [UUID(bytes=b, version=4).int], for [b] of 16 bytes read as [r]. *)
Definition uuid4_int (r : Z) : Z :=
  let i := Z.land r (Z.lnot (Z.shiftl 0xc000 48)) in
  let i := Z.lor i (Z.shiftl 0x8000 48) in
  let i := Z.land i (Z.lnot (Z.shiftl 0xf000 64)) in
  Z.lor i (Z.shiftl 4 76).

(** [uuid.uuid4()] from the 16 bytes [os.urandom(16)] returned. *)
Definition uuid4 (bs : list Byte.byte) : Z := uuid4_int (int_from_bytes bs).

(** ** Reading the hex back *)

Fixpoint index_of (c : ascii) (s : string) : Z :=
  match s with
  | EmptyString => 0
  | String c' s' => if Ascii.eqb c c' then 0 else 1 + index_of c s'
  end.

Definition hex_val (c : ascii) : Z := index_of c hexchars.

(** The integer a hex string denotes, dashes skipped, as
    [int(s.replace('-', ''), 16)] computes it from the accumulator [acc]. *)
Fixpoint unhex_go (acc : Z) (s : string) : Z :=
  match s with
  | EmptyString => acc
  | String c s' =>
      if Ascii.eqb c "-"%char then unhex_go acc s' else unhex_go (acc * 16 + hex_val c) s'
  end.

Definition unhex (s : string) : Z := unhex_go 0 s.

(** ** Digits *)

Lemma hexdig_spec d : 0 <= d < 16 ->
  hex_val (hexdig d) = d /\ Ascii.eqb (hexdig d) "-" = false /\ Ascii.eqb "/" (hexdig d) = false.
Proof.
  intros Hd. rewrite <- (Z2Nat.id d) by lia.
  assert (Hn : (Z.to_nat d < 16)%nat) by lia. revert Hn.
  generalize (Z.to_nat d) as n. intros n Hn.
  do 16 (destruct n as [|n]; [vm_compute; auto|]). lia.
Qed.

Lemma nibble_range n k : 0 <= Z.shiftr n k mod 16 < 16.
Proof. apply Z.mod_pos_bound. lia. Qed.

Lemma length_hex_digits k n : String.length (hex_digits k n) = k.
Proof. induction k as [|k IH]; simpl; auto. Qed.

Lemma hex_digits_no_slash k n : str_has "/" (hex_digits k n) = false.
Proof.
  induction k as [|k IH]; [done|]. cbn [hex_digits str_has].
  by rewrite (proj2 (proj2 (hexdig_spec _ (nibble_range n (4 * Z.of_nat k))))).
Qed.

Lemma hex_digits_add a b n :
  hex_digits (a + b) n = (hex_digits a (Z.shiftr n (4 * Z.of_nat b)) ++ hex_digits b n)%string.
Proof.
  induction a as [|a IH]; [done|].
  cbn [hex_digits Nat.add]. rewrite string_app_cons, IH.
  rewrite Z.shiftr_shiftr by lia. do 4 f_equal. lia.
Qed.

(** ** The five blocks of [str(u)] *)

Lemma substring_app_len (s1 s2 : string) n :
  String.length s1 = n -> substring 0 n (s1 ++ s2) = s1.
Proof. intros <-. apply substring_app_l. Qed.

Lemma substring_app_skip (s1 s2 : string) k n m :
  String.length s1 = k -> substring (k + n) m (s1 ++ s2) = substring n m s2.
Proof. intros <-. apply substring_app_r. Qed.

Lemma substring_len_all (s : string) n :
  String.length s = n -> substring 0 n s = s.
Proof. intros <-. apply substring_all. Qed.

Lemma uuid_str_blocks u :
  uuid_str u =
  (hex_digits 8 (Z.shiftr u 96) ++ "-" ++ hex_digits 4 (Z.shiftr u 80) ++ "-"
   ++ hex_digits 4 (Z.shiftr u 64) ++ "-" ++ hex_digits 4 (Z.shiftr u 48) ++ "-"
   ++ hex_digits 12 u)%string.
Proof.
  unfold uuid_str.
  rewrite (hex_digits_add 8 24), (hex_digits_add 4 20), (hex_digits_add 4 16),
    (hex_digits_add 4 12).
  rewrite (substring_app_len _ _ 8) by apply length_hex_digits.
  rewrite (substring_app_skip _ _ 8 0) by apply length_hex_digits.
  rewrite (substring_app_len _ _ 4) by apply length_hex_digits.
  rewrite (substring_app_skip _ _ 8 4) by apply length_hex_digits.
  rewrite (substring_app_skip _ _ 4 0) by apply length_hex_digits.
  rewrite (substring_app_len _ _ 4) by apply length_hex_digits.
  rewrite (substring_app_skip _ _ 8 8) by apply length_hex_digits.
  rewrite (substring_app_skip _ _ 4 4) by apply length_hex_digits.
  rewrite (substring_app_skip _ _ 4 0) by apply length_hex_digits.
  rewrite (substring_app_len _ _ 4) by apply length_hex_digits.
  rewrite (substring_app_skip _ _ 8 12) by apply length_hex_digits.
  rewrite (substring_app_skip _ _ 4 8) by apply length_hex_digits.
  rewrite (substring_app_skip _ _ 4 4) by apply length_hex_digits.
  rewrite (substring_app_skip _ _ 4 0) by apply length_hex_digits.
  rewrite (substring_len_all _ 12) by apply length_hex_digits.
  reflexivity.
Qed.

(** ** Reading [str(u)] back *)

Lemma unhex_go_app acc (s1 s2 : string) :
  unhex_go acc (s1 ++ s2) = unhex_go (unhex_go acc s1) s2.
Proof.
  revert acc. induction s1 as [|c s1 IH]; intros acc; [done|].
  rewrite string_app_cons. simpl. destruct (Ascii.eqb c "-"); apply IH.
Qed.

Lemma pow16_pos k : 0 <= k -> 0 < 16 ^ k.
Proof. intros. apply Z.pow_pos_nonneg; lia. Qed.

Lemma shiftr_nibbles n k : 0 <= k -> Z.shiftr n (4 * k) = n / 16 ^ k.
Proof.
  intros Hk. rewrite Z.shiftr_div_pow2 by lia.
  rewrite Z.pow_mul_r by lia. reflexivity.
Qed.

Lemma unhex_hex_digits acc k n :
  unhex_go acc (hex_digits k n) = acc * 16 ^ Z.of_nat k + n mod 16 ^ Z.of_nat k.
Proof.
  revert acc. induction k as [|k IH]; intros acc.
  - simpl. rewrite Z.mod_1_r. lia.
  - cbn [hex_digits unhex_go].
    destruct (hexdig_spec _ (nibble_range n (4 * Z.of_nat k))) as (Hv & Hd & _).
    rewrite Hd, IH, Hv, shiftr_nibbles by lia.
    rewrite Nat2Z.inj_succ, Z.pow_succ_r, (Z.mul_comm 16), Z.rem_mul_r by
      (try apply Z.pow_nonzero; lia).
    ring.
Qed.

(** Splitting [n mod 16^(a+b)] into its high [a] and low [b] digits. *)
Lemma mod_merge n a b c : 0 <= a -> 0 <= b -> c = a + b ->
  Z.shiftr n (4 * b) mod 16 ^ a * 16 ^ b + n mod 16 ^ b = n mod 16 ^ c.
Proof.
  intros Ha Hb ->. rewrite shiftr_nibbles, Z.pow_add_r, (Z.mul_comm (16 ^ a)) by lia.
  rewrite Z.rem_mul_r by (generalize (pow16_pos a) (pow16_pos b); lia).
  ring.
Qed.

Lemma shiftr_step u c a b : 0 <= a -> 0 <= b -> c = a + 4 * b ->
  Z.shiftr u c = Z.shiftr (Z.shiftr u a) (4 * b).
Proof. intros ? ? ->. rewrite Z.shiftr_shiftr by lia. reflexivity. Qed.

(** Round trip: the hex digits of [str(u)] read back give [u] modulo
    [2^128]. *)
Lemma uuid_unhex u : unhex (uuid_str u) = u mod 2 ^ 128.
Proof.
  unfold unhex. rewrite uuid_str_blocks, !unhex_go_app. cbn [unhex_go Ascii.eqb Bool.eqb].
  rewrite !unhex_hex_digits.
  change (Z.of_nat 8) with 8; change (Z.of_nat 4) with 4; change (Z.of_nat 12) with 12.
  rewrite Z.mul_0_l, Z.add_0_l.
  rewrite (shiftr_step u 96 80 4), (mod_merge (Z.shiftr u 80) 8 4 12) by lia.
  rewrite (shiftr_step u 80 64 4), (mod_merge (Z.shiftr u 64) 12 4 16) by lia.
  rewrite (shiftr_step u 64 48 4), (mod_merge (Z.shiftr u 48) 16 4 20) by lia.
  rewrite (shiftr_step u 48 0 12), Z.shiftr_0_r, (mod_merge u 20 12 32) by lia.
  reflexivity.
Qed.

(** ** Bits of [uuid4()] *)

Lemma int_from_bytes_go acc bs :
  0 <= acc ->
  0 <= fold_left (fun acc b => acc * 256 + Z.of_N (Byte.to_N b)) bs acc
    < (acc + 1) * 2 ^ (8 * Z.of_nat (List.length bs)).
Proof.
  revert acc. induction bs as [|b bs IH]; intros acc Hacc; simpl.
  - lia.
  - pose proof (Byte.to_N_bounded b) as Hb.
    specialize (IH (acc * 256 + Z.of_N (Byte.to_N b)) ltac:(lia)).
    rewrite Nat2Z.inj_succ, Z.mul_succ_r, Z.pow_add_r by lia.
    change (2 ^ 8) with 256 in *. nia.
Qed.

(** [int.from_bytes] of [os.urandom(16)] is a 128-bit integer. *)
Lemma int_from_bytes_bound bs :
  List.length bs = 16%nat -> 0 <= int_from_bytes bs < 2 ^ 128.
Proof.
  intros Hl. pose proof (int_from_bytes_go 0 bs ltac:(lia)) as H.
  unfold int_from_bytes. rewrite Hl in H. exact H.
Qed.

Lemma testbit_high x n i : 0 <= x < 2 ^ n -> n <= i -> Z.testbit x i = false.
Proof.
  intros [H0 H1] Hi. destruct (Z.eq_dec x 0) as [->|Hx]; [apply Z.testbit_0_l|].
  apply Z.bits_above_log2; [lia|]. apply Z.log2_lt_pow2 in H1; lia.
Qed.

Lemma below_pow2_bits x n : 0 <= x -> 0 <= n ->
  (forall i, n <= i -> Z.testbit x i = false) -> x < 2 ^ n.
Proof.
  intros H0 Hn Hb.
  assert (E : x = Z.land x (Z.ones n)).
  { apply Z.bits_inj'. intros i Hi. rewrite Z.land_spec, Z.testbit_ones_nonneg by lia.
    destruct (Z.ltb_spec i n); [by rewrite andb_true_r | by rewrite Hb]. }
  rewrite E, Z.land_ones by lia. apply Z.mod_pos_bound, Z.pow_pos_nonneg; lia.
Qed.

Lemma shiftl_const_high c k i : 0 <= c < 2 ^ 16 -> 0 <= k -> k + 16 <= i ->
  Z.testbit (Z.shiftl c k) i = false.
Proof. intros Hc Hk Hi. rewrite Z.shiftl_spec by lia. apply (testbit_high _ 16); [exact Hc | lia]. Qed.

(** [UUID(int=...)] requires [0 <= int < 1 << 128]; [uuid4()] meets it. *)
Lemma uuid4_int_bound r : 0 <= r < 2 ^ 128 -> 0 <= uuid4_int r < 2 ^ 128.
Proof.
  intros Hr. unfold uuid4_int.
  assert (Hnn : 0 <= Z.lor (Z.land (Z.lor (Z.land r (Z.lnot (Z.shiftl 0xc000 48)))
                   (Z.shiftl 0x8000 48)) (Z.lnot (Z.shiftl 0xf000 64))) (Z.shiftl 4 76)).
  { apply Z.lor_nonneg. split; [|by apply Z.shiftl_nonneg].
    apply Z.land_nonneg. left. apply Z.lor_nonneg. split; [|by apply Z.shiftl_nonneg].
    apply Z.land_nonneg. lia. }
  split; [exact Hnn|]. apply below_pow2_bits; [exact Hnn|lia|].
  intros i Hi.
  rewrite Z.lor_spec, !Z.land_spec, Z.lor_spec, Z.land_spec.
  rewrite (testbit_high r 128 i), (shiftl_const_high 0x8000 48), (shiftl_const_high 4 76)
    by (done || lia).
  by rewrite andb_false_l.
Qed.

Lemma uuid4_bound bs : List.length bs = 16%nat -> 0 <= uuid4 bs < 2 ^ 128.
Proof. intros Hl. apply uuid4_int_bound, int_from_bytes_bound, Hl. Qed.

(** ** The version and variant digits *)

Lemma uuid4_int_testbit r i : 0 <= i ->
  Z.testbit (uuid4_int r) i =
  (((Z.testbit r i && negb (Z.testbit (Z.shiftl 0xc000 48) i)) || Z.testbit (Z.shiftl 0x8000 48) i)
   && negb (Z.testbit (Z.shiftl 0xf000 64) i)) || Z.testbit (Z.shiftl 4 76) i.
Proof.
  intros Hi. unfold uuid4_int.
  rewrite Z.lor_spec, Z.land_spec, Z.lnot_spec, Z.lor_spec, Z.land_spec, Z.lnot_spec by lia.
  reflexivity.
Qed.

(** Two nibbles are equal when their four bits are, and so are the bits
    above. *)
Lemma nibble_eq x y :
  (forall i, i = 0 \/ i = 1 \/ i = 2 \/ i = 3 -> Z.testbit x i = Z.testbit y i) ->
  (forall i, 4 <= i -> Z.testbit x i = Z.testbit y i) -> x = y.
Proof.
  intros Hlo Hhi. apply Z.bits_inj'. intros i Hi.
  destruct (Z.lt_ge_cases i 4); [apply Hlo; lia|auto].
Qed.

(** Compute a goal on one bit, with the bits of [r] left abstract. *)
Ltac bits_compute r :=
  repeat match goal with
         | |- context [Z.testbit r ?k] =>
             let t := fresh "t" in generalize (Z.testbit r k) as t; intros t; vm_compute; destruct t
         end; reflexivity.

(** [uuid4()] sets the version nibble (bits 76 to 79) to 4. *)
Lemma uuid4_version_nibble r : Z.shiftr (uuid4_int r) 76 mod 16 = 4.
Proof.
  rewrite <- (Z.land_ones _ 4) by lia. apply nibble_eq; intros i Hi.
  - rewrite Z.land_spec, Z.shiftr_spec, uuid4_int_testbit by lia.
    destruct Hi as [-> | [-> | [-> | ->]]]; bits_compute r.
  - rewrite Z.land_spec, Z.testbit_ones_nonneg by lia. replace (i <? 4) with false by lia. rewrite andb_false_r. symmetry. apply (testbit_high _ 3); lia.
Qed.

(** [uuid4()] sets the two top bits of the variant nibble (bits 60 to
    63) to [10]; the two low bits are random. *)
Lemma uuid4_variant_nibble r :
  Z.shiftr (uuid4_int r) 60 mod 16 = Z.lor (Z.land (Z.shiftr r 60 mod 16) 3) 8.
Proof.
  rewrite <- !(Z.land_ones _ 4) by lia. apply nibble_eq; intros i Hi.
  - rewrite Z.lor_spec, !Z.land_spec, !Z.shiftr_spec, uuid4_int_testbit by lia.
    destruct Hi as [-> | [-> | [-> | ->]]]; bits_compute r.
  - rewrite Z.lor_spec, !Z.land_spec, !Z.testbit_ones_nonneg by lia.
    replace (i <? 4) with false by lia. rewrite !andb_false_r.
    rewrite (testbit_high 3 2), (testbit_high 8 4) by lia. reflexivity.
Qed.

Lemma variant_digit n : 0 <= n < 16 ->
  let c := hexdig (Z.lor (Z.land n 3) 8) in c = "8"%char \/ c = "9"%char \/ c = "a"%char \/ c = "b"%char.
Proof.
  intros Hn. rewrite <- (Z2Nat.id n) by lia.
  assert (Hk : (Z.to_nat n < 16)%nat) by lia. revert Hk.
  generalize (Z.to_nat n) as k. intros k Hk.
  do 16 (destruct k as [|k]; [vm_compute; repeat (try (left; reflexivity); right); reflexivity|]). lia.
Qed.

(** The character [k + 1] places after a dash that follows [s1]. *)
Lemma get_after_dash (s1 s2 : string) k n :
  String.length s1 = k -> String.get (k + S n) (s1 ++ "-" ++ s2) = String.get n s2.
Proof.
  intros <-. induction s1 as [|c s1 IH]; [done|]. rewrite string_app_cons. apply IH.
Qed.

Lemma get_hex_digits_0 k n (s : string) :
  String.get 0 (hex_digits (S k) n ++ s) = Some (hexdig (Z.shiftr n (4 * Z.of_nat k) mod 16)).
Proof. cbn [hex_digits]. by rewrite string_app_cons. Qed.

Lemma uuid_str_get_14 u : String.get 14 (uuid_str u) = Some (hexdig (Z.shiftr u 76 mod 16)).
Proof.
  rewrite uuid_str_blocks, (get_after_dash _ _ 8 5), (get_after_dash _ _ 4 0), get_hex_digits_0
    by apply length_hex_digits.
  by rewrite Z.shiftr_shiftr by lia.
Qed.

Lemma uuid_str_get_19 u : String.get 19 (uuid_str u) = Some (hexdig (Z.shiftr u 60 mod 16)).
Proof.
  rewrite uuid_str_blocks, (get_after_dash _ _ 8 10), (get_after_dash _ _ 4 5),
    (get_after_dash _ _ 4 0), get_hex_digits_0 by apply length_hex_digits.
  by rewrite Z.shiftr_shiftr by lia.
Qed.

(** [str(uuid.uuid4())] shows the version and the variant: its
    character 14 is ['4'] and its character 19 is one of ['8'], ['9'],
    ['a'], ['b'], whatever bytes [os.urandom(16)] returned. *)
Theorem uuid4_str_version bs :
  String.get 14 (uuid_str (uuid4 bs)) = Some "4"%char /\
  exists c, String.get 19 (uuid_str (uuid4 bs)) = Some c /\
            (c = "8"%char \/ c = "9"%char \/ c = "a"%char \/ c = "b"%char).
Proof.
  unfold uuid4. split.
  - by rewrite uuid_str_get_14, uuid4_version_nibble.
  - rewrite uuid_str_get_19, uuid4_variant_nibble. eexists. split; [reflexivity|].
    apply variant_digit, Z.mod_pos_bound. lia.
Qed.

(** ** The shape of [str(uuid.uuid4())] *)

Lemma length_uuid_str u : String.length (uuid_str u) = 36%nat.
Proof. rewrite uuid_str_blocks, !string_length_app, !length_hex_digits. reflexivity. Qed.

Lemma uuid_str_no_slash u : str_has "/" (uuid_str u) = false.
Proof. rewrite uuid_str_blocks, !str_has_app, !hex_digits_no_slash. reflexivity. Qed.

(** [str(u)] has 36 characters, none of them ['/']. *)
Theorem uuid_str_shape u :
  String.length (uuid_str u) = 36%nat /\ str_has "/" (uuid_str u) = false.
Proof. split; [apply length_uuid_str|apply uuid_str_no_slash]. Qed.

(** Two uuids in range with the same string are the same uuid. *)
Theorem uuid_str_inj u1 u2 :
  0 <= u1 < 2 ^ 128 -> 0 <= u2 < 2 ^ 128 -> uuid_str u1 = uuid_str u2 -> u1 = u2.
Proof.
  intros H1 H2 E.
  rewrite <- (Z.mod_small u1 (2 ^ 128)), <- (Z.mod_small u2 (2 ^ 128)) by lia.
  by rewrite <- !uuid_unhex, E.
Qed.

(** Two draws of [uuid4()] that agree on their strings are the same uuid. *)
Lemma uuid_str_inj_witness :
  uuid4_int 42 = uuid4_int 42.
Proof.
  apply uuid_str_inj; [apply uuid4_int_bound; vm_compute; split; congruence..| reflexivity].
Defined.

