(* ===== verification/PyFloat.v ===== *)
(** * [float(str)]: CPython's [PyFloat_FromString]

    Line 63 of [src/app.py] calls [float(end_time)] and
    [float(start_time)]. The times are JSON values, so a string reaches
    CPython's string parser. [json.loads] also calls that parser for
    the numbers with a fraction or an exponent (line 27). The parser runs
    in four steps, all modelled here:
    - [_PyUnicode_TransformDecimalAndSpaceToASCII]: white space beyond
      ASCII becomes a space. Any other character from DEL on cuts the
      text at a ['?'], which no later step accepts ([transform]).
    - [_Py_string_to_number_with_underscores]: an underscore must stand
      between two digits. The underscores are then removed
      ([underscores_ok], [remove_underscores]).
    - [float_from_string_inner]: strips ASCII white space and refuses an
      empty text ([strip_by float_space]).
    - [_PyOS_ascii_strtod]: the decimal grammar of [_Py_dg_strtod], with
      its limits on digit counts and exponents ([dtoa_parse]). When no
      digit is read, [_Py_parse_inf_or_nan] takes over
      ([parse_inf_or_nan]). The whole text must be read.
    The value is the decimal rounded once to binary64, to nearest with
    ties to even, by SpecFloat's [binary_normalize] and [SFdiv], as
    David Gay's [dtoa] rounds it ([decimal_to_float]). A failure is
    [ValueError("could not convert string to float: %R")], with the
    [repr] of the argument ([py_str_repr]).

    [cpython_float] is the [FloatParser] instance these make. Theorem
    [float_str_int]: [float(str(n))] is [n] rounded to binary64, which
    is [float(n)] whenever [float(n)] does not raise [OverflowError]. *)

From S2P Require Import Prelude PyValue Uuid.
From Stdlib Require Import Floats.SpecFloat Numbers.DecimalString Numbers.DecimalN.

Local Open Scope Z_scope.

(** ** Characters and text helpers *)

Definition c_quote : ascii := "034".
Definition c_bslash : ascii := "\".

Definition is_digit (c : ascii) : bool :=
  let n := nat_of_ascii c in (48 <=? n)%nat && (n <=? 57)%nat.

(** The longest prefix of decimal digits, and the rest. *)
Fixpoint span_digits (s : string) : string * string :=
  match s with
  | String c s' =>
      if is_digit c then let (ds, r) := span_digits s' in (String c ds, r) else (EmptyString, s)
  | EmptyString => (EmptyString, EmptyString)
  end.

Fixpoint lstrip_by (p : ascii -> bool) (s : string) : string :=
  match s with
  | String c s' => if p c then lstrip_by p s' else s
  | EmptyString => EmptyString
  end.

Definition string_rev (s : string) : string := string_of_list_ascii (rev (list_ascii_of_string s)).

(** [s.strip(chars)] for the characters [p] holds of. *)
Definition strip_by (p : ascii -> bool) (s : string) : string :=
  string_rev (lstrip_by p (string_rev (lstrip_by p s))).

(** The value of a string of decimal digits. *)
Fixpoint digits_value (acc : Z) (s : string) : Z :=
  match s with
  | String c s' => digits_value (10 * acc + (Z.of_nat (nat_of_ascii c) - 48)) s'
  | EmptyString => acc
  end.

(** The decimal digits of [|z|], as [str(z)] writes them. *)
Definition abs_digits (z : Z) : string := NilZero.string_of_uint (N.to_uint (Z.abs_N z)).

(** ** [repr] of a [str] *)

(** [unicode_repr] for one code point below 256: the escapes, and
    [\xhh] for the characters [str.isprintable] refuses. *)
Definition repr_char (quote c : ascii) : string :=
  let n := nat_of_ascii c in
  if Ascii.eqb c quote || Ascii.eqb c c_bslash then String c_bslash (String c EmptyString)
  else if Ascii.eqb c "009" then "\t"
  else if Ascii.eqb c "010" then "\n"
  else if Ascii.eqb c "013" then "\r"
  else if (n <? 32)%nat || ((127 <=? n)%nat && (n <=? 160)%nat) || (n =? 173)%nat
  then String c_bslash (String "x" (hex_digits 2 (Z.of_nat n)))
  else String c EmptyString.

Fixpoint repr_chars (quote : ascii) (s : string) : string :=
  match s with
  | String c s' => repr_char quote c ++ repr_chars quote s'
  | EmptyString => EmptyString
  end.

(** [repr(s)]: single quotes, unless [s] has a single quote and no double
    quote. *)
Definition py_str_repr (s : string) : string :=
  let quote := if str_has "'" s && negb (str_has c_quote s) then c_quote else "'"%char in
  String quote (repr_chars quote s ++ String quote EmptyString).

(** ** The steps of [PyFloat_FromString] *)

(** [_PyUnicode_TransformDecimalAndSpaceToASCII] on one character:
    [None] where the text is cut at a ['?']. *)
Definition transform_char (c : ascii) : option ascii :=
  let n := nat_of_ascii c in
  if (n <? 127)%nat then Some c
  else if (n =? 133)%nat || (n =? 160)%nat then Some " "%char
  else None.

Fixpoint transform (s : string) : option string :=
  match s with
  | String c s' =>
      match transform_char c, transform s' with
      | Some c', Some t => Some (String c' t)
      | _, _ => None
      end
  | EmptyString => Some EmptyString
  end.

(** The checks of [_Py_string_to_number_with_underscores], [prev] being
    the character before [s]. *)
Fixpoint underscores_ok (prev : ascii) (s : string) : bool :=
  match s with
  | String c s' =>
      (if Ascii.eqb c "_" then is_digit prev else negb (Ascii.eqb prev "_") || is_digit c)
      && underscores_ok c s'
  | EmptyString => negb (Ascii.eqb prev "_")
  end.

Fixpoint remove_underscores (s : string) : string :=
  match s with
  | String c s' => if Ascii.eqb c "_" then remove_underscores s' else String c (remove_underscores s')
  | EmptyString => EmptyString
  end.

(** [Py_ISSPACE]: the ASCII white space of [float_from_string_inner]. *)
Definition float_space (c : ascii) : bool :=
  let n := nat_of_ascii c in ((9 <=? n)%nat && (n <=? 13)%nat) || (n =? 32)%nat.

(** An optional sign. *)
Definition dtoa_sign (s : string) : bool * string :=
  match s with
  | String c s' =>
      if Ascii.eqb c "-" then (true, s') else if Ascii.eqb c "+" then (false, s') else (false, s)
  | EmptyString => (false, EmptyString)
  end.

Fixpoint drop_zeros (s : string) : string :=
  match s with
  | String c s' => if Ascii.eqb c "0" then drop_zeros s' else s
  | EmptyString => EmptyString
  end.

(** [MAX_DIGITS] and [MAX_ABS_EXP] of CPython's [dtoa.c]. *)
Definition MAX_DIGITS : Z := 1000000000.
Definition MAX_ABS_EXP : Z := 1100000000.

(** The exponent part, [e] or [E] then a sign and digits. Without a
    digit it is not part of the number. The result is the exponent and
    the rest. *)
Definition dtoa_exp (s : string) : Z * string :=
  match s with
  | String c s1 =>
      if Ascii.eqb c "e" || Ascii.eqb c "E" then
        let (esign, s2) := dtoa_sign s1 in
        let (ds, rest) := span_digits s2 in
        match ds with
        | EmptyString => (0, s)
        | _ =>
            let sig := drop_zeros ds in
            let a := if (9 <? String.length sig)%nat then MAX_ABS_EXP
                     else Z.min (digits_value 0 sig) MAX_ABS_EXP in
            (if esign then - a else a, rest)
        end
      else (0, s)
  | EmptyString => (0, EmptyString)
  end.

(** [_Py_dg_strtod]'s parse: a sign, digits with an optional point (at
    least one digit in all), an optional exponent. The result is the
    sign, the digits as an integer, the power of ten and the rest;
    [None] where it reads nothing. *)
Definition dtoa_parse (s : string) : option (bool * Z * Z * string) :=
  let (neg, s1) := dtoa_sign s in
  let (ip, s2) := span_digits s1 in
  let '(fr, s3) := match s2 with
                   | String c s2' => if Ascii.eqb c "." then span_digits s2' else (EmptyString, s2)
                   | EmptyString => (EmptyString, EmptyString)
                   end in
  let ds := (ip ++ fr)%string in
  match ds with
  | EmptyString => None
  | _ =>
      if (MAX_DIGITS <? Z.of_nat (String.length (drop_zeros ds))) ||
         (MAX_DIGITS <? Z.of_nat (String.length fr)) then None
      else
        let (e, rest) := dtoa_exp s3 in
        Some (neg, digits_value 0 ds, e - Z.of_nat (String.length fr), rest)
  end.

(** [s] without the prefix [p], compared case-insensitively in ASCII. *)
Fixpoint strip_prefix_ci (p s : string) : option string :=
  match p, s with
  | EmptyString, _ => Some s
  | String a p', String c s' =>
      let lower x := if ((65 <=? nat_of_ascii x)%nat && (nat_of_ascii x <=? 90)%nat)
                     then ascii_of_nat (nat_of_ascii x + 32) else x in
      if Ascii.eqb (lower c) a then strip_prefix_ci p' s' else None
  | _, _ => None
  end.

(** [_Py_parse_inf_or_nan]. *)
Definition parse_inf_or_nan (s : string) : option (spec_float * string) :=
  let (neg, s1) := dtoa_sign s in
  match strip_prefix_ci "inf" s1 with
  | Some s2 => Some (S754_infinity neg, match strip_prefix_ci "inity" s2 with Some s3 => s3 | None => s2 end)
  | None => match strip_prefix_ci "nan" s1 with Some s2 => Some (S754_nan, s2) | None => None end
  end.

(** [m * 10^e] rounded to binary64, to nearest with ties to even. *)
Definition decimal_to_float (neg : bool) (m e : Z) : spec_float :=
  if m =? 0 then S754_zero neg
  else if 0 <=? e then binary_normalize prec emax (if neg then - (m * 10 ^ e) else m * 10 ^ e) 0 neg
  else SFdiv prec emax (S754_finite neg (Z.to_pos m) 0) (S754_finite false (Z.to_pos (10 ^ (- e))) 0).

(** [_PyOS_ascii_strtod] on the stripped text, which must be read to its
    end. *)
Definition strtod_all (t : string) : option spec_float :=
  match dtoa_parse t with
  | Some (neg, m, e, EmptyString) => Some (decimal_to_float neg m e)
  | Some _ => None
  | None => match parse_inf_or_nan t with Some (f, EmptyString) => Some f | _ => None end
  end.

Definition float_value_error (s : string) : exn :=
  ValueError ("could not convert string to float: " ++ py_str_repr s).

(** [float(s)] for a [str]. *)
Definition py_float_of_str (s : string) : exn + spec_float :=
  match transform s with
  | None => inl (float_value_error s)
  | Some t =>
      let t' := if str_has "_" t then (if underscores_ok "000" t then Some (remove_underscores t) else None)
                else Some t in
      match t' with
      | None => inl (float_value_error s)
      | Some u =>
          match strip_by float_space u with
          | EmptyString => inl (float_value_error s)
          | v => match strtod_all v with Some f => inr f | None => inl (float_value_error s) end
          end
      end
  end.

#[export] Instance cpython_float : FloatParser := { float_of_str := py_float_of_str }.

(** ** [float(str(n))] *)

Lemma digits_value_acc d acc :
  digits_value (Zpos acc) (NilEmpty.string_of_uint d) = Zpos (Pos.of_uint_acc d acc).
Proof.
  revert acc. induction d; intros acc; cbn [NilEmpty.string_of_uint digits_value Pos.of_uint_acc];
    try reflexivity; rewrite <- IHd; f_equal;
    lazymatch goal with |- context [Z.of_nat (nat_of_ascii ?c)] =>
      let v := eval vm_compute in (Z.of_nat (nat_of_ascii c)) in change (Z.of_nat (nat_of_ascii c)) with v end;
    rewrite ?Pos2Z.inj_add, ?Pos2Z.inj_mul; lia.
Qed.

Lemma digits_value_uint d : digits_value 0 (NilEmpty.string_of_uint d) = Z.of_uint d.
Proof.
  unfold Z.of_uint. induction d; cbn [NilEmpty.string_of_uint digits_value Pos.of_uint]; [reflexivity|..];
    lazymatch goal with |- digits_value ?a _ = _ => let v := eval vm_compute in a in change a with v end;
    [exact IHd|..]; cbn [Z.of_N]; apply digits_value_acc.
Qed.

Lemma digits_value_abs z : digits_value 0 (abs_digits z) = Z.abs z.
Proof.
  rewrite <- N2Z.inj_abs_N. unfold abs_digits, NilZero.string_of_uint.
  assert (H : forall d, N.to_uint (Z.abs_N z) = d ->
                digits_value 0 (NilEmpty.string_of_uint d) = Z.of_N (Z.abs_N z)).
  { intros d E. rewrite digits_value_uint, <- E. unfold Z.of_uint.
    change (Pos.of_uint (N.to_uint (Z.abs_N z))) with (N.of_uint (N.to_uint (Z.abs_N z))).
    by rewrite DecimalN.Unsigned.of_to. }
  remember (N.to_uint (Z.abs_N z)) as d eqn:E. destruct d; try (apply H; by symmetry).
  pose proof (f_equal N.of_uint E) as E'. rewrite DecimalN.Unsigned.of_to in E'. cbn in E'.
  rewrite <- E' in E. discriminate.
Qed.

Lemma uint_text d :
  span_digits (NilEmpty.string_of_uint d) = (NilEmpty.string_of_uint d, EmptyString) /\
  str_has "_" (NilEmpty.string_of_uint d) = false /\
  transform (NilEmpty.string_of_uint d) = Some (NilEmpty.string_of_uint d).
Proof.
  induction d; [done|..]; destruct IHd as (IH1 & IH2 & IH3);
    cbn [NilEmpty.string_of_uint span_digits str_has transform];
    rewrite ?IH1, ?IH2, ?IH3; done.
Qed.

(** The digits of a number: ASCII digits, at least one. *)
Lemma abs_digits_shape z : exists c s, abs_digits z = String c s /\ is_digit c = true /\
  span_digits (String c s) = (String c s, EmptyString) /\ str_has "_" (String c s) = false /\
  transform (String c s) = Some (String c s).
Proof.
  unfold abs_digits, NilZero.string_of_uint.
  destruct (N.to_uint (Z.abs_N z)) as [|d|d|d|d|d|d|d|d|d|d] eqn:E; [by eexists _, _|..];
    destruct (uint_text (N.to_uint (Z.abs_N z))) as (H1 & H2 & H3); rewrite E in H1, H2, H3;
    (eexists _, _; split; [reflexivity|]; split; [reflexivity|]; auto).
Qed.

Lemma digit_not_lit c x : is_digit c = true -> is_digit x = false -> Ascii.eqb x c = false.
Proof. intros Hc Hx. destruct (Ascii.eqb x c) eqn:E; [|done]. apply Ascii.eqb_eq in E. congruence. Qed.

Fixpoint all_chars (f : ascii -> bool) (s : string) : bool :=
  match s with
  | String c s' => f c && all_chars f s'
  | EmptyString => true
  end.

Lemma all_chars_app f s1 s2 : all_chars f (s1 ++ s2) = all_chars f s1 && all_chars f s2.
Proof. induction s1 as [|c s1 IH]; [done|]. rewrite string_app_cons. cbn. by rewrite IH, andb_assoc. Qed.

Lemma all_chars_list f s : all_chars f s = forallb f (list_ascii_of_string s).
Proof. induction s as [|c s IH]; cbn; [done|]. by rewrite IH. Qed.

Lemma string_rev_involutive s : string_rev (string_rev s) = s.
Proof.
  unfold string_rev. rewrite list_ascii_of_string_of_list_ascii, rev_involutive.
  apply string_of_list_ascii_of_string.
Qed.

Lemma forallb_rev {A} (f : A -> bool) l : forallb f (rev l) = forallb f l.
Proof.
  induction l as [|x l IH]; [done|]. cbn [rev forallb]. rewrite forallb_app, IH. cbn.
  by rewrite andb_true_r, andb_comm.
Qed.

Lemma all_chars_rev f s : all_chars f (string_rev s) = all_chars f s.
Proof. rewrite !all_chars_list. unfold string_rev. by rewrite list_ascii_of_string_of_list_ascii, forallb_rev. Qed.

Lemma lstrip_by_none p s : all_chars (fun c => negb (p c)) s = true -> lstrip_by p s = s.
Proof. destruct s as [|c s]; [done|]. cbn. intros [Hc _]%andb_true_iff. by destruct (p c). Qed.

(** Stripping a text without the characters it strips changes nothing. *)
Lemma strip_by_none p s : all_chars (fun c => negb (p c)) s = true -> strip_by p s = s.
Proof.
  intros Hs. unfold strip_by. rewrite (lstrip_by_none p s), lstrip_by_none, string_rev_involutive by
    (rewrite ?all_chars_rev; done). done.
Qed.

Lemma uint_digits d : all_chars is_digit (NilEmpty.string_of_uint d) = true.
Proof. induction d; cbn [NilEmpty.string_of_uint all_chars]; rewrite ?IHd; done. Qed.

Lemma abs_digits_digits z : all_chars is_digit (abs_digits z) = true.
Proof. unfold abs_digits, NilZero.string_of_uint. destruct (N.to_uint _); [done|..]; apply uint_digits. Qed.

Lemma all_chars_impl f g s : (forall c, f c = true -> g c = true) -> all_chars f s = true -> all_chars g s = true.
Proof.
  intros Hfg. induction s as [|c s IH]; [done|]. cbn. intros [Hc Hs]%andb_true_iff.
  by rewrite Hfg, IH.
Qed.

Lemma drop_zeros_len s : (String.length (drop_zeros s) <= String.length s)%nat.
Proof. induction s as [|c s IH]; cbn; [lia|]. destruct (Ascii.eqb c "0"); cbn; lia. Qed.

(** Where [z] is not [0], the sign of a zero result does not matter. *)
Lemma binary_normalize_szero z b : z <> 0 -> binary_normalize prec emax z 0 b = binary_normalize prec emax z 0 false.
Proof. by destruct z. Qed.

(** The decimal text [str(z)] parses as the number [z] with no point and
    no exponent. *)
Lemma strtod_int z :
  (String.length (abs_digits z) <= 4300)%nat ->
  strtod_all ((if z <? 0 then "-" else EmptyString) ++ abs_digits z) =
  Some (decimal_to_float (z <? 0) (Z.abs z) 0).
Proof.
  intros Hlen. destruct (abs_digits_shape z) as (c & s & Ha & Hc & Hspan & _ & _).
  rewrite <- digits_value_abs, Ha. rewrite Ha in Hlen.
  assert (Hds : dtoa_sign ((if z <? 0 then "-" else EmptyString) ++ String c s) = (z <? 0, String c s)).
  { destruct (z <? 0); rewrite ?string_app_cons, ?string_app_nil_l; cbn [dtoa_sign]; [done|].
    by rewrite (Ascii.eqb_sym c "-"), (Ascii.eqb_sym c "+"), !(digit_not_lit c). }
  unfold strtod_all, dtoa_parse. rewrite Hds, Hspan. cbn [String.append String.length].
  rewrite string_app_nil_r.
  pose proof (drop_zeros_len (String c s)) as Hd. cbn [String.length] in Hd, Hlen.
  rewrite (proj2 (Z.ltb_ge _ _)) by (unfold MAX_DIGITS; lia). reflexivity.
Qed.

Lemma transform_app s1 s2 :
  transform s1 = Some s1 -> transform s2 = Some s2 -> transform (s1 ++ s2)%string = Some (s1 ++ s2)%string.
Proof.
  induction s1 as [|c s1 IH]; intros H1 H2; [done|]. rewrite string_app_cons. cbn in H1 |- *.
  destruct (transform_char c) as [c'|]; [|discriminate]. destruct (transform s1) as [t|]; [|discriminate].
  injection H1 as -> ->. by rewrite IH.
Qed.

Lemma decimal_int z : decimal_to_float (z <? 0) (Z.abs z) 0 = binary_normalize prec emax z 0 false.
Proof.
  unfold decimal_to_float. destruct (Z.eqb_spec (Z.abs z) 0) as [Hz|Hz].
  - by replace z with 0 by lia.
  - change (0 <=? 0) with true. cbv iota. rewrite Z.mul_1_r.
    destruct (Z.ltb_spec z 0).
    + rewrite Z.abs_neq, Z.opp_involutive by lia. apply binary_normalize_szero. lia.
    + rewrite Z.abs_eq by lia. apply binary_normalize_szero. lia.
Qed.

(** C25: [float(s)] of the decimal text [s = str(n)] of an integer is
    [n] rounded to binary64, to nearest with ties to even. It is
    therefore [float(n)] whenever [float(n)] returns: a time given as the
    string ["25"] is the same float as the number [25]. Where [float(n)]
    raises [OverflowError], [float(str(n))] is an infinity instead. *)
Theorem float_str_int z :
  (String.length (abs_digits z) <= 4300)%nat ->
  py_float_of_str ((if z <? 0 then "-" else EmptyString) ++ abs_digits z) =
    inr (binary_normalize prec emax z 0 false) /\
  (forall f, float_of_int z = inr f -> py_float_of_str ((if z <? 0 then "-" else EmptyString) ++ abs_digits z) = inr f).
Proof.
  intros Hlen.
  assert (E : py_float_of_str ((if z <? 0 then "-" else EmptyString) ++ abs_digits z) =
              inr (binary_normalize prec emax z 0 false)).
  { pose proof (strtod_int z Hlen) as Hs. pose proof (abs_digits_digits z) as Hdig.
    destruct (abs_digits_shape z) as (c & s & Ha & Hc & _ & Hu & Ht).
    rewrite Ha in Hs, Hdig |- *. unfold py_float_of_str.
    set (sg := if z <? 0 then "-" else EmptyString) in *.
    assert (Hsg : transform sg = Some sg /\ str_has "_" sg = false /\
                  all_chars (fun c => negb (float_space c)) sg = true /\
                  exists x y, (sg ++ String c s)%string = String x y).
    { subst sg. destruct (z <? 0); (split; [done|]); (split; [done|]); (split; [done|]);
        eexists _, _; rewrite ?string_app_cons, ?string_app_nil_l; reflexivity. }
    destruct Hsg as (Hst & Hsu & Hss & x & y & Hxy).
    rewrite (transform_app sg _ Hst Ht), str_has_app, Hsu, Hu. cbn [orb].
    rewrite strip_by_none.
    2:{ rewrite all_chars_app, Hss.
        apply (all_chars_impl is_digit); [|done]. intros d Hd. unfold is_digit, float_space in *.
        apply andb_true_iff in Hd as [Hd1%Nat.leb_le Hd2%Nat.leb_le]. apply negb_true_iff.
        apply orb_false_iff. split; [apply andb_false_iff; right; apply Nat.leb_gt; lia|apply Nat.eqb_neq; lia]. }
    rewrite Hxy. cbv iota. rewrite <- Hxy, Hs. f_equal. apply decimal_int. }
  split; [exact E|]. intros f Hf. rewrite E. unfold float_of_int in Hf.
  destruct (binary_normalize prec emax z 0 false); by inversion Hf.
Qed.

Lemma float_str_int_witness :
  (String.length (abs_digits (-25)) <= 4300)%nat /\
  py_float_of_str ((if -25 <? 0 then "-" else EmptyString) ++ abs_digits (-25)) =
    inr (binary_normalize prec emax (-25) 0 false).
Proof.
  assert (H : (String.length (abs_digits (-25)) <= 4300)%nat) by (apply Nat.leb_le; vm_compute; reflexivity).
  split; [exact H|]. exact (proj1 (float_str_int (-25) H)).
Defined.
