(* ===== verification/Json.v ===== *)
(** * [json.loads] and Flask's [jsonify]

    The body of a request reaches [process_video] through
    [request.get_json()] (line 27), which decodes the body text with
    [json.loads]. The handler's replies leave it through [jsonify]
    (lines 34, 47, 49, 61, 88, 91, 94), which encodes them with
    [json.dumps] under Flask's settings: keys sorted, ASCII output,
    compact separators.

    This file models both, after CPython's [json] module (the C scanner
    [_json.c], which [json.loads] uses by default, and [json.encoder]):
    - [scan_string] is [scanstring]: escapes, and the [strict] refusal
      of control characters;
    - [scan_number] is the number rule of the scanner: an optional
      minus, [0] or a nonzero digit and more digits, an optional
      fraction, an optional exponent; with [int()]
      for integers (at most 4300 digits, CPython's limit) and [float()]
      for the others;
    - [scan_once], [scan_array] and [scan_object] are the recursive
      descent of [scan_once], [_parse_array] and [_parse_object]. A JSON
      object becomes [dict(pairs)]: a repeated key keeps its first place
      and its last value ([dict_of_pairs]);
    - [json_loads] skips white space around the one value and refuses
      extra data;
    - [json_dumps] is [json.dumps] with [sort_keys=True],
      [ensure_ascii=True] and the compact separators (a comma between
      items, a colon between key and value, no spaces).

    The decoder is written with fuel. [json_loads_terminates] shows the
    fuel it is given is always enough: it never runs out. The round trip
    [json_roundtrip] shows that decoding the encoding of a value gives
    the value back, and [dumps_back_loads] that trailing white space,
    such as [jsonify]'s newline, does not change that.

    Text is a Rocq [string]: a sequence of code points below 256. A
    [\uXXXX] escape of a code point of 256 or more is outside the model:
    the decoder answers [SOut] for it, not an error. The [repr] of a
    finite float is not modelled: [json_dumps] answers [DumpOut] for one.
    The C scanner enters every array and object through the
    interpreter's recursion guard ([_Py_EnterRecursiveCall]), which
    raises [RecursionError] past the interpreter's limit. How many
    levels the guard leaves [json.loads] depends on the version of
    CPython, on its stack and on the frames of the caller: it is a
    parameter, [json_room] of the class [RecursionLimit], and the
    scanner answers [SDeep] when a value would nest deeper. The
    theorems hold for every room; [loads_depth] shows every value
    decoded fits it, and [nest_too_deep] that one level more fails.

    [dumps_printable] shows the encoder's output is printable
    ASCII, so a client can send it as the body of a request unchanged. *)

From S2P Require Import Prelude PyValue Uuid PyFloat.
From Stdlib Require Import Floats.SpecFloat Numbers.DecimalString Numbers.DecimalPos.

(** ** Characters *)

(** JSON white space: space, tab, newline, carriage return. *)
Definition is_ws (c : ascii) : bool :=
  Ascii.eqb c " " || Ascii.eqb c "009" || Ascii.eqb c "010" || Ascii.eqb c "013".

Fixpoint skip_ws (s : string) : string :=
  match s with
  | String c s' => if is_ws c then skip_ws s' else s
  | EmptyString => EmptyString
  end.

(** A hex digit of a [\uXXXX] escape, in either case. *)
Definition hex_value (c : ascii) : option Z :=
  let n := Z.of_nat (nat_of_ascii c) in
  if ((48 <=? n) && (n <=? 57))%Z then Some (n - 48)%Z
  else if ((97 <=? n) && (n <=? 102))%Z then Some (n - 87)%Z
  else if ((65 <=? n) && (n <=? 70))%Z then Some (n - 55)%Z
  else None.

(** [s] without its prefix [p], if [p] is one. *)
Fixpoint strip_prefix (p s : string) : option string :=
  match p, s with
  | EmptyString, _ => Some s
  | String a p', String b s' => if Ascii.eqb a b then strip_prefix p' s' else None
  | String _ _, EmptyString => None
  end.

(** ** Strings: [scanstring] *)

Inductive str_result : Type :=
| StrOk (t : string) (rest : string)
| StrErr
| StrOut.

Definition str_cons (c : ascii) (r : str_result) : str_result :=
  match r with StrOk t rest => StrOk (String c t) rest | _ => r end.

(** The one-character escapes: a backslash then a quote, a backslash,
    a slash, or one of [b f n r t]. *)
Definition simple_escape (e : ascii) : option ascii :=
  if Ascii.eqb e c_quote then Some c_quote
  else if Ascii.eqb e c_bslash then Some c_bslash
  else if Ascii.eqb e "/" then Some "/"%char
  else if Ascii.eqb e "b" then Some "008"%char
  else if Ascii.eqb e "f" then Some "012"%char
  else if Ascii.eqb e "n" then Some "010"%char
  else if Ascii.eqb e "r" then Some "013"%char
  else if Ascii.eqb e "t" then Some "009"%char
  else None.

(** The text of a string literal after its opening quote: its value and
    the text after the closing quote. A control character, a bad escape
    or a missing closing quote is an error. [\uXXXX] needs a character
    after its four digits, as the C scanner checks. *)
Fixpoint scan_string (s : string) : str_result :=
  match s with
  | EmptyString => StrErr
  | String c s' =>
      if Ascii.eqb c c_quote then StrOk EmptyString s'
      else if Ascii.eqb c c_bslash then
        match s' with
        | EmptyString => StrErr
        | String e s2 =>
            match simple_escape e with
            | Some d => str_cons d (scan_string s2)
            | None =>
                if Ascii.eqb e "u" then
                  match s2 with
                  | String h1 (String h2 (String h3 (String h4 (String _ _ as s3)))) =>
                      match hex_value h1, hex_value h2, hex_value h3, hex_value h4 with
                      | Some a, Some b, Some c0, Some d =>
                          let code := (((a * 16 + b) * 16 + c0) * 16 + d)%Z in
                          if (code <? 256)%Z then str_cons (ascii_of_nat (Z.to_nat code)) (scan_string s3)
                          else StrOut
                      | _, _, _, _ => StrErr
                      end
                  | _ => StrErr
                  end
                else StrErr
            end
        end
      else if nat_of_ascii c <? 32 then StrErr
      else str_cons c (scan_string s')
  end.

(** ** Numbers *)

(** [0] or a nonzero digit and more digits. *)
Definition scan_int_part (s : string) : option (string * string) :=
  match s with
  | String c s1 =>
      if Ascii.eqb c "0" then Some (String c EmptyString, s1)
      else if is_digit c then let (ds, r) := span_digits s1 in Some (String c ds, r)
      else None
  | EmptyString => None
  end.

(** [(\.[0-9]+)?] *)
Definition scan_frac (s : string) : string * string :=
  match s with
  | String p (String d _ as s1) =>
      if Ascii.eqb p "." && is_digit d then let (ds, r) := span_digits s1 in (String p ds, r)
      else (EmptyString, s)
  | _ => (EmptyString, s)
  end.

(** The optional sign of an exponent. *)
Definition scan_sign (s : string) : string * string :=
  match s with
  | String c s2 => if Ascii.eqb c "+" || Ascii.eqb c "-" then (String c EmptyString, s2)
                   else (EmptyString, s)
  | EmptyString => (EmptyString, s)
  end.

(** [([eE][-+]?[0-9]+)?], given back when no digit follows. *)
Definition scan_exp (s : string) : string * string :=
  match s with
  | String e s1 =>
      if Ascii.eqb e "e" || Ascii.eqb e "E" then
        let '(sg, s2) := scan_sign s1 in
        match span_digits s2 with
        | (EmptyString, _) => (EmptyString, s)
        | (ds, r) => (String e (sg ++ ds), r)
        end
      else (EmptyString, s)
  | EmptyString => (EmptyString, s)
  end.

(** [int()]'s limit on the digits of a decimal string (CPython 3.11+). *)
Definition int_max_str_digits : nat := 4300.

(** ** The decoder *)

Inductive scan_result : Type :=
| SOk (v : value) (rest : string)
| SErr
| SOut
| SFuel
| SDeep.

(** [dict(pairs)]: a key seen again keeps its place and takes the new value. *)
Fixpoint dict_set (k : string) (v : value) (kvs : list (string * value)) : list (string * value) :=
  match kvs with
  | [] => [(k, v)]
  | (k', v') :: r => if String.eqb k k' then (k, v) :: r else (k', v') :: dict_set k v r
  end.

Definition dict_of_pairs (l : list (string * value)) : list (string * value) :=
  fold_left (fun d kv => dict_set kv.1 kv.2 d) l [].

(** The levels of arrays and objects [json.loads] may open before the
    recursion guard raises [RecursionError]. *)
Class RecursionLimit := { json_room : nat }.

(** The guard leaves room for at least one level: a reply of the
    handler, one object, is decoded. *)
Class RecursionLimitLaws `{RecursionLimit} := { json_room_pos : (1 <= json_room)%nat }.

Section Decoder.
Context `{FloatParser}.

(** [_match_number]: a number at the head of [s], if there is one. *)
Definition scan_number (s : string) : scan_result :=
  let '(neg, s1) := match strip_prefix "-" s with
                    | Some s1 => (true, s1)
                    | None => (false, s)
                    end in
  match scan_int_part s1 with
  | None => SErr
  | Some (ip, r1) =>
      let '(fr, r2) := scan_frac r1 in
      let '(ex, r3) := scan_exp r2 in
      match fr, ex with
      | EmptyString, EmptyString =>
          if int_max_str_digits <? String.length ip then SErr
          else match NilEmpty.uint_of_string ip with
               | Some u => SOk (PInt (if neg then - Z.of_uint u else Z.of_uint u)%Z) r3
               | None => SErr
               end
      | _, _ =>
          match float_of_str ((if neg then "-" else EmptyString) ++ ip ++ fr ++ ex)%string with
          | inr f => SOk (PFloat f) r3
          | inl _ => SErr
          end
      end
  end.

(** The literals [null], [true], [false], [NaN], [Infinity],
    [-Infinity], then a number. *)
Definition scan_literal (s : string) : scan_result :=
  match strip_prefix "null" s with Some r => SOk PNone r | None =>
  match strip_prefix "true" s with Some r => SOk (PBool true) r | None =>
  match strip_prefix "false" s with Some r => SOk (PBool false) r | None =>
  match strip_prefix "NaN" s with Some r => SOk (PFloat S754_nan) r | None =>
  match strip_prefix "Infinity" s with Some r => SOk (PFloat (S754_infinity false)) r | None =>
  match strip_prefix "-Infinity" s with Some r => SOk (PFloat (S754_infinity true)) r | None =>
  scan_number s
  end end end end end end.

Fixpoint scan_once (fuel room : nat) (s : string) {struct fuel} : scan_result :=
  match fuel with
  | O => SFuel
  | S f =>
      match s with
      | EmptyString => SErr
      | String c s1 =>
          if Ascii.eqb c c_quote then
            match scan_string s1 with
            | StrOk t r => SOk (PStr t) r
            | StrErr => SErr
            | StrOut => SOut
            end
          else if Ascii.eqb c "{" then
            match room with
            | O => SDeep
            | S room' =>
                let s2 := skip_ws s1 in
                match strip_prefix "}" s2 with
                | Some r => SOk (PDict []) r
                | None => scan_object f room' s2 []
                end
            end
          else if Ascii.eqb c "[" then
            match room with
            | O => SDeep
            | S room' =>
                let s2 := skip_ws s1 in
                match strip_prefix "]" s2 with
                | Some r => SOk (PList []) r
                | None => scan_array f room' s2 []
                end
            end
          else scan_literal s
      end
  end
(** [_parse_array] from an element on: the elements so far are [acc],
    newest first; [room] is what is left for the elements. *)
with scan_array (fuel room : nat) (s : string) (acc : list value) {struct fuel} : scan_result :=
  match fuel with
  | O => SFuel
  | S f =>
      match scan_once f room s with
      | SOk v r =>
          match strip_prefix "," (skip_ws r) with
          | Some r1 => scan_array f room (skip_ws r1) (v :: acc)
          | None =>
              match strip_prefix "]" (skip_ws r) with
              | Some r1 => SOk (PList (rev (v :: acc))) r1
              | None => SErr
              end
          end
      | e => e
      end
  end
(** [_parse_object] from a key on. *)
with scan_object (fuel room : nat) (s : string) (acc : list (string * value)) {struct fuel}
    : scan_result :=
  match fuel with
  | O => SFuel
  | S f =>
      match s with
      | String q s1 =>
          if Ascii.eqb q c_quote then
            match scan_string s1 with
            | StrOk k r =>
                match strip_prefix ":" (skip_ws r) with
                | Some r1 =>
                    match scan_once f room (skip_ws r1) with
                    | SOk v r2 =>
                        match strip_prefix "," (skip_ws r2) with
                        | Some r3 => scan_object f room (skip_ws r3) ((k, v) :: acc)
                        | None =>
                            match strip_prefix "}" (skip_ws r2) with
                            | Some r3 => SOk (PDict (dict_of_pairs (rev ((k, v) :: acc)))) r3
                            | None => SErr
                            end
                        end
                    | e => e
                    end
                | None => SErr
                end
            | StrErr => SErr
            | StrOut => SOut
            end
          else SErr
      | EmptyString => SErr
      end
  end.

(** [json.loads(s)]: one value between white space, with enough fuel. *)
Definition json_loads `{RecursionLimit} (s : string) : scan_result :=
  let s1 := skip_ws s in
  match scan_once (S (2 * String.length s1)) json_room s1 with
  | SOk v r => match skip_ws r with EmptyString => SOk v EmptyString | _ => SErr end
  | e => e
  end.
End Decoder.

(** ** The encoder *)

(** [py_encode_basestring_ascii] for one character: the short escapes,
    printable ASCII as is, and [\u00XX] in lowercase hex for the rest. *)
Definition json_escape_char (c : ascii) : string :=
  let n := nat_of_ascii c in
  if Ascii.eqb c c_quote then String c_bslash (String c_quote EmptyString)
  else if Ascii.eqb c c_bslash then String c_bslash (String c_bslash EmptyString)
  else if Ascii.eqb c "008" then String c_bslash (String "b" EmptyString)
  else if Ascii.eqb c "012" then String c_bslash (String "f" EmptyString)
  else if Ascii.eqb c "010" then String c_bslash (String "n" EmptyString)
  else if Ascii.eqb c "013" then String c_bslash (String "r" EmptyString)
  else if Ascii.eqb c "009" then String c_bslash (String "t" EmptyString)
  else if (32 <=? n) && (n <=? 126) then String c EmptyString
  else String c_bslash (String "u" (hex_digits 4 (Z.of_nat n))).

Fixpoint json_escape (s : string) : string :=
  match s with
  | EmptyString => EmptyString
  | String c s' => (json_escape_char c ++ json_escape s')%string
  end.

Definition json_quote (s : string) : string :=
  String c_quote (json_escape s ++ String c_quote EmptyString).

(** The outcome of encoding: the text, an exception, or a case the
    model leaves out (the [repr] of a finite float). *)
Inductive dumped : Type :=
| Dumped (t : string)
| DumpRaises (e : exn)
| DumpOut.

(** [int.__repr__]: refused beyond 4300 digits (CPython 3.11+). *)
Definition int_repr (z : Z) : dumped :=
  if int_max_str_digits <? String.length (abs_digits z) then
    DumpRaises (ValueError "Exceeds the limit (4300 digits) for integer string conversion; use sys.set_int_max_str_digits() to increase the limit")
  else Dumped ((if (z <? 0)%Z then "-" else EmptyString) ++ abs_digits z)%string.

Fixpoint join (sep : string) (l : list string) : string :=
  match l with
  | [] => EmptyString
  | [x] => x
  | x :: l' => (x ++ sep ++ join sep l')%string
  end.

(** [sorted(dct.items())] on keys, by insertion. *)
Fixpoint insert_key {A} (kv : string * A) (l : list (string * A)) : list (string * A) :=
  match l with
  | [] => [kv]
  | kv' :: l' => if String.leb kv.1 kv'.1 then kv :: l else kv' :: insert_key kv l'
  end.

Definition sort_keys {A} (l : list (string * A)) : list (string * A) := fold_right insert_key [] l.

(** Encoding items left to right: the first item that does not encode
    decides. *)
Fixpoint dumped_all (l : list dumped) : dumped + list string :=
  match l with
  | [] => inr []
  | Dumped t :: l' => match dumped_all l' with inr ts => inr (t :: ts) | e => e end
  | d :: _ => inl d
  end.

Definition dumped_map (f : list string -> string) (l : list dumped) : dumped :=
  match dumped_all l with inr ts => Dumped (f ts) | inl d => d end.

Definition dump_pair (k : string) (d : dumped) : dumped :=
  match d with Dumped t => Dumped (json_quote k ++ ":" ++ t)%string | _ => d end.

(** [json.dumps] with Flask's settings. A dict's items are encoded in
    the order of their sorted keys. *)
Fixpoint json_dumps (v : value) : dumped :=
  match v with
  | PNone => Dumped "null"
  | PBool b => Dumped (if b then "true" else "false")
  | PInt z => int_repr z
  | PFloat f =>
      match f with
      | S754_nan => Dumped "NaN"
      | S754_infinity false => Dumped "Infinity"
      | S754_infinity true => Dumped "-Infinity"
      | _ => DumpOut
      end
  | PStr s => Dumped (json_quote s)
  | PList l => dumped_map (fun ts => "[" ++ join "," ts ++ "]")%string (map json_dumps l)
  | PDict kvs =>
      dumped_map (fun ts => "{" ++ join "," ts ++ "}")%string
        (map (fun kd => dump_pair kd.1 kd.2)
           (sort_keys (map (fun kv => (kv.1, json_dumps kv.2)) kvs)))
  end.

(** The body of [jsonify(v)]: the encoding and a newline. *)
Definition jsonify_text (v : value) : dumped :=
  match json_dumps v with Dumped t => Dumped (t ++ String "010" EmptyString)%string | d => d end.

(** ** Termination: the decoder never runs out of fuel *)

Lemma skip_ws_len s : String.length (skip_ws s) <= String.length s.
Proof. induction s as [|c s IH]; cbn; [lia|]. destruct (is_ws c); cbn; lia. Qed.

Lemma strip_prefix_len p s r :
  strip_prefix p s = Some r -> String.length s = String.length p + String.length r.
Proof.
  revert s. induction p as [|a p IH]; intros s; cbn; [intros [= <-]; lia|].
  destruct s as [|b s]; [done|]. destruct (Ascii.eqb a b); [|done].
  intros H. cbn. rewrite (IH _ H). lia.
Qed.

Lemma span_digits_len s ds r :
  span_digits s = (ds, r) -> String.length r <= String.length s.
Proof.
  revert ds. induction s as [|c s IH]; intros ds; cbn; [intros [= _ <-]; cbn; lia|].
  destruct (is_digit c); [|intros [= _ <-]; cbn; lia].
  destruct (span_digits s) as [ds' r'] eqn:E. intros [= _ <-]. specialize (IH _ eq_refl). lia.
Qed.

Lemma scan_frac_len s fr r : scan_frac s = (fr, r) -> String.length r <= String.length s.
Proof.
  unfold scan_frac. destruct s as [|p [|d s]]; try (intros [= _ <-]; cbn; lia).
  destruct (_ && _); [|intros [= _ <-]; cbn; lia].
  destruct (span_digits (String d s)) as [ds r'] eqn:E. intros [= _ <-].
  apply span_digits_len in E. cbn in *. lia.
Qed.

Lemma scan_sign_len s sg r : scan_sign s = (sg, r) -> String.length r <= String.length s.
Proof. unfold scan_sign. destruct s as [|c s]; [|destruct (_ || _)]; intros [= _ <-]; cbn; lia. Qed.

Lemma scan_exp_len s ex r : scan_exp s = (ex, r) -> String.length r <= String.length s.
Proof.
  unfold scan_exp. destruct s as [|e s1]; [intros [= _ <-]; cbn; lia|].
  destruct (_ || _); [|intros [= _ <-]; cbn; lia].
  destruct (scan_sign s1) as [sg s2] eqn:E. apply scan_sign_len in E.
  destruct (span_digits s2) as [[|d ds] r'] eqn:E2; intros [= _ <-]; [cbn; lia|].
  apply span_digits_len in E2. cbn. lia.
Qed.

Lemma scan_int_part_len s ip r :
  scan_int_part s = Some (ip, r) -> String.length r < String.length s.
Proof.
  unfold scan_int_part. destruct s as [|c s1]; [done|].
  destruct (Ascii.eqb c "0"); [intros [= _ <-]; cbn; lia|].
  destruct (is_digit c); [|done].
  destruct (span_digits s1) as [ds r'] eqn:E. intros [= _ <-]. apply span_digits_len in E. cbn. lia.
Qed.

Lemma scan_string_len s t r : scan_string s = StrOk t r -> String.length r < String.length s.
Proof.
  (* strong induction on the length, as [\uXXXX] skips five characters *)
  revert t r. induction s as [s IH] using (induction_ltof1 _ (@String.length)); unfold ltof in IH.
  intros t r. destruct s as [|c s']; cbn [scan_string]; [done|].
  assert (Hcons : forall d s0 t0, String.length s0 < String.length (String c s') ->
            str_cons d (scan_string s0) = StrOk t0 r -> String.length r < String.length (String c s')).
  { intros d s0 t0 Hl. destruct (scan_string s0) eqn:E; cbn; try done.
    intros [= _ <-]. specialize (IH s0 Hl _ _ E). cbn in *. lia. }
  destruct (Ascii.eqb c c_quote); [intros [= _ <-]; cbn; lia|].
  destruct (Ascii.eqb c c_bslash).
  - destruct s' as [|e s2]; [done|].
    destruct (simple_escape e); [apply Hcons; cbn; lia|].
    destruct (Ascii.eqb e "u"); [|done].
    destruct s2 as [|h1 [|h2 [|h3 [|h4 [|x s3]]]]]; try done.
    destruct (hex_value h1), (hex_value h2), (hex_value h3), (hex_value h4); try done.
    destruct (_ <? 256)%Z; [apply Hcons; cbn; lia|done].
  - destruct (nat_of_ascii c <? 32); [done|]. apply Hcons. cbn. lia.
Qed.

(** [r] is a result of scanning [s]: not out of fuel, and a value
    consumes at least one character. *)
Definition scan_ok (s : string) (r : scan_result) : Prop :=
  r <> SFuel /\ forall v rest, r = SOk v rest -> String.length rest < String.length s.

Lemma scan_ok_weaken s1 s r :
  scan_ok s1 r -> String.length s1 <= String.length s -> scan_ok s r.
Proof. intros [Hf Hl] Hs. split; [done|]. intros v rest E. specialize (Hl v rest E). lia. Qed.

Lemma scan_ok_err s : scan_ok s SErr.
Proof. split; [done|]. by intros ? ? ?. Qed.

Lemma scan_ok_out s : scan_ok s SOut.
Proof. split; [done|]. by intros ? ? ?. Qed.

Lemma scan_ok_deep s : scan_ok s SDeep.
Proof. split; [done|]. by intros ? ? ?. Qed.

Lemma scan_ok_some s v rest : String.length rest < String.length s -> scan_ok s (SOk v rest).
Proof. intros Hl. split; [done|]. by intros ? ? [= _ <-]. Qed.

#[local] Hint Resolve scan_ok_err scan_ok_out scan_ok_deep scan_ok_some : core.

Section Termination.
Context `{FloatParser} `{RecursionLimit}.

Lemma scan_number_ok s : scan_ok s (scan_number s).
Proof.
  unfold scan_number.
  destruct (match strip_prefix "-" s with Some s1 => (true, s1) | None => (false, s) end)
    as [neg s1] eqn:En.
  assert (Hs1 : String.length s1 <= String.length s).
  { destruct (strip_prefix "-" s) eqn:E; injection En as _ <-; [|lia].
    apply strip_prefix_len in E. cbn in E. lia. }
  destruct (scan_int_part s1) as [[ip r1]|] eqn:E1; [|auto].
  apply scan_int_part_len in E1.
  destruct (scan_frac r1) as [fr r2] eqn:E2. apply scan_frac_len in E2.
  destruct (scan_exp r2) as [ex r3] eqn:E3. apply scan_exp_len in E3.
  assert (Hr : String.length r3 < String.length s) by lia.
  destruct fr, ex; repeat case_match; auto.
Qed.

Lemma scan_literal_ok s : scan_ok s (scan_literal s).
Proof.
  unfold scan_literal.
  repeat match goal with
         | |- context [strip_prefix ?p s] =>
             let E := fresh "E" in
             destruct (strip_prefix p s) eqn:E;
             [apply scan_ok_some; apply strip_prefix_len in E; cbn in E; lia|]
         end.
  apply scan_number_ok.
Qed.

(** The three scanners with enough fuel: twice the length of the text
    for a value, one more for the rest of an array or an object. *)
Lemma scan_fuel_ok f :
  (forall room s, 2 * String.length s < f -> scan_ok s (scan_once f room s)) /\
  (forall room s acc, 2 * String.length s + 1 < f -> scan_ok s (scan_array f room s acc)) /\
  (forall room s acc, 2 * String.length s + 1 < f -> scan_ok s (scan_object f room s acc)).
Proof.
  induction f as [|f (IHo & IHa & IHb)]; [split; [|split]; intros; lia|].
  split; [|split].
  - intros room [|c s1] Hf; cbn [scan_once]; [auto|].
    pose proof (skip_ws_len s1) as Hw. cbn [String.length] in Hf.
    destruct (Ascii.eqb c c_quote).
    { destruct (scan_string s1) eqn:E; auto. apply scan_ok_some.
      apply scan_string_len in E. cbn. lia. }
    destruct (Ascii.eqb c "{").
    { destruct room as [|room]; [auto|]. destruct (strip_prefix "}" (skip_ws s1)) eqn:E.
      - apply scan_ok_some. apply strip_prefix_len in E. cbn in *. lia.
      - eapply scan_ok_weaken; [apply IHb; lia|cbn; lia]. }
    destruct (Ascii.eqb c "[").
    { destruct room as [|room]; [auto|]. destruct (strip_prefix "]" (skip_ws s1)) eqn:E.
      - apply scan_ok_some. apply strip_prefix_len in E. cbn in *. lia.
      - eapply scan_ok_weaken; [apply IHa; lia|cbn; lia]. }
    apply scan_literal_ok.
  - intros room s acc Hf. cbn [scan_array].
    destruct (IHo room s ltac:(lia)) as [Hnf Hl].
    destruct (scan_once f room s) as [v r| | | |] eqn:E; auto; [|done].
    specialize (Hl v r eq_refl). pose proof (skip_ws_len r).
    destruct (strip_prefix "," (skip_ws r)) as [r1|] eqn:E1.
    + apply strip_prefix_len in E1. cbn in E1. pose proof (skip_ws_len r1).
      eapply scan_ok_weaken; [apply IHa; lia|lia].
    + destruct (strip_prefix "]" (skip_ws r)) as [r1|] eqn:E2; auto.
      apply strip_prefix_len in E2. cbn in E2. apply scan_ok_some. lia.
  - intros room [|q s1] acc Hf; cbn [scan_object]; [auto|]. cbn [String.length] in Hf.
    destruct (Ascii.eqb q c_quote); [|auto].
    destruct (scan_string s1) as [k r| |] eqn:E; auto.
    apply scan_string_len in E. pose proof (skip_ws_len r).
    destruct (strip_prefix ":" (skip_ws r)) as [r1|] eqn:E1; [|auto].
    apply strip_prefix_len in E1. cbn in E1. pose proof (skip_ws_len r1).
    destruct (IHo room (skip_ws r1) ltac:(lia)) as [Hnf Hl].
    destruct (scan_once f room (skip_ws r1)) as [v r2| | | |] eqn:E2; auto; [|done].
    specialize (Hl v r2 eq_refl). pose proof (skip_ws_len r2).
    destruct (strip_prefix "," (skip_ws r2)) as [r3|] eqn:E3.
    + apply strip_prefix_len in E3. cbn in E3. pose proof (skip_ws_len r3).
      eapply scan_ok_weaken; [apply IHb; lia|cbn; lia].
    + destruct (strip_prefix "}" (skip_ws r2)) as [r3|] eqn:E4; auto.
      apply strip_prefix_len in E4. cbn in E4. apply scan_ok_some. cbn. lia.
Qed.

(** C5: [json.loads] always terminates: the fuel it gives the scanner,
    twice the length of the text plus one, is never exhausted, whatever
    the text. *)
Theorem json_loads_terminates s : json_loads s <> SFuel.
Proof.
  unfold json_loads.
  lazymatch goal with
  | |- context [scan_once ?f ?room (skip_ws s)] =>
      destruct (proj1 (scan_fuel_ok f) room (skip_ws s) ltac:(lia)) as [Hnf _]
  end.
  destruct (scan_once _ _ (skip_ws s)) as [v r| | | |]; try done.
  by destruct (skip_ws r).
Qed.
End Termination.

(** ** More fuel changes nothing *)

Section Monotone.
Context `{FloatParser}.

Lemma scan_fuel_mono f :
  (forall room s f', f <= f' -> scan_once f room s <> SFuel -> scan_once f' room s = scan_once f room s) /\
  (forall room s acc f', f <= f' -> scan_array f room s acc <> SFuel ->
     scan_array f' room s acc = scan_array f room s acc) /\
  (forall room s acc f', f <= f' -> scan_object f room s acc <> SFuel ->
     scan_object f' room s acc = scan_object f room s acc).
Proof.
  induction f as [|f (IHo & IHa & IHb)]; [split; [|split]; intros; done|].
  split; [|split].
  - intros room s [|f'] Hle Hnf; [lia|]. destruct s as [|c s1]; cbn [scan_once] in *; [done|].
    destruct (Ascii.eqb c c_quote); [done|].
    destruct (Ascii.eqb c "{").
    { destruct room; [done|]. destruct (strip_prefix "}" (skip_ws s1)); [done|]. apply IHb; [lia|done]. }
    destruct (Ascii.eqb c "["); [|done]. destruct room; [done|].
    destruct (strip_prefix "]" (skip_ws s1)); [done|]. apply IHa; [lia|done].
  - intros room s acc [|f'] Hle Hnf; [lia|]. cbn [scan_array] in *.
    destruct (scan_once f room s) eqn:E; [| | |done|];
      rewrite (IHo room s f' ltac:(lia)) by (by rewrite E); rewrite E; [|done..].
    destruct (strip_prefix "," (skip_ws rest)); [|done]. apply IHa; [lia|done].
  - intros room s acc [|f'] Hle Hnf; [lia|]. cbn [scan_object] in *.
    destruct s as [|q s1]; [done|]. destruct (Ascii.eqb q c_quote); [|done].
    destruct (scan_string s1); [|done..]. destruct (strip_prefix ":" (skip_ws rest)); [|done].
    destruct (scan_once f room (skip_ws s)) eqn:E; [| | |done|];
      rewrite (IHo _ _ f' ltac:(lia)) by (by rewrite E); rewrite E; [|done..].
    destruct (strip_prefix "," (skip_ws rest0)); [|done]. apply IHb; [lia|done].
Qed.

Lemma scan_once_mono f f' room s :
  f <= f' -> scan_once f room s <> SFuel -> scan_once f' room s = scan_once f room s.
Proof. apply (proj1 (scan_fuel_mono f)). Qed.
End Monotone.

(** ** The encoder's output is printable ASCII *)

Definition printable (c : ascii) : bool :=
  let n := nat_of_ascii c in (32 <=? n) && (n <=? 126).

Fixpoint all_printable (s : string) : bool :=
  match s with
  | EmptyString => true
  | String c s' => printable c && all_printable s'
  end.

Lemma all_printable_app s1 s2 :
  all_printable (s1 ++ s2) = all_printable s1 && all_printable s2.
Proof.
  induction s1 as [|c s1 IH]; [done|]. rewrite string_app_cons. cbn [all_printable].
  by rewrite IH, andb_assoc.
Qed.

(** Checked on the 256 characters. *)
Lemma escape_char_printable c : all_printable (json_escape_char c) = true.
Proof.
  assert (Hall : forallb (fun n => all_printable (json_escape_char (ascii_of_nat n))) (seq 0 256) = true)
    by (vm_compute; reflexivity).
  rewrite <- (ascii_nat_embedding c). rewrite forallb_forall in Hall. apply Hall, in_seq.
  pose proof (nat_ascii_bounded c). lia.
Qed.

Lemma json_quote_printable s : all_printable (json_quote s) = true.
Proof.
  unfold json_quote. cbn [all_printable]. rewrite all_printable_app.
  induction s as [|c s IH]; [done|]. cbn [json_escape]. rewrite all_printable_app, escape_char_printable.
  exact IH.
Qed.

Lemma uint_printable d : all_printable (NilEmpty.string_of_uint d) = true.
Proof. induction d; cbn; auto. Qed.

Lemma int_repr_printable z t : int_repr z = Dumped t -> all_printable t = true.
Proof.
  unfold int_repr. destruct (_ <? _); [discriminate|]. intros [= <-].
  rewrite all_printable_app. unfold abs_digits, NilZero.string_of_uint.
  destruct (z <? 0)%Z, (N.to_uint (Z.abs_N z)); cbn [andb all_printable]; try apply uint_printable; done.
Qed.

Lemma join_cons2 sep t t' ts : join sep (t :: t' :: ts) = (t ++ sep ++ join sep (t' :: ts))%string.
Proof. reflexivity. Qed.

Lemma join_printable sep ts :
  all_printable sep = true -> Forall (fun t => all_printable t = true) ts -> all_printable (join sep ts) = true.
Proof.
  intros Hs. induction 1 as [|t ts Ht _ IH]; [done|].
  destruct ts as [|t' ts]; [done|]. rewrite join_cons2, !all_printable_app, Ht, Hs. exact IH.
Qed.

Lemma dumped_all_in l ts : dumped_all l = inr ts -> Forall (fun t => In (Dumped t) l) ts.
Proof.
  revert ts. induction l as [|[t| |] l IH]; cbn [dumped_all]; intros ts E; try discriminate.
  - by injection E as <-.
  - destruct (dumped_all l) as [|ts'] eqn:E'; [discriminate|]. injection E as <-.
    constructor; [by left|]. eapply Forall_impl; [by apply IH|]. intros; by right.
Qed.

Lemma insert_key_perm {A} (kv : string * A) l : Permutation (insert_key kv l) (kv :: l).
Proof.
  induction l as [|kv' l IH]; [done|]. cbn [insert_key]. destruct (String.leb _ _); [done|].
  rewrite IH. apply perm_swap.
Qed.

Lemma sort_keys_perm {A} (l : list (string * A)) : Permutation (sort_keys l) l.
Proof.
  induction l as [|kv l IH]; [done|]. unfold sort_keys. cbn [fold_right].
  rewrite insert_key_perm. by f_equiv.
Qed.

Lemma dumped_map_ok f l t :
  dumped_map f l = Dumped t -> exists ts, dumped_all l = inr ts /\ t = f ts.
Proof.
  unfold dumped_map. destruct (dumped_all l) as [d|ts] eqn:E; [|intros [= <-]; by exists ts].
  intros ->. exfalso. induction l as [|[t'| |] l IH]; cbn [dumped_all] in E; try discriminate.
  destruct (dumped_all l); [by apply IH|discriminate].
Qed.

Lemma dump_pair_ok k d t : dump_pair k d = Dumped t -> exists t', d = Dumped t' /\ t = (json_quote k ++ ":" ++ t')%string.
Proof. destruct d as [t'| |]; cbn; intros E; try discriminate. injection E as <-. by exists t'. Qed.

Lemma bracket_printable o c ts :
  all_printable (String o EmptyString) = true -> all_printable (String c EmptyString) = true ->
  Forall (fun t => all_printable t = true) ts ->
  all_printable (String o EmptyString ++ join "," ts ++ String c EmptyString) = true.
Proof. intros Ho Hc Hts. rewrite !all_printable_app, Ho, Hc, join_printable; done. Qed.

(** The text [json.dumps] writes is printable ASCII ([ensure_ascii=True]):
    every character is between the space and [~], so it holds no control
    character and no byte above 127. *)
Lemma dumps_printable v t : json_dumps v = Dumped t -> all_printable t = true.
Proof.
  revert t. induction v as [| b | z | fl | s | l IH | kvs IH] using value_ind_deep; intros t Ht.
  - by injection Ht as <-.
  - destruct b; by injection Ht as <-.
  - by apply int_repr_printable in Ht.
  - destruct fl as [sg| [|] | | sg m e]; try discriminate; by injection Ht as <-.
  - injection Ht as <-. apply json_quote_printable.
  - apply dumped_map_ok in Ht as (ts & E & ->). apply bracket_printable; [done|done|].
    eapply Forall_impl; [by apply dumped_all_in|]. intros t Hin.
    apply in_map_iff in Hin as (x & Hx & Hin). rewrite List.Forall_forall in IH. by apply (IH x Hin).
  - apply dumped_map_ok in Ht as (ts & E & ->). apply bracket_printable; [done|done|].
    eapply Forall_impl; [by apply dumped_all_in|]. intros t Hin.
    apply in_map_iff in Hin as ([k d] & Hkd & Hin). cbn [fst snd] in Hkd.
    apply dump_pair_ok in Hkd as (t' & -> & ->).
    apply (Permutation_in _ (sort_keys_perm _)), in_map_iff in Hin as ([k' x] & [= <- Hx] & Hin).
    rewrite !all_printable_app, json_quote_printable. rewrite List.Forall_forall in IH. by apply (IH (k', x) Hin).
Qed.

(** ** The round trip *)

(** *** Strings *)

Lemma hex_value_hexdig d : (0 <= d < 16)%Z -> hex_value (hexdig d) = Some d.
Proof.
  intros Hd. rewrite <- (Z2Nat.id d) by lia.
  assert (Hn : (Z.to_nat d < 16)%nat) by lia. revert Hn.
  generalize (Z.to_nat d) as n. intros n Hn.
  do 16 (destruct n as [|n]; [reflexivity|]). lia.
Qed.

(** The four nibbles of a code point below 256, read back. *)
Lemma nibbles_below_256 n : (0 <= n < 256)%Z ->
  (((Z.shiftr n (4 * Z.of_nat 3) mod 16 * 16 + Z.shiftr n (4 * Z.of_nat 2) mod 16) * 16
    + Z.shiftr n (4 * Z.of_nat 1) mod 16) * 16 + Z.shiftr n (4 * Z.of_nat 0) mod 16)%Z = n.
Proof.
  intros Hn. rewrite !Z.shiftr_div_pow2 by lia.
  change (2 ^ (4 * Z.of_nat 3))%Z with 4096%Z. change (2 ^ (4 * Z.of_nat 2))%Z with 256%Z.
  change (2 ^ (4 * Z.of_nat 1))%Z with 16%Z. change (2 ^ (4 * Z.of_nat 0))%Z with 1%Z.
  rewrite (Z.div_small n 4096), (Z.div_small n 256), Z.div_1_r by lia.
  rewrite (Z.mod_small (n / 16)) by (split; [apply Z.div_pos|apply Z.div_lt_upper_bound]; lia).
  rewrite (Z.mod_small 0) by lia. pose proof (Z.div_mod n 16). lia.
Qed.

Lemma escape_char_scan c rest :
  rest <> EmptyString ->
  scan_string (json_escape_char c ++ rest) = str_cons c (scan_string rest).
Proof.
  intros Hr. unfold json_escape_char.
  destruct (Ascii.eqb c c_quote) eqn:E1; [apply Ascii.eqb_eq in E1; subst; reflexivity|].
  destruct (Ascii.eqb c c_bslash) eqn:E2; [apply Ascii.eqb_eq in E2; subst; reflexivity|].
  destruct (Ascii.eqb c "008") eqn:E3; [apply Ascii.eqb_eq in E3; subst; reflexivity|].
  destruct (Ascii.eqb c "012") eqn:E4; [apply Ascii.eqb_eq in E4; subst; reflexivity|].
  destruct (Ascii.eqb c "010") eqn:E5; [apply Ascii.eqb_eq in E5; subst; reflexivity|].
  destruct (Ascii.eqb c "013") eqn:E6; [apply Ascii.eqb_eq in E6; subst; reflexivity|].
  destruct (Ascii.eqb c "009") eqn:E7; [apply Ascii.eqb_eq in E7; subst; reflexivity|].
  destruct ((32 <=? nat_of_ascii c) && (nat_of_ascii c <=? 126)) eqn:E8.
  - apply andb_true_iff in E8 as [E8 _]. apply Nat.leb_le in E8.
    rewrite string_app_cons, string_app_nil_l. cbn [scan_string]. rewrite E1, E2.
    by replace (nat_of_ascii c <? 32) with false by (symmetry; apply Nat.ltb_ge; lia).
  - destruct rest as [|x rest']; [done|].
    pose proof (nat_ascii_bounded c) as Hc.
    cbn [hex_digits]. rewrite !string_app_cons, string_app_nil_l. cbn [scan_string].
    change (Ascii.eqb c_bslash c_quote) with false. change (Ascii.eqb c_bslash c_bslash) with true.
    cbn [simple_escape]. change (simple_escape "u") with (@None ascii).
    cbn -[Z.shiftr Z.modulo Z.mul Z.add hexdig scan_string].
    rewrite !hex_value_hexdig by apply nibble_range.
    rewrite nibbles_below_256 by lia.
    replace (Z.of_nat (nat_of_ascii c) <? 256)%Z with true by (symmetry; apply Z.ltb_lt; lia).
    by rewrite Nat2Z.id, ascii_nat_embedding.
Qed.

Lemma json_escape_scan s r :
  scan_string (json_escape s ++ String c_quote r) = StrOk s r.
Proof.
  induction s as [|c s IH]; [reflexivity|]. cbn [json_escape].
  rewrite string_app_assoc, escape_char_scan, IH; [done|].
  by destruct (json_escape s); rewrite ?string_app_cons, ?string_app_nil_l.
Qed.

(** *** Integers *)

(** The text after a value in the encoder's output: nothing, a
    delimiter, or white space. *)
Definition stop (r : string) : bool :=
  match r with
  | EmptyString => true
  | String c _ => Ascii.eqb c "," || Ascii.eqb c "]" || Ascii.eqb c "}" || is_ws c
  end.

Lemma stop_char c r : stop (String c r) = true -> In c [","; "]"; "}"; " "; "009"; "010"; "013"]%char.
Proof.
  intros H. cbn [stop] in H. unfold is_ws in H.
  rewrite !orb_true_iff, !Ascii.eqb_eq in H. destruct_or! H; subst; cbn; tauto.
Qed.

(** The cases of a [stop] text [r]: empty, or one of seven heads. *)
Ltac stop_cases r := intros H; destruct r as [|c r]; [reflexivity|];
  apply stop_char in H; repeat destruct H as [<-|H]; [..|destruct H].

Lemma stop_no_digit r : stop r = true -> span_digits r = (EmptyString, r).
Proof. stop_cases r; reflexivity. Qed.

Lemma stop_frac r : stop r = true -> scan_frac r = (EmptyString, r).
Proof. stop_cases r; destruct r; reflexivity. Qed.

Lemma stop_exp r : stop r = true -> scan_exp r = (EmptyString, r).
Proof. stop_cases r; reflexivity. Qed.

Lemma span_uint d r : stop r = true ->
  span_digits (NilEmpty.string_of_uint d ++ r) = (NilEmpty.string_of_uint d, r).
Proof.
  intros Hr. induction d; cbn [NilEmpty.string_of_uint];
    rewrite ?string_app_cons, ?string_app_nil_l; [by apply stop_no_digit|..];
    cbn [span_digits]; rewrite IHd; reflexivity.
Qed.

Lemma nzhead_not_D0 x y : Decimal.nzhead x <> Decimal.D0 y.
Proof. induction x; cbn; congruence. Qed.

(** The decimal digits of a positive number start with a nonzero digit. *)
Lemma pos_digits_head p : exists c ds,
  NilEmpty.string_of_uint (Pos.to_uint p) = String c ds /\ Ascii.eqb c "0" = false /\
  is_digit c = true /\ span_digits (ds ++ EmptyString) = (ds, EmptyString) /\
  forall r, stop r = true -> span_digits (ds ++ r) = (ds, r).
Proof.
  assert (Hn : Pos.to_uint p = Decimal.unorm (Pos.to_uint p)).
  { rewrite <- DecimalPos.Unsigned.to_of, DecimalPos.Unsigned.of_to. reflexivity. }
  pose proof (DecimalPos.Unsigned.to_uint_nonzero p) as Hz.
  pose proof (DecimalPos.Unsigned.to_uint_nonnil p) as Hnil.
  destruct (Pos.to_uint p) as [|d|d|d|d|d|d|d|d|d|d]; try done;
    try (eexists _, (NilEmpty.string_of_uint d); split; [reflexivity|];
         split; [reflexivity|]; split; [reflexivity|];
         split; [apply (span_uint d); reflexivity|intros r Hr; by apply span_uint]).
  exfalso. unfold Decimal.unorm in Hn. cbn [Decimal.nzhead] in Hn.
  destruct (Decimal.nzhead d) as [|u|u|u|u|u|u|u|u|u|u] eqn:E; try discriminate.
  - exact (Hz Hn).
  - injection Hn as ->. by apply (nzhead_not_D0 (Decimal.D0 u) u).
Qed.

(** The digits of [|z|] are read back by the integer rule. *)
Lemma abs_digits_scan z r : stop r = true ->
  exists c ds u, abs_digits z = String c ds /\ is_digit c = true /\
    scan_int_part (abs_digits z ++ r) = Some (abs_digits z, r) /\
    NilEmpty.uint_of_string (abs_digits z) = Some u /\ Z.of_uint u = Z.abs z.
Proof.
  intros Hr. destruct z as [|p|p].
  - exists "0"%char, EmptyString, (Decimal.D0 Decimal.Nil). split; [reflexivity|].
    split; [reflexivity|]. change (abs_digits 0%Z) with (String "0" EmptyString). split; [|done].
    rewrite string_app_cons, string_app_nil_l. reflexivity.
  - destruct (pos_digits_head p) as (c & ds & Hd & H0 & Hc & _ & Hs).
    assert (Ha : abs_digits (Z.pos p) = NilEmpty.string_of_uint (Pos.to_uint p)).
    { unfold abs_digits, NilZero.string_of_uint. cbn [Z.abs_N N.to_uint].
      by destruct (Pos.to_uint p) eqn:E; [destruct (DecimalPos.Unsigned.to_uint_nonnil p)|..]. }
    exists c, ds, (Pos.to_uint p). rewrite Ha, Hd. split; [done|]. split; [done|]. split.
    + rewrite string_app_cons. cbn [scan_int_part]. rewrite H0, Hc, (Hs r Hr). reflexivity.
    + rewrite <- Hd, NilEmpty.usu. split; [done|].
      unfold Z.of_uint. by rewrite DecimalPos.Unsigned.of_to.
  - destruct (pos_digits_head p) as (c & ds & Hd & H0 & Hc & _ & Hs).
    assert (Ha : abs_digits (Z.neg p) = NilEmpty.string_of_uint (Pos.to_uint p)).
    { unfold abs_digits, NilZero.string_of_uint. cbn [Z.abs_N N.to_uint].
      by destruct (Pos.to_uint p) eqn:E; [destruct (DecimalPos.Unsigned.to_uint_nonnil p)|..]. }
    exists c, ds, (Pos.to_uint p). rewrite Ha, Hd. split; [done|]. split; [done|]. split.
    + rewrite string_app_cons. cbn [scan_int_part]. rewrite H0, Hc, (Hs r Hr). reflexivity.
    + rewrite <- Hd, NilEmpty.usu. split; [done|].
      unfold Z.of_uint. by rewrite DecimalPos.Unsigned.of_to.
Qed.

Section IntRoundtrip.
Context `{FloatParser}.

(** Text that starts with a digit, or a minus and a digit, is a number
    for [scan_once]: no literal name matches it. *)
Lemma scan_literal_number s :
  (exists c s', s = String c s' /\ is_digit c = true) \/
  (exists c s', s = String "-" (String c s') /\ is_digit c = true) ->
  scan_literal s = scan_number s.
Proof.
  intros [(c & s' & -> & Hc)|(c & s' & -> & Hc)]; unfold scan_literal; cbn [strip_prefix].
  - rewrite !(digit_not_lit c) by done. reflexivity.
  - rewrite (digit_not_lit c "I") by done. reflexivity.
Qed.

Lemma int_repr_scan z t r :
  int_repr z = Dumped t -> stop r = true -> scan_literal (t ++ r) = SOk (PInt z) r.
Proof.
  unfold int_repr. destruct (int_max_str_digits <? _) eqn:Hlen; [discriminate|].
  intros [= <-] Hr. apply Nat.ltb_ge in Hlen.
  destruct (abs_digits_scan z r Hr) as (c & ds & u & Hd & Hc & Hip & Hu & Hz).
  rewrite string_app_assoc. rewrite Hd in *.
  assert (Hnum : scan_number ((if (z <? 0)%Z then "-" else EmptyString) ++ String c ds ++ r)%string
                 = SOk (PInt z) r).
  { unfold scan_number.
    destruct (z <? 0)%Z eqn:Hneg.
    - rewrite string_app_cons, string_app_nil_l. cbn [strip_prefix Ascii.eqb Bool.eqb].
      rewrite Hip, stop_frac, stop_exp by done. cbn -[Nat.ltb String.length NilEmpty.uint_of_string].
      rewrite (proj2 (Nat.ltb_ge _ _) Hlen), Hu. do 2 f_equal. apply Z.ltb_lt in Hneg. lia.
    - rewrite string_app_nil_l, string_app_cons. cbn [strip_prefix].
      rewrite (digit_not_lit c "-") by done.
      rewrite <- string_app_cons, Hip, stop_frac, stop_exp by done.
      cbn -[Nat.ltb String.length NilEmpty.uint_of_string].
      rewrite (proj2 (Nat.ltb_ge _ _) Hlen), Hu. do 2 f_equal. apply Z.ltb_ge in Hneg. lia. }
  rewrite <- Hnum. apply scan_literal_number. destruct (z <? 0)%Z.
  - right. exists c, (ds ++ r)%string. by rewrite string_app_cons, string_app_nil_l, string_app_cons.
  - left. exists c, (ds ++ r)%string. by rewrite string_app_nil_l, string_app_cons.
Qed.
End IntRoundtrip.

(** *** Values *)

(** Keys in the order [sorted] gives them. *)
Fixpoint keys_sorted (l : list string) : bool :=
  match l with
  | x :: (y :: _) as l' => String.leb x y && keys_sorted l'
  | _ => true
  end.

(** The values [json.dumps] encodes and [json.loads] gives back as
    they are: no finite float, no integer beyond 4300 digits, and dicts
    whose keys are distinct and sorted, as [sort_keys] writes them. *)
Fixpoint canonical (v : value) : bool :=
  match v with
  | PInt z => String.length (abs_digits z) <=? int_max_str_digits
  | PFloat f => match f with S754_nan | S754_infinity _ => true | _ => false end
  | PList l => forallb canonical l
  | PDict kvs =>
      keys_sorted (map fst kvs) && bool_decide (NoDup (map fst kvs))
      && forallb (fun kv => canonical kv.2) kvs
  | _ => true
  end.

(** The fuel a value needs: one per nesting level, two per item. *)
Fixpoint vsize (v : value) : nat :=
  match v with
  | PList l => S (list_sum (map (fun x => S (S (vsize x))) l))
  | PDict kvs => S (list_sum (map (fun kv => S (S (vsize kv.2))) kvs))
  | _ => 0
  end.

(** The levels of arrays and objects a value nests: the recursion
    guard's count. *)
Fixpoint vdepth (v : value) : nat :=
  match v with
  | PList l => S (list_max (map vdepth l))
  | PDict kvs => S (list_max (map (fun kv => vdepth kv.2) kvs))
  | _ => 0
  end.

Lemma depth_elems l room : vdepth (PList l) <= S room -> Forall (fun x => vdepth x <= room) l.
Proof. cbn. intros H. apply (Forall_map vdepth (fun d => d <= room)), list_max_le. lia. Qed.

Lemma depth_pairs kvs room :
  vdepth (PDict kvs) <= S room -> Forall (fun kv => vdepth kv.2 <= room) kvs.
Proof. cbn. intros H. apply (Forall_map (fun kv => vdepth kv.2) (fun d => d <= room)), list_max_le. lia. Qed.

Lemma digit_not_ws c : is_digit c = true -> is_ws c = false.
Proof.
  intros Hc. destruct (is_ws c) eqn:E; [|done]. unfold is_ws in E.
  repeat (apply orb_true_iff in E as [E|E]); apply Ascii.eqb_eq in E; subst; discriminate.
Qed.

Lemma skip_ws_head c s : is_ws c = false -> skip_ws (String c s) = String c s.
Proof. intros Hc. cbn. by rewrite Hc. Qed.

Section ValueRoundtrip.
Context `{FloatParser} `{RecursionLimit}.

Lemma scan_once_char f room c s :
  Ascii.eqb c c_quote = false -> Ascii.eqb c "{" = false -> Ascii.eqb c "[" = false ->
  scan_once (S f) room (String c s) = scan_literal (String c s).
Proof. intros H1 H2 H3. cbn [scan_once]. by rewrite H1, H2, H3. Qed.

(** The first character of an encoding: not white space, not [\]]. *)
Definition head_ok (t : string) : Prop :=
  exists c t', t = String c t' /\ is_ws c = false /\ Ascii.eqb c "]" = false.

Lemma head_ok_ws t r : head_ok t -> skip_ws (t ++ r) = (t ++ r)%string.
Proof. intros (c & t' & -> & Hw & _). rewrite string_app_cons. by apply skip_ws_head. Qed.

Lemma head_ok_close t r : head_ok t -> strip_prefix "]" (t ++ r) = None.
Proof. intros (c & t' & -> & _ & Hc). rewrite string_app_cons. cbn [strip_prefix]. by rewrite Ascii.eqb_sym, Hc. Qed.

(** What the encoding [t] of [x] does for the decoder: it starts well,
    and it is read back as [x] before any delimiter, with enough fuel
    and room. *)
Definition reads_back (x : value) (t : string) : Prop :=
  head_ok t /\ forall r f room, stop r = true -> vsize x < f -> vdepth x <= room ->
    scan_once f room (t ++ r) = SOk x r.

Lemma int_reads_back z t : int_repr z = Dumped t -> reads_back (PInt z) t.
Proof.
  intros Ht. split.
  - unfold int_repr in Ht. destruct (_ <? _); [discriminate|]. injection Ht as <-.
    destruct (abs_digits_scan z EmptyString eq_refl) as (c & ds & _ & Hd & Hc & _).
    rewrite Hd. destruct (z <? 0)%Z; rewrite ?string_app_cons, ?string_app_nil_l.
    + by eexists _, _.
    + exists c, ds. split; [done|]. split; [by apply digit_not_ws|]. rewrite Ascii.eqb_sym. by apply digit_not_lit.
  - intros r [|f] room Hr Hf _; [cbn in Hf; lia|]. rewrite <- (int_repr_scan z t r Ht Hr).
    unfold int_repr in Ht. destruct (_ <? _); [discriminate|]. injection Ht as <-.
    destruct (abs_digits_scan z EmptyString eq_refl) as (c & ds & _ & Hd & Hc & _).
    rewrite Hd. destruct (z <? 0)%Z; rewrite ?string_app_cons, ?string_app_nil_l;
      apply scan_once_char; try reflexivity; rewrite Ascii.eqb_sym; by apply digit_not_lit.
Qed.

Lemma str_reads_back s : reads_back (PStr s) (json_quote s).
Proof.
  split; [by eexists _, _|]. intros r [|f] room Hr Hf _; [cbn in Hf; lia|].
  unfold json_quote. rewrite string_app_cons. cbn [scan_once].
  change (Ascii.eqb c_quote c_quote) with true. cbv iota.
  rewrite string_app_assoc, string_app_cons, string_app_nil_l, json_escape_scan. reflexivity.
Qed.

(** A literal name is read back. *)
Lemma lit_reads_back x t :
  head_ok t -> (forall r, stop r = true -> scan_literal (t ++ r) = SOk x r) ->
  (forall c t', t = String c t' -> Ascii.eqb c c_quote = false /\ Ascii.eqb c "{" = false /\
                                   Ascii.eqb c "[" = false) ->
  vsize x = 0 -> reads_back x t.
Proof.
  intros Hh Hl Hc Hx. split; [done|]. intros r [|f] room Hr Hf _; [lia|].
  destruct Hh as (c & t' & -> & _). destruct (Hc c t' eq_refl) as (H1 & H2 & H3).
  rewrite string_app_cons, scan_once_char, <- string_app_cons by done. by apply Hl.
Qed.

Lemma dumped_all_ok l ts :
  Forall2 (fun x t => json_dumps x = Dumped t) l ts -> dumped_all (map json_dumps l) = inr ts.
Proof. induction 1 as [|x t l ts Hx _ IH]; [done|]. cbn [map dumped_all]. by rewrite Hx, IH. Qed.

Lemma join_head_ok sep t ts : head_ok t -> head_ok (join sep (t :: ts)).
Proof.
  destruct ts as [|t' ts]; [done|]. intros (c & t0 & -> & Hw & Hc). rewrite join_cons2.
  exists c, (t0 ++ sep ++ join sep (t' :: ts))%string. by rewrite string_app_cons.
Qed.

(** The elements of an array, from the first one on. *)
Lemma array_reads_back l ts acc r f room :
  Forall2 reads_back l ts -> l <> [] -> stop r = true ->
  list_sum (map (fun x => S (S (vsize x))) l) < f -> Forall (fun x => vdepth x <= room) l ->
  scan_array f room (join "," ts ++ "]" ++ r) acc = SOk (PList (rev acc ++ l)) r.
Proof.
  intros HF. revert acc f. induction HF as [|x t l ts [Hh Hx] HF IH]; intros acc f Hne Hr Hf Hd; [done|].
  apply Forall_cons in Hd as [Hdx Hd].
  destruct f as [|f]; [cbn in Hf; lia|]. cbn [scan_array]. cbn [map list_sum] in Hf.
  destruct HF as [|x' t' l' ts' Hx' HF'].
  - cbn [join]. rewrite Hx by (done || cbn in *; lia). reflexivity.
  - rewrite join_cons2, !string_app_assoc, Hx by (done || cbn in *; lia).
    change (strip_prefix "," (skip_ws ("," ++ join "," (t' :: ts') ++ "]" ++ r)))
      with (Some (join "," (t' :: ts') ++ "]" ++ r))%string.
    cbv iota. rewrite head_ok_ws by (apply join_head_ok, Hx').
    rewrite (IH (x :: acc) f) by (done || cbn in *; lia). cbn [rev]. by rewrite <- app_assoc.
Qed.

(** The text of one item of an object. *)
Definition pair_text (kt : string * string) : string := (json_quote kt.1 ++ ":" ++ kt.2)%string.

Lemma pair_text_app k t rest :
  (pair_text (k, t) ++ rest)%string =
  String c_quote (json_escape k ++ String c_quote (String ":" (t ++ rest))).
Proof.
  unfold pair_text, json_quote. cbn [fst snd].
  rewrite !string_app_assoc, string_app_cons. f_equal.
  rewrite !string_app_assoc, string_app_cons, string_app_nil_l, string_app_cons, string_app_nil_l.
  reflexivity.
Qed.

Lemma join_pairs_head kt kts r :
  exists rest, (join "," (map pair_text (kt :: kts)) ++ r)%string = String c_quote rest.
Proof.
  destruct kt as [k t]. destruct kts as [|kt' kts]; cbn [map].
  - cbn [join]. rewrite pair_text_app. by eexists.
  - rewrite join_cons2, string_app_assoc, pair_text_app. by eexists.
Qed.

Lemma scan_object_pair f room k t rest acc :
  head_ok t ->
  scan_object (S f) room (pair_text (k, t) ++ rest) acc =
  match scan_once f room (t ++ rest) with
  | SOk v r2 =>
      match strip_prefix "," (skip_ws r2) with
      | Some r3 => scan_object f room (skip_ws r3) ((k, v) :: acc)
      | None =>
          match strip_prefix "}" (skip_ws r2) with
          | Some r3 => SOk (PDict (dict_of_pairs (rev ((k, v) :: acc)))) r3
          | None => SErr
          end
      end
  | e => e
  end.
Proof.
  intros Hh. rewrite pair_text_app. cbn [scan_object].
  change (Ascii.eqb c_quote c_quote) with true. cbv iota.
  rewrite json_escape_scan. cbv iota.
  change (strip_prefix ":" (skip_ws (String ":" (t ++ rest)))) with (Some (t ++ rest)%string).
  cbv iota. by rewrite head_ok_ws.
Qed.

(** The items of an object, from the first one on. *)
Lemma object_reads_back kvs kts acc r f room :
  Forall2 (fun kv kt => kv.1 = kt.1 /\ reads_back kv.2 kt.2) kvs kts -> kvs <> [] -> stop r = true ->
  list_sum (map (fun kv => S (S (vsize kv.2))) kvs) < f -> Forall (fun kv => vdepth kv.2 <= room) kvs ->
  scan_object f room (join "," (map pair_text kts) ++ "}" ++ r) acc =
  SOk (PDict (dict_of_pairs (rev acc ++ kvs))) r.
Proof.
  intros HF. revert acc f.
  induction HF as [|[k x] [k' t] kvs kts [Hk [Hh Hx]] HF IH]; intros acc f Hne Hr Hf Hd; [done|].
  apply Forall_cons in Hd as [Hdx Hd]. cbn [snd] in Hdx.
  cbn [fst snd] in *. subst k'. destruct f as [|f]; [cbn in Hf; lia|]. cbn [map list_sum] in Hf.
  destruct HF as [|kv' kt' kvs' kts' Hx' HF'].
  - cbn [map join]. rewrite scan_object_pair by done. cbn [fst snd] in Hf.
    rewrite Hx by (done || cbn in *; lia). reflexivity.
  - cbn [map]. rewrite join_cons2, !string_app_assoc, scan_object_pair by done.
    rewrite Hx by (done || cbn in *; lia).
    change (strip_prefix "," (skip_ws ("," ++ join "," (pair_text kt' :: map pair_text kts') ++ "}" ++ r)))
      with (Some (join "," (pair_text kt' :: map pair_text kts') ++ "}" ++ r))%string.
    cbv iota.
    destruct (join_pairs_head kt' kts' ("}" ++ r)) as [rest Hrest].
    change (pair_text kt' :: map pair_text kts') with (map pair_text (kt' :: kts')).
    rewrite Hrest. change (skip_ws (String c_quote rest)) with (String c_quote rest).
    rewrite <- Hrest.
    rewrite (IH ((k, x) :: acc) f) by (done || cbn in *; lia). cbn [rev]. by rewrite <- app_assoc.
Qed.

Lemma sort_keys_sorted {A} (l : list (string * A)) :
  keys_sorted (map fst l) = true -> sort_keys l = l.
Proof.
  induction l as [|[k x] l IH]; [done|]. cbn [map sort_keys fold_right].
  destruct l as [|[k' x'] l']; [done|]. cbn [map keys_sorted].
  intros [Hle Hs]%andb_true_iff. fold (sort_keys ((k', x') :: l')).
  rewrite IH by exact Hs. cbn [fst] in Hle. cbn [insert_key fst]. by rewrite Hle.
Qed.

Lemma dict_set_fresh k v acc :
  k ∉ map fst acc -> dict_set k v acc = acc ++ [(k, v)].
Proof.
  induction acc as [|[k' v'] acc IH]; [done|]. cbn [map]. intros Hk%not_elem_of_cons.
  cbn [dict_set]. destruct (String.eqb_spec k k') as [->|Hne]; [by destruct Hk|].
  rewrite IH; [done|tauto].
Qed.

Lemma fold_dict_set acc kvs :
  NoDup (map fst (acc ++ kvs)) ->
  fold_left (fun d kv => dict_set kv.1 kv.2 d) kvs acc = acc ++ kvs.
Proof.
  revert acc. induction kvs as [|[k v] kvs IH]; intros acc Hnd; cbn [fold_left];
    [by rewrite app_nil_r|].
  rewrite dict_set_fresh.
  - rewrite IH, <- app_assoc; [done|]. by rewrite <- app_assoc.
  - rewrite map_app in Hnd. cbn [map fst] in Hnd. apply NoDup_app in Hnd as (_ & Hd & _).
    cbn [fst]. intros Hin. apply (Hd _ Hin). by left.
Qed.

Lemma dict_of_pairs_nodup kvs : NoDup (map fst kvs) -> dict_of_pairs kvs = kvs.
Proof. intros Hnd. apply (fold_dict_set []), Hnd. Qed.

Definition dumps_back (x : value) (t : string) : Prop := json_dumps x = Dumped t /\ reads_back x t.

Lemma forall_dumps l :
  Forall (fun x => canonical x = true -> exists t, dumps_back x t) l ->
  forallb canonical l = true -> exists ts, Forall2 dumps_back l ts.
Proof.
  induction 1 as [|x l Hx _ IH]; [by exists []|]. cbn [forallb].
  intros [Hc Hl]%andb_true_iff. destruct (Hx Hc) as [t Ht]. destruct (IH Hl) as [ts Hts].
  exists (t :: ts). by constructor.
Qed.

Lemma forall_dumps_dict kvs :
  Forall (fun kv => canonical kv.2 = true -> exists t, dumps_back kv.2 t) kvs ->
  forallb (fun kv => canonical kv.2) kvs = true ->
  exists kts, Forall2 (fun (kv : string * value) (kt : string * string) => kv.1 = kt.1 /\ dumps_back kv.2 kt.2) kvs kts.
Proof.
  induction 1 as [|[k x] l Hx _ IH]; [by exists []|]. cbn [forallb].
  intros [Hc Hl]%andb_true_iff. destruct (Hx Hc) as [t Ht]. destruct (IH Hl) as [kts Hts].
  exists ((k, t) :: kts). by constructor.
Qed.

Lemma literal_dumps_back x t :
  json_dumps x = Dumped t -> vsize x = 0 ->
  (forall r, stop r = true -> scan_literal (t ++ r) = SOk x r) ->
  (exists c t', t = String c t' /\ is_ws c = false /\ Ascii.eqb c "]" = false /\
     Ascii.eqb c c_quote = false /\ Ascii.eqb c "{" = false /\ Ascii.eqb c "[" = false) ->
  dumps_back x t.
Proof.
  intros Hd Hv Hl (c & t' & -> & H1 & H2 & H3 & H4 & H5). split; [done|].
  apply lit_reads_back; [by exists c, t'|done| |done]. by intros ? ? [= <- <-].
Qed.

Ltac literal_case := apply literal_dumps_back; [reflexivity|reflexivity|intros r _; reflexivity|
  eexists _, _; split; [reflexivity|]; repeat split].

(** Every canonical value is encoded, and its encoding is read back. *)
Lemma dumps_reads_back v : canonical v = true -> exists t, dumps_back v t.
Proof.
  induction v as [| b | z | fl | s | l IH | kvs IH] using value_ind_deep; intros Hc.
  - exists "null"%string. literal_case.
  - destruct b; [exists "true"%string|exists "false"%string]; literal_case.
  - cbn [canonical] in Hc. apply Nat.leb_le in Hc.
    assert (Ht : int_repr z = Dumped ((if (z <? 0)%Z then "-" else EmptyString) ++ abs_digits z)%string).
    { unfold int_repr. by rewrite (proj2 (Nat.ltb_ge _ _) Hc). }
    eexists. split; [exact Ht|]. by apply int_reads_back.
  - destruct fl as [sg| [|] | | sg m e]; try discriminate.
    + exists "-Infinity"%string. literal_case.
    + exists "Infinity"%string. literal_case.
    + exists "NaN"%string. literal_case.
  - exists (json_quote s). split; [done|]. apply str_reads_back.
  - cbn [canonical] in Hc. destruct (forall_dumps l IH Hc) as [ts Hts].
    exists ("[" ++ join "," ts ++ "]")%string. split.
    { cbn [json_dumps]. unfold dumped_map.
      rewrite (dumped_all_ok l ts) by (eapply Forall2_impl; [exact Hts|by intros ? ? []]). done. }
    split; [by eexists _, _|]. intros r [|f] room Hr Hf Hd; [cbn in Hf; lia|].
    destruct room as [|room]; [cbn in Hd; lia|]. apply depth_elems in Hd.
    rewrite !string_app_assoc, string_app_cons, string_app_nil_l.
    change (scan_once (S f) (S room) (String "[" (join "," ts ++ "]" ++ r)))
      with (let s2 := skip_ws (join "," ts ++ "]" ++ r) in
            match strip_prefix "]" s2 with
            | Some r' => SOk (PList []) r'
            | None => scan_array f room s2 []
            end).
    cbv zeta. destruct Hts as [|x t l ts Hxt Hts'].
    + reflexivity.
    + rewrite head_ok_ws, head_ok_close by (apply join_head_ok, Hxt).
      apply (array_reads_back (x :: l) (t :: ts) [] r f room); [| done | done | cbn in *; lia | done].
      constructor; [apply Hxt|]. eapply Forall2_impl; [exact Hts'|by intros ? ? []].
  - cbn [canonical] in Hc. apply andb_true_iff in Hc as [[Hsorted Hnd]%andb_true_iff Hc].
    apply bool_decide_eq_true in Hnd.
    destruct (forall_dumps_dict kvs IH Hc) as [kts Hkts].
    exists ("{" ++ join "," (map pair_text kts) ++ "}")%string. split.
    { cbn [json_dumps]. rewrite sort_keys_sorted.
      2:{ rewrite map_map. exact Hsorted. }
      rewrite map_map. unfold dumped_map.
      replace (dumped_all (map (fun kv => dump_pair (kv.1, json_dumps kv.2).1 (kv.1, json_dumps kv.2).2) kvs))
        with (@inr dumped (list string) (map pair_text kts)); [done|].
      clear -Hkts. induction Hkts as [|[k x] [k' t] kvs kts [Hk [Hx _]] _ IHk]; [done|].
      cbn [map dumped_all fst snd] in *. subst k'. rewrite Hx. cbn [dump_pair]. by rewrite <- IHk. }
    split; [by eexists _, _|]. intros r [|f] room Hr Hf Hd; [cbn in Hf; lia|].
    destruct room as [|room]; [cbn in Hd; lia|]. apply depth_pairs in Hd.
    rewrite !string_app_assoc, string_app_cons, string_app_nil_l.
    change (scan_once (S f) (S room) (String "{" (join "," (map pair_text kts) ++ "}" ++ r)))
      with (let s2 := skip_ws (join "," (map pair_text kts) ++ "}" ++ r) in
            match strip_prefix "}" s2 with
            | Some r' => SOk (PDict []) r'
            | None => scan_object f room s2 []
            end).
    cbv zeta. destruct Hkts as [|kv kt kvs kts Hkv Hkts'].
    + reflexivity.
    + destruct (join_pairs_head kt kts ("}" ++ r)) as [rest Hrest]. rewrite Hrest.
      change (skip_ws (String c_quote rest)) with (String c_quote rest).
      change (strip_prefix "}" (String c_quote rest)) with (@None string). cbv iota.
      rewrite <- Hrest.
      rewrite (object_reads_back (kv :: kvs) (kt :: kts) [] r f room); [| | done | done | cbn in *; lia | done].
      * cbn [rev app]. by rewrite dict_of_pairs_nodup.
      * constructor; [destruct Hkv as (? & _ & ?); by split|].
        eapply Forall2_impl; [exact Hkts'|]. by intros ? ? (? & _ & ?).
Qed.

(** A whole text read back by the scanner with some fuel, up to
    trailing white space, is what [json.loads] returns. *)
Lemma loads_of_scan t v r f :
  skip_ws t = t -> scan_once f json_room t = SOk v r -> skip_ws r = EmptyString ->
  json_loads t = SOk v EmptyString.
Proof.
  intros Hw Hs Hr. unfold json_loads. rewrite Hw.
  destruct (proj1 (scan_fuel_ok (S (2 * String.length t))) json_room t ltac:(lia)) as [Hnf _].
  rewrite <- (scan_once_mono _ (f `max` S (2 * String.length t)) json_room t) by (lia || done).
  rewrite (scan_once_mono f) by (lia || by rewrite Hs). by rewrite Hs, Hr.
Qed.

(** An encoding followed by white space decodes to its value. *)
Lemma dumps_back_loads v t r :
  dumps_back v t -> vdepth v <= json_room -> stop r = true -> skip_ws r = EmptyString ->
  json_loads (t ++ r) = SOk v EmptyString.
Proof.
  intros (_ & Hh & Hrb) Hd Hs Hw. apply (loads_of_scan _ v r (S (vsize v))); [by apply head_ok_ws| |done].
  apply Hrb; [done|lia|done].
Qed.

(** C4: Encoding then decoding is the identity on canonical values:
    every value that [jsonify] encodes without losing information (ints of
    at most 4300 digits, no finite floats, dicts with sorted distinct keys)
    is encoded, and [json.loads] of its encoding gives it back, with nothing
    left over, when it nests no deeper than the recursion guard allows. *)
Theorem json_roundtrip v :
  canonical v = true -> vdepth v <= json_room ->
  exists t, json_dumps v = Dumped t /\ json_loads t = SOk v EmptyString.
Proof.
  intros Hc Hd. destruct (dumps_reads_back v Hc) as (t & Ht). exists t. split; [apply Ht|].
  rewrite <- (string_app_nil_r t). by apply dumps_back_loads.
Qed.
End ValueRoundtrip.

(** ** The recursion guard *)

Lemma depth_list_le l room : Forall (fun x => vdepth x <= room) l -> vdepth (PList l) <= S room.
Proof. intros Hl. cbn. apply le_n_S, list_max_le, (Forall_map vdepth (fun d => d <= room)), Hl. Qed.

Lemma depth_dict_le kvs room :
  Forall (fun kv => vdepth kv.2 <= room) kvs -> vdepth (PDict kvs) <= S room.
Proof.
  intros Hl. cbn. apply le_n_S, list_max_le, (Forall_map (fun kv => vdepth kv.2) (fun d => d <= room)), Hl.
Qed.

(** [dict(pairs)] keeps only values of the pairs. *)
Lemma dict_set_forall (P : value -> Prop) k v d :
  Forall (fun kv => P kv.2) d -> P v -> Forall (fun kv => P kv.2) (dict_set k v d).
Proof.
  intros Hd Hv. induction Hd as [|[k' v'] d Hkv Hd IH]; cbn [dict_set]; [by repeat constructor|].
  destruct (String.eqb k k'); by constructor.
Qed.

Lemma dict_of_pairs_forall (P : value -> Prop) l :
  Forall (fun kv => P kv.2) l -> Forall (fun kv => P kv.2) (dict_of_pairs l).
Proof.
  unfold dict_of_pairs. intros Hl.
  enough (Hg : forall d, Forall (fun kv => P kv.2) d ->
                 Forall (fun kv => P kv.2) (fold_left (fun d kv => dict_set kv.1 kv.2 d) l d))
    by (apply Hg; constructor).
  induction Hl as [|kv l Hkv _ IH]; intros d Hd; [done|]. apply IH, dict_set_forall; done.
Qed.

Section Guard.
Context `{FloatParser}.

(** A literal or a number has no depth. *)
Lemma scan_literal_flat s v r : scan_literal s = SOk v r -> vdepth v = 0.
Proof. unfold scan_literal, scan_number. repeat case_match; by intros [= <- _]. Qed.

(** What the scanners return fits the room they were given. *)
Lemma scan_depth f :
  (forall room s v r, scan_once f room s = SOk v r -> vdepth v <= room) /\
  (forall room s acc v r, scan_array f room s acc = SOk v r ->
     Forall (fun x => vdepth x <= room) acc -> vdepth v <= S room) /\
  (forall room s acc v r, scan_object f room s acc = SOk v r ->
     Forall (fun kv => vdepth kv.2 <= room) acc -> vdepth v <= S room).
Proof.
  induction f as [|f (IHo & IHa & IHb)]; [split; [|split]; done|]. split; [|split].
  - intros room [|c s1] v r; cbn [scan_once]; [done|].
    destruct (Ascii.eqb c c_quote); [by case_match; intros [= <- _]; cbn; lia|].
    destruct (Ascii.eqb c "{").
    { destruct room as [|room]; [done|]. destruct (strip_prefix "}" _); [intros [= <- _]; cbn; lia|].
      intros E. by apply (IHb room _ [] v r E). }
    destruct (Ascii.eqb c "[").
    { destruct room as [|room]; [done|]. destruct (strip_prefix "]" _); [intros [= <- _]; cbn; lia|].
      intros E. by apply (IHa room _ [] v r E). }
    intros E. rewrite (scan_literal_flat _ _ _ E). lia.
  - intros room s acc v r. cbn [scan_array]. intros E Hacc.
    destruct (scan_once f room s) as [x r0| | | |] eqn:Ex; try discriminate.
    pose proof (IHo room s x r0 Ex) as Hx.
    destruct (strip_prefix "," _); [apply (IHa room _ (x :: acc) v r E); by constructor|].
    destruct (strip_prefix "]" _); [|discriminate]. injection E as <- _.
    apply depth_list_le, Forall_app. split; [by apply Forall_rev|by repeat constructor].
  - intros room [|q s1] acc v r; cbn [scan_object]; [done|]. intros E Hacc.
    destruct (Ascii.eqb q c_quote); [|done]. destruct (scan_string s1) as [k r1| |]; try done.
    destruct (strip_prefix ":" _); [|done].
    destruct (scan_once f room _) as [x r2| | | |] eqn:Ex; try discriminate.
    pose proof (IHo room _ x r2 Ex) as Hx.
    destruct (strip_prefix "," _); [apply (IHb room _ ((k, x) :: acc) v r E); by constructor|].
    destruct (strip_prefix "}" _); [|discriminate]. injection E as <- _.
    apply depth_dict_le, (dict_of_pairs_forall (fun y => vdepth y <= room)), Forall_app. split; [by apply Forall_rev|by repeat constructor].
Qed.

(** The arrays [[[...[]...]]], [n + 1] levels deep. *)
Fixpoint nested_list (n : nat) : value :=
  match n with O => PList [] | S n' => PList [nested_list n'] end.

Fixpoint nest_text (n : nat) : string :=
  match n with O => "[]" | S n' => ("[" ++ nest_text n' ++ "]")%string end.

Lemma nested_list_depth n : vdepth (nested_list n) = S n.
Proof.
  induction n as [|n IH]; [done|].
  change (vdepth (nested_list (S n))) with (S (Nat.max (vdepth (nested_list n)) 0)). rewrite IH. lia.
Qed.

Lemma nest_text_dumps n : json_dumps (nested_list n) = Dumped (nest_text n).
Proof. induction n as [|n IH]; [done|]. cbn [nested_list json_dumps map]. unfold dumped_map. cbn [dumped_all]. by rewrite IH. Qed.

Lemma nest_text_head n r : exists t, (nest_text n ++ r)%string = String "[" t.
Proof. destruct n; cbn; rewrite ?string_app_cons; by eexists. Qed.

(** Scanning [nest_text n] with room for no more than [n] levels raises
    in the guard, whatever follows, given the fuel of two per level. *)
Lemma nest_text_deep n room f r :
  room <= n -> 2 * room < f -> scan_once f room (nest_text n ++ r) = SDeep.
Proof.
  revert n f r. induction room as [|room IH]; intros n f r Hn Hf.
  - destruct f as [|f]; [lia|]. destruct (nest_text_head n r) as [t ->]. reflexivity.
  - destruct n as [|n]; [lia|]. destruct f as [|[|f]]; [lia|lia|].
    cbn [nest_text]. rewrite !string_app_assoc, string_app_cons, string_app_nil_l.
    change (scan_once (S (S f)) (S room) (String "[" (nest_text n ++ "]" ++ r)))
      with (let s2 := skip_ws (nest_text n ++ "]" ++ r) in
            match strip_prefix "]" s2 with
            | Some r' => SOk (PList []) r'
            | None => scan_array (S f) room s2 []
            end).
    cbv zeta. destruct (nest_text_head n ("]" ++ r)) as [t Ht]. rewrite Ht.
    change (skip_ws (String "[" t)) with (String "[" t). cbn [strip_prefix Ascii.eqb Bool.eqb]. cbv iota.
    rewrite <- Ht. cbn [scan_array]. rewrite (IH n f ("]" ++ r)%string) by lia. reflexivity.
Qed.
End Guard.

Section GuardLoads.
Context `{FloatParser} `{RecursionLimit}.

(** C6: Every value [json.loads] returns nests no deeper than the room
    the recursion guard leaves it. *)
Theorem loads_depth s v r : json_loads s = SOk v r -> vdepth v <= json_room.
Proof.
  unfold json_loads. destruct (scan_once _ _ _) as [v0 r0| | | |] eqn:E; try discriminate.
  destruct (skip_ws r0); [|discriminate]. intros [= <- _]. exact (proj1 (scan_depth _) _ _ _ _ E).
Qed.

Lemma nest_text_length n : n <= String.length (nest_text n).
Proof.
  induction n as [|n IH]; cbn; [lia|]. rewrite string_length_app. cbn. rewrite string_length_app. cbn. lia.
Qed.

(** The arrays nested one level deeper than the room make [json.loads]
    raise [RecursionError]. *)
Lemma loads_nest_deep : json_loads (nest_text json_room) = SDeep.
Proof.
  unfold json_loads. destruct (nest_text_head json_room EmptyString) as [t Ht].
  rewrite string_app_nil_r in Ht. rewrite Ht. change (skip_ws (String "[" t)) with (String "[" t).
  rewrite <- Ht, <- (string_app_nil_r (nest_text json_room)).
  rewrite nest_text_deep; [done|lia|]. rewrite string_app_nil_r.
  pose proof (nest_text_length json_room). lia.
Qed.

(** C7: The guard's bound is exact: the arrays nested as deep as the
    room allows are decoded, and one level more makes [json.loads] raise
    [RecursionError]. *)
Theorem nest_too_deep :
  1 <= json_room ->
  json_loads (nest_text (json_room - 1)) = SOk (nested_list (json_room - 1)) EmptyString /\
  json_loads (nest_text json_room) = SDeep.
Proof.
  intros Hr. split.
  - rewrite <- (string_app_nil_r (nest_text _)).
    apply dumps_back_loads; [|rewrite nested_list_depth; lia|done|done].
    destruct (dumps_reads_back (nested_list (json_room - 1))) as [t Ht].
    + clear. induction (json_room - 1) as [|n IH]; [done|]. cbn. by rewrite IH.
    + pose proof (proj1 Ht) as Hd. rewrite nest_text_dumps in Hd. by injection Hd as ->.
  - apply loads_nest_deep.
Qed.
End GuardLoads.

Section JsonWitnesses.
(** A guard with room for 990 levels: CPython's default recursion limit
    of 1000 less a few frames of the caller. *)
#[local] Instance room_990 : RecursionLimit := {| json_room := 990 |}.

Lemma json_roundtrip_witness :
  exists t, json_dumps (PDict [("audioUrl", PStr "https://storage.googleapis.com/b/a.mp3")]) = Dumped t /\
            json_loads t =
              SOk (PDict [("audioUrl", PStr "https://storage.googleapis.com/b/a.mp3")]) EmptyString.
Proof. apply json_roundtrip; [vm_compute; reflexivity|cbn; lia]. Defined.
Lemma loads_depth_witness :
  json_loads "[[1],{}]" = SOk (PList [PList [PInt 1]; PDict []]) EmptyString /\
  vdepth (PList [PList [PInt 1]; PDict []]) <= json_room.
Proof.
  assert (E : json_loads "[[1],{}]" = SOk (PList [PList [PInt 1]; PDict []]) EmptyString)
    by (vm_compute; reflexivity).
  split; [exact E|exact (loads_depth _ _ _ E)].
Defined.

Lemma nest_too_deep_witness :
  1 <= json_room /\
  json_loads (nest_text (json_room - 1)) = SOk (nested_list (json_room - 1)) EmptyString /\
  json_loads (nest_text json_room) = SDeep.
Proof. split; [cbn; lia|]. apply nest_too_deep. cbn; lia. Defined.
End JsonWitnesses.

