(* ===== verification/Utf8.v ===== *)
(** * The request body as bytes: [json.loads] on [bytes]

    [request.get_json()] (line 27) hands [json.loads] the body's bytes.
    CPython's [json.loads] first guesses their encoding with
    [json.detect_encoding] ([detect_encoding]): a byte order mark of
    UTF-32, UTF-16 or UTF-8, then the NUL bytes among the first four
    (or two), and UTF-8 by default. It decodes with the error handler
    ['surrogatepass'] and scans the text ([json_loads_bytes]).

    - [utf8_decode] is CPython's UTF-8 decoder with ['surrogatepass']:
      the lead byte fixes the length of a sequence, the second byte's
      range excludes overlong forms and code points above U+10FFFF, and
      the surrogates [ED A0..BF ..] pass. Any ill-formed sequence raises
      [UnicodeDecodeError] ([DecErr]), a [ValueError], which
      [get_json] answers with 400 like a [JSONDecodeError]. A well-formed
      code point of 256 or more is outside the model ([DecOut]), as a
      Rocq [string] holds code points below 256.
    - ['utf-8-sig'] drops a leading byte order mark.
    - UTF-16 and UTF-32 bodies are outside the model ([DecOut]).

    Theorems: decoding the UTF-8 encoding of a text gives it back
    ([utf8_roundtrip]); the encoder's printable ASCII output is read as
    itself ([decode_printable]); a byte order mark changes nothing
    ([loads_bom]). *)

From S2P Require Import Prelude PyValue PyFloat Json.

(** ** UTF-8 *)

(** [str.encode('utf-8')] of a code point below 256: itself below 128,
    two bytes [110xxxxx 10xxxxxx] otherwise. *)
Definition utf8_char (c : ascii) : list ascii :=
  let n := nat_of_ascii c in
  if n <? 128 then [c] else [ascii_of_nat (192 + n / 64); ascii_of_nat (128 + n mod 64)].

Fixpoint utf8_encode (s : string) : string :=
  match s with
  | EmptyString => EmptyString
  | String c s' => (string_of_list_ascii (utf8_char c) ++ utf8_encode s')%string
  end.

(** The text of a decoding, [UnicodeDecodeError], or a code point the
    model does not hold. *)
Inductive decoded : Type :=
| DecOk (s : string)
| DecErr
| DecOut.

Definition dec_cons (c : ascii) (d : decoded) : decoded :=
  match d with DecOk s => DecOk (String c s) | _ => d end.

(** A code point of 256 or more was decoded: the rest still decides
    whether the decoder raises. *)
Definition dec_wide (d : decoded) : decoded := match d with DecErr => DecErr | _ => DecOut end.

Definition in_range (lo hi : nat) (c : ascii) : bool := (lo <=? nat_of_ascii c) && (nat_of_ascii c <=? hi).

Definition is_cont (c : ascii) : bool := in_range 128 191 c.

(** The second byte after the lead byte [n] of a three- or four-byte
    sequence: [E0 A0..BF], [F0 90..BF], [F4 80..8F], else [80..BF]
    ([ED A0..BF], the surrogates, pass with ['surrogatepass']). *)
Definition second_range (n : nat) : nat * nat :=
  if n =? 224 then (160, 191) else if n =? 240 then (144, 191)
  else if n =? 244 then (128, 143) else (128, 191).

(** [bytes.decode('utf-8', 'surrogatepass')]. *)
Fixpoint utf8_decode (b : string) : decoded :=
  match b with
  | EmptyString => DecOk EmptyString
  | String c r =>
      let n := nat_of_ascii c in
      if n <? 128 then dec_cons c (utf8_decode r)
      else if in_range 194 223 c then
        match r with
        | String c2 r2 =>
            if is_cont c2 then
              if n <=? 195 then dec_cons (ascii_of_nat ((n - 192) * 64 + (nat_of_ascii c2 - 128))) (utf8_decode r2)
              else dec_wide (utf8_decode r2)
            else DecErr
        | EmptyString => DecErr
        end
      else if in_range 224 239 c then
        match r with
        | String c2 (String c3 r3) =>
            let (lo, hi) := second_range n in
            if in_range lo hi c2 && is_cont c3 then dec_wide (utf8_decode r3) else DecErr
        | _ => DecErr
        end
      else if in_range 240 244 c then
        match r with
        | String c2 (String c3 (String c4 r4)) =>
            let (lo, hi) := second_range n in
            if in_range lo hi c2 && is_cont c3 && is_cont c4 then dec_wide (utf8_decode r4) else DecErr
        | _ => DecErr
        end
      else DecErr
  end.

(** ** [json.detect_encoding] *)

Definition bytes_of (l : list nat) : string := string_of_list_ascii (map ascii_of_nat l).

Definition BOM_UTF32_BE : string := bytes_of [0; 0; 254; 255].
Definition BOM_UTF32_LE : string := bytes_of [255; 254; 0; 0].
Definition BOM_UTF16_BE : string := bytes_of [254; 255].
Definition BOM_UTF16_LE : string := bytes_of [255; 254].
Definition BOM_UTF8 : string := bytes_of [239; 187; 191].

Inductive json_encoding : Type :=
| EncUtf32 | EncUtf16 | EncUtf8Sig | EncUtf32BE | EncUtf16BE | EncUtf32LE | EncUtf16LE | EncUtf8.

(** [not b[i]]. *)
Definition nul_at (b : string) (i : nat) : bool :=
  match String.get i b with Some c => Ascii.eqb c "000" | None => false end.

Definition detect_encoding (b : string) : json_encoding :=
  if String.prefix BOM_UTF32_BE b || String.prefix BOM_UTF32_LE b then EncUtf32
  else if String.prefix BOM_UTF16_BE b || String.prefix BOM_UTF16_LE b then EncUtf16
  else if String.prefix BOM_UTF8 b then EncUtf8Sig
  else if 4 <=? String.length b then
    if nul_at b 0 then (if nul_at b 1 then EncUtf32BE else EncUtf16BE)
    else if nul_at b 1 then (if nul_at b 2 && nul_at b 3 then EncUtf32LE else EncUtf16LE)
    else EncUtf8
  else if String.length b =? 2 then
    if nul_at b 0 then EncUtf16BE else if nul_at b 1 then EncUtf16LE else EncUtf8
  else EncUtf8.

(** [s.decode(detect_encoding(s), 'surrogatepass')]: ['utf-8-sig']
    drops the byte order mark. *)
Definition decode_body (b : string) : decoded :=
  match detect_encoding b with
  | EncUtf8 => utf8_decode b
  | EncUtf8Sig => match strip_prefix BOM_UTF8 b with Some r => utf8_decode r | None => utf8_decode b end
  | _ => DecOut
  end.

Section Loads.
Context `{FloatParser} `{RecursionLimit}.

(** [json.loads(b)] on bytes: a [UnicodeDecodeError] is a [ValueError],
    as a [JSONDecodeError] is. *)
Definition json_loads_bytes (b : string) : scan_result :=
  match decode_body b with
  | DecOk s => json_loads s
  | DecErr => SErr
  | DecOut => SOut
  end.
End Loads.

(** ** Decoding the encoding *)

(** Checked on the 256 characters. *)
Lemma utf8_decode_char c r :
  utf8_decode (string_of_list_ascii (utf8_char c) ++ r) = dec_cons c (utf8_decode r).
Proof.
  destruct c as [[] [] [] [] [] [] [] []]; reflexivity.
Qed.

(** C36: Decoding with [bytes.decode('utf-8', 'surrogatepass')] the
    UTF-8 encoding of a text gives the text back. *)
Theorem utf8_roundtrip s : utf8_decode (utf8_encode s) = DecOk s.
Proof. induction s as [|c s IH]; [done|]. cbn [utf8_encode]. by rewrite utf8_decode_char, IH. Qed.

(** ** Printable ASCII is read as itself *)

Lemma get_char_printable s n c : all_printable s = true -> String.get n s = Some c -> printable c = true.
Proof.
  revert n. induction s as [|c' s IH]; intros [|n] Hs Hg; try discriminate;
    cbn [all_printable] in Hs; apply andb_true_iff in Hs as [Hc Hs].
  - by injection Hg as <-.
  - exact (IH n Hs Hg).
Qed.

Lemma printable_not_nul s n : all_printable s = true -> nul_at s n = false.
Proof.
  intros Hs. unfold nul_at. destruct (String.get n s) as [c|] eqn:Hg; [|done].
  apply (get_char_printable _ _ _ Hs) in Hg. destruct (Ascii.eqb_spec c "000"); [by subst|done].
Qed.

(** A byte order mark starts with a byte that is not printable. *)
Lemma printable_no_bom c s p :
  printable c = true -> (p = BOM_UTF32_BE \/ p = BOM_UTF32_LE \/ p = BOM_UTF16_BE \/ p = BOM_UTF16_LE \/
                         p = BOM_UTF8) -> String.prefix p (String c s) = false.
Proof.
  intros Hc Hp. assert (Hh : exists c' p', p = String c' p' /\ printable c' = false).
  { destruct_or! Hp; subst; eexists _, _; split; reflexivity. }
  destruct Hh as (c' & p' & -> & Hc'). cbn [String.prefix].
  destruct (ascii_dec c' c) as [->|]; [congruence|done].
Qed.

Lemma utf8_decode_printable s : all_printable s = true -> utf8_decode s = DecOk s.
Proof.
  induction s as [|c s IH]; [done|]. cbn [all_printable]. intros [Hc Hs]%andb_true_iff.
  cbn [utf8_decode]. unfold printable in Hc. apply andb_true_iff in Hc as [_ Hc%Nat.leb_le].
  replace (nat_of_ascii c <? 128) with true by (symmetry; apply Nat.ltb_lt; lia). by rewrite IH.
Qed.

Lemma detect_printable s : all_printable s = true -> detect_encoding s = EncUtf8.
Proof.
  intros Hs. destruct s as [|c s']; [reflexivity|].
  assert (Hc : printable c = true) by (cbn in Hs; by apply andb_true_iff in Hs as [? _]).
  unfold detect_encoding. rewrite !(printable_no_bom c s') by (done || auto 10). cbn [orb].
  rewrite !printable_not_nul by done. cbn [andb].
  destruct (4 <=? _); [done|]. by destruct (_ =? 2).
Qed.

(** The text [jsonify] writes is decoded as itself. *)
Lemma decode_printable s : all_printable s = true -> decode_body s = DecOk s.
Proof. intros Hs. unfold decode_body. rewrite detect_printable by done. by apply utf8_decode_printable. Qed.

(** ** A byte order mark *)

Lemma prefix_app p b : String.prefix p (p ++ b) = true.
Proof.
  induction p as [|c p IH]; [by destruct b|]. rewrite string_app_cons. cbn [String.prefix].
  destruct (ascii_dec c c); [exact IH|done].
Qed.

Lemma detect_bom b : detect_encoding (BOM_UTF8 ++ b) = EncUtf8Sig.
Proof.
  unfold detect_encoding. rewrite prefix_app.
  assert (E : forall p, p = BOM_UTF32_BE \/ p = BOM_UTF32_LE \/ p = BOM_UTF16_BE \/ p = BOM_UTF16_LE ->
                String.prefix p (BOM_UTF8 ++ b) = false)
    by (intros p Hp; destruct_or! Hp; subst; vm_compute; reflexivity).
  rewrite !E by auto 10. reflexivity.
Qed.

Lemma strip_bom b : strip_prefix BOM_UTF8 (BOM_UTF8 ++ b) = Some b.
Proof. vm_compute. reflexivity. Qed.

Section Bom.
Context `{FloatParser} `{RecursionLimit}.

(** A body that starts with UTF-8's byte order mark is read as the
    body without it, when that body is one [json.detect_encoding] takes
    for UTF-8: ['utf-8-sig'] drops the mark. *)
Theorem loads_bom b :
  detect_encoding b = EncUtf8 -> json_loads_bytes (BOM_UTF8 ++ b) = json_loads_bytes b.
Proof.
  intros Hd. unfold json_loads_bytes, decode_body. by rewrite detect_bom, strip_bom, Hd.
Qed.
End Bom.
