(* ===== verification/Paths.v ===== *)
(** * Temporary paths and object names

    Lines 36 and 64 of [src/app.py] build the temporary output paths
    [f"/tmp/{uuid.uuid4()}.mp3"] and [f"/tmp/{uuid.uuid4()}.mp4"]. Line 18
    names the uploaded object [os.path.basename(local_path)]. CPython's
    [posixpath.basename] computes [i = p.rfind('/') + 1] and returns [p[i:]].

    This file models [basename] and the two paths. It shows that the
    object name of a temporary file is [<uuid>.mp3] or [<uuid>.mp4]. Two
    requests therefore write the same object only when their uuids are
    equal and they ran the same operation. *)

From S2P Require Import Prelude Uuid.

Local Open Scope Z_scope.

(** [s.rfind(c)]: the index of the last [c] in [s], or [-1]. *)
Fixpoint rfind (c : ascii) (s : string) : Z :=
  match s with
  | EmptyString => -1
  | String c' s' =>
      let r := rfind c s' in
      if Z.leb 0 r then r + 1 else if Ascii.eqb c c' then 0 else -1
  end.

(** [posixpath.basename(p)]: [p[p.rfind('/') + 1:]]. *)
Definition basename (p : string) : string :=
  let i := Z.to_nat (rfind "/" p + 1) in
  substring i (String.length p - i) p.

(** [s.split(sep)] for a one-character separator: the pieces between
    the separators, empty ones included. [p.split('/')[-1]] is the
    reference the library's [basename] is compared with. *)
Fixpoint py_split (sep : ascii) (s : string) : list string :=
  match s with
  | EmptyString => [EmptyString]
  | String c s' =>
      let parts := py_split sep s' in
      if Ascii.eqb c sep then EmptyString :: parts
      else match parts with
           | p :: ps => String c p :: ps
           | [] => [String c EmptyString]
           end
  end.

(** Line 36: [f"/tmp/{uuid.uuid4()}.mp3"]. *)
Definition local_audio_path (u : Z) : string := ("/tmp/" ++ uuid_str u ++ ".mp3")%string.

(** Line 64: [f"/tmp/{uuid.uuid4()}.mp4"]. *)
Definition local_output_path (u : Z) : string := ("/tmp/" ++ uuid_str u ++ ".mp4")%string.

(** ** [rfind] *)

Lemma rfind_range c s : -1 <= rfind c s < Z.of_nat (String.length s).
Proof.
  induction s as [|c' s IH]; simpl; [lia|].
  destruct (Z.leb_spec 0 (rfind c s)); [lia|]. destruct (Ascii.eqb c c'); lia.
Qed.

Lemma rfind_none c s : str_has c s = false -> rfind c s = -1.
Proof.
  induction s as [|c' s IH]; simpl; [done|].
  destruct (Ascii.eqb c c'); [done|]. intros H. by rewrite IH.
Qed.

Lemma rfind_app c (s1 s2 : string) :
  0 <= rfind c s2 -> rfind c (s1 ++ s2) = Z.of_nat (String.length s1) + rfind c s2.
Proof.
  induction s1 as [|c' s1 IH]; intros H; [done|].
  rewrite string_app_cons. simpl. rewrite IH by done.
  destruct (Z.leb_spec 0 (Z.of_nat (String.length s1) + rfind c s2)); lia.
Qed.

(** The name of a file under a directory is the part after the last
    ['/']. *)
Lemma basename_dir (d f : string) :
  str_has "/" f = false -> basename (d ++ "/" ++ f) = f.
Proof.
  intros Hf. unfold basename. change ("/" ++ f)%string with (String "/" f).
  assert (Hr : rfind "/" (String "/" f) = 0) by (simpl; by rewrite rfind_none).
  rewrite rfind_app, Hr by lia.
  replace (Z.to_nat (Z.of_nat (String.length d) + 0 + 1)) with (String.length d + 1)%nat by lia.
  rewrite substring_app_r, string_length_app. simpl String.length.
  replace (String.length d + S (String.length f) - (String.length d + 1))%nat
    with (String.length f) by lia.
  apply substring_all.
Qed.

Lemma app_same_length_inv (s1 s2 t1 t2 : string) :
  String.length s1 = String.length s2 -> (s1 ++ t1)%string = (s2 ++ t2)%string ->
  s1 = s2 /\ t1 = t2.
Proof.
  revert s2. induction s1 as [|c s1 IH]; intros [|c2 s2] Hl E; try done.
  rewrite !string_app_cons in E. injection E as -> E.
  destruct (IH s2 ltac:(simpl in Hl; lia) E) as [-> ->]. done.
Qed.

(** ** [basename] against [p.split('/')[-1]] *)

Lemma py_split_cons sep c s :
  py_split sep (String c s) =
  if Ascii.eqb c sep then EmptyString :: py_split sep s
  else match py_split sep s with p :: ps => String c p :: ps | [] => [String c EmptyString] end.
Proof. reflexivity. Qed.

Lemma py_split_no_sep c s : str_has c s = false -> py_split c s = [s].
Proof.
  induction s as [|c' s IH]; [done|]. cbn [str_has py_split]. rewrite Ascii.eqb_sym.
  destruct (Ascii.eqb c' c); [discriminate|]. intros H. by rewrite IH.
Qed.

Lemma py_split_sep c s : str_has c s = true -> exists p ps, py_split c s = p :: ps /\ ps <> [].
Proof.
  induction s as [|c' s IH]; [discriminate|]. cbn [str_has py_split]. rewrite Ascii.eqb_sym.
  destruct (Ascii.eqb c' c).
  - intros _. destruct (str_has c s) eqn:Hs.
    + destruct (IH eq_refl) as (p & ps & -> & _). by eexists _, _.
    + rewrite py_split_no_sep by done. by eexists _, _.
  - intros Hs. destruct (IH Hs) as (p & ps & -> & Hne). by eexists _, _.
Qed.

Lemma rfind_has c s : str_has c s = true -> 0 <= rfind c s.
Proof.
  induction s as [|c' s IH]; [discriminate|]. cbn [str_has rfind].
  destruct (Z.leb_spec 0 (rfind c s)); [lia|]. destruct (Ascii.eqb c c'); [lia|].
  intros Hs. specialize (IH Hs). lia.
Qed.

(** The part after the last ['/'] does not see the characters before it. *)
Lemma basename_cons c s : str_has "/" s = true -> basename (String c s) = basename s.
Proof.
  intros Hs. pose proof (rfind_has _ _ Hs) as Hr. unfold basename. cbn [rfind String.length].
  destruct (Z.leb_spec 0 (rfind "/" s)); [|lia].
  replace (Z.to_nat (rfind "/" s + 1 + 1)) with (S (Z.to_nat (rfind "/" s + 1))) by lia.
  reflexivity.
Qed.

(** C34: [os.path.basename(p)] (CPython's [posixpath], by [rfind]) is
    [p.split('/')[-1]]: the text after the last ['/'], or all of [p]
    when it has none. *)
Theorem basename_split p : basename p = List.last (py_split "/" p) EmptyString.
Proof.
  induction p as [|c p IH]; [done|]. destruct (str_has "/" p) eqn:Hs.
  - rewrite basename_cons, IH by done. rewrite py_split_cons.
    destruct (py_split_sep _ _ Hs) as (q & [|q' qs] & -> & Hne); [done|].
    by destruct (Ascii.eqb c "/").
  - rewrite py_split_cons, (py_split_no_sep _ _ Hs).
    assert (Hr : rfind "/" (String c p) = if Ascii.eqb "/" c then 0 else -1)
      by (cbn [rfind]; rewrite rfind_none by done; reflexivity).
    unfold basename. rewrite Hr, (Ascii.eqb_sym "/" c). destruct (Ascii.eqb c "/").
    + change (Z.to_nat (0 + 1)) with 1%nat. cbn [substring String.length List.last].
      replace (S (String.length p) - 1)%nat with (String.length p) by lia. apply substring_all.
    + change (Z.to_nat (-1 + 1)) with 0%nat. rewrite Nat.sub_0_r.
      exact (substring_all (String c p)).
Qed.

(** ** Object names of the temporary files *)

(** A temporary path of the handler is named after its uuid. *)
Lemma basename_tmp u (ext : string) :
  str_has "/" ext = false -> basename ("/tmp/" ++ uuid_str u ++ ext) = (uuid_str u ++ ext)%string.
Proof. intros He. apply (basename_dir "/tmp"). by rewrite str_has_app, uuid_str_no_slash, He. Qed.

(** The object [upload_to_gcs] creates for [extract_audio] is named
    [<uuid>.mp3]. *)
Theorem basename_local_audio_path u :
  basename (local_audio_path u) = (uuid_str u ++ ".mp3")%string.
Proof. by apply basename_tmp. Qed.

(** The same for [create_split_screen_clip] and [<uuid>.mp4]. *)
Lemma basename_local_output_path u :
  basename (local_output_path u) = (uuid_str u ++ ".mp4")%string.
Proof. by apply basename_tmp. Qed.

Lemma uuid_name_inj u1 u2 (e1 e2 : string) :
  0 <= u1 < 2 ^ 128 -> 0 <= u2 < 2 ^ 128 ->
  (uuid_str u1 ++ e1)%string = (uuid_str u2 ++ e2)%string -> u1 = u2 /\ e1 = e2.
Proof.
  intros H1 H2 E.
  assert (Hl : String.length (uuid_str u1) = String.length (uuid_str u2)) by (rewrite !length_uuid_str; done).
  destruct (app_same_length_inv _ _ _ _ Hl E) as [Eu ->]. split; [|done].
  apply (f_equal unhex) in Eu. by rewrite !uuid_unhex, !Z.mod_small in Eu.
Qed.
