(* ===== verification/Pipeline.v ===== *)
(** * The ffmpeg-python pipelines

    [src/app.py] never runs ffmpeg by hand. It builds a stream graph with
    ffmpeg-python and calls [.run()] on its output node.
    - [ffmpeg.input(url, ...)] with keyword arguments is an input node
      ([SInput]).
    - [s.video] and [s.audio] select a stream of a node ([SSelect]).
    - [s.filter(name, ...)] and [ffmpeg.filter([s1, s2], name, ...)],
      with positional and keyword arguments, are filter nodes ([SFilter]).
    - [ffmpeg.output(s1, ..., sn, filename, ...)] and
      [.overwrite_output()] make the output node ([output]).

    ffmpeg-python identifies nodes by their arguments, so a tree whose
    equal subtrees are the same node is a faithful representation. Keyword
    arguments are kept in the order the source writes them.

    This file defines the two pipelines the handler builds:
    [extract_audio_output] (lines 39-45) and [split_screen_output]
    (lines 68-85). Two denotations say what an output is made of:
    [video_layout] gives the sources of the stacked frame, top to bottom,
    with the window each is trimmed to. [audio_mix] gives the sources of
    the audio track and whether each is looped. [frame_size] gives the
    frame size ffmpeg's [scale], [crop] and [vstack] filters compute,
    from the sizes of the sources: the clip is 1080x1920 for portrait
    sources and cannot be made for sources wider than 5:4. *)

From S2P Require Import Prelude PyValue.
From Stdlib Require Import Floats.SpecFloat.

(** ** The stream graph *)

Inductive stream : Type :=
| SInput (filename : value) (kwargs : list (string * value))
| SSelect (s : stream) (selector : string)
| SFilter (inputs : list stream) (name : string) (args : list value)
          (kwargs : list (string * value)).

(** An output node with its [-y] flag ([overwrite_output()]). *)
Record output : Type := Output {
  out_streams : list stream;
  out_filename : string;
  out_kwargs : list (string * value);
  out_overwrite : bool
}.

(** [s.video] and [s.audio]. *)
Definition video (s : stream) : stream := SSelect s "v".
Definition audio (s : stream) : stream := SSelect s "a".

(** [ffmpeg.output(s1, ..., sn, filename, ...)] with keyword arguments. *)
Definition ffmpeg_output (ss : list stream) (filename : string)
    (kwargs : list (string * value)) : output :=
  Output ss filename kwargs false.

(** [.overwrite_output()]. *)
Definition overwrite_output (o : output) : output :=
  Output (out_streams o) (out_filename o) (out_kwargs o) true.

(** ** [extract_audio] (lines 39-45) *)

(** [ffmpeg.input(video_url).output(local_audio_path, vn=None,
    acodec='libmp3lame', ar=44100).overwrite_output()] *)
Definition extract_audio_output (video_url : value) (local_audio_path : string) : output :=
  overwrite_output
    (ffmpeg_output [SInput video_url []] local_audio_path
       [("vn", PNone); ("acodec", PStr "libmp3lame"); ("ar", PInt 44100)]).

(** ** [create_split_screen_clip] (lines 68-85) *)

(** The Python literal [2e9]. *)
Definition float_2e9 : spec_float := binary_normalize prec emax 2000000000 0 false.

(** Line 68: [ffmpeg.input(podcast_url, ss=start_time, t=duration)]. *)
Definition podcast_input (podcast_url start_time : value) (duration : spec_float) : stream :=
  SInput podcast_url [("ss", start_time); ("t", PFloat duration)].

(** Line 69: [ffmpeg.input(gameplay_url, ss=0, t=duration)]. *)
Definition gameplay_input (gameplay_url : value) (duration : spec_float) : stream :=
  SInput gameplay_url [("ss", PInt 0); ("t", PFloat duration)].

(** Lines 72-73: [s.video.filter('scale', '1080', '-1').filter('crop', '1080', '960')]. *)
Definition scale_crop (s : stream) : stream :=
  SFilter [SFilter [video s] "scale" [PStr "1080"; PStr "-1"] []]
    "crop" [PStr "1080"; PStr "960"] [].

(** Line 76: [ffmpeg.filter([top_video, bottom_video], 'vstack')]. *)
Definition stacked_video (podcast gameplay : stream) : stream :=
  SFilter [scale_crop podcast; scale_crop gameplay] "vstack" [] [].

(** Line 80: [ffmpeg.input(bgm_url).audio.filter('aloop', loop=-1, size=2e9)]. *)
Definition bgm_input (bgm_url : value) : stream :=
  SFilter [audio (SInput bgm_url [])] "aloop" [] [("loop", PInt (-1)); ("size", PFloat float_2e9)].

(** Line 81: [ffmpeg.filter([podcast_input.audio, bgm_input], 'amix', inputs=2,
    duration='first', dropout_transition=2)]. *)
Definition mixed_audio (podcast : stream) (bgm_url : value) : stream :=
  SFilter [audio podcast; bgm_input bgm_url] "amix" []
    [("inputs", PInt 2); ("duration", PStr "first"); ("dropout_transition", PInt 2)].

(** Lines 79-85: the output node, with the audio chosen by [if bgm_url:]. *)
Definition split_screen_output (podcast_url gameplay_url bgm_url start_time : value)
    (duration : spec_float) (local_output_path : string) : output :=
  let p := podcast_input podcast_url start_time duration in
  let g := gameplay_input gameplay_url duration in
  let final_audio := if truthy bgm_url then mixed_audio p bgm_url else audio p in
  overwrite_output
    (ffmpeg_output [stacked_video p g; final_audio] local_output_path
       [("acodec", PStr "aac"); ("vcodec", PStr "libx264")]).

(** ** What an output is made of *)

(** The part of its file an input node reads: from [ss] (default [0])
    for [t] seconds (default: to the end). *)
Record window : Type := Window { w_start : value; w_length : option value }.

Definition input_window (kwargs : list (string * value)) : window :=
  Window (default (PInt 0) (dict_lookup "ss" kwargs)) (dict_lookup "t" kwargs).

(** The sources of a video stream's frame, top to bottom: [vstack]
    concatenates its inputs; [scale] and [crop] keep their input's
    sources. *)
Fixpoint video_layout (s : stream) : list (value * window) :=
  match s with
  | SInput f kw => [(f, input_window kw)]
  | SSelect s' _ => video_layout s'
  | SFilter ins _ _ _ => flat_map video_layout ins
  end.

(** The sources of an audio stream, each with a flag saying whether an
    [aloop] repeats it. [amix] mixes the sources of its inputs. *)
Fixpoint audio_mix (s : stream) : list (value * window * bool) :=
  match s with
  | SInput f kw => [(f, input_window kw, false)]
  | SSelect s' _ => audio_mix s'
  | SFilter ins name _ _ =>
      let srcs := flat_map audio_mix ins in
      if String.eqb name "aloop" then map (fun '(f, w, _) => (f, w, true)) srcs else srcs
  end.

(** The filters a stream goes through, in preorder. *)
Fixpoint filter_names (s : stream) : list string :=
  match s with
  | SInput _ _ => []
  | SSelect s' _ => filter_names s'
  | SFilter ins name _ _ => name :: flat_map filter_names ins
  end.

Definition output_filters (o : output) : list string := flat_map filter_names (out_streams o).

(** The input nodes of a stream, with repetitions. *)
Fixpoint input_nodes (s : stream) : list (value * list (string * value)) :=
  match s with
  | SInput f kw => [(f, kw)]
  | SSelect s' _ => input_nodes s'
  | SFilter ins _ _ _ => flat_map input_nodes ins
  end.

(** A filter graph ffmpeg accepts as written: every [amix] is told the
    number of inputs it is given, and every [vstack] has two inputs or
    more. *)
Fixpoint wf_stream (s : stream) : bool :=
  match s with
  | SInput _ _ => true
  | SSelect s' _ => wf_stream s'
  | SFilter ins name _ kw =>
      (if String.eqb name "amix" then
         match dict_lookup "inputs" kw with
         | Some (PInt n) => Z.eqb n (Z.of_nat (List.length ins))
         | _ => false
         end
       else if String.eqb name "vstack" then Nat.leb 2 (List.length ins)
       else true)
      && forallb wf_stream ins
  end.

Definition wf_output (o : output) : bool := forallb wf_stream (out_streams o).

(** The video and audio tracks of an output: [ffmpeg.output] maps its
    first stream to the video track and its second to the audio track. *)
Definition output_video_layout (o : output) : list (value * window) :=
  match out_streams o with v :: _ => video_layout v | [] => [] end.

Definition output_audio_mix (o : output) : list (value * window * bool) :=
  match out_streams o with _ :: a :: _ => audio_mix a | _ => [] end.

Definition output_inputs (o : output) : list (value * list (string * value)) :=
  flat_map input_nodes (out_streams o).

(** ** Frame geometry of the video filters

    The size of the frames a video stream carries, as ffmpeg's filters
    compute it (libavfilter: [vf_scale], [vf_crop], [vf_stack]), given
    the size of each source's video ([dims]).
    - [scale=W:H] outputs [W x H]. A [-1] keeps the aspect ratio:
      [H = av_rescale(W, in_h, in_w)], rounded to nearest.
    - [crop=W:H] (centred by default) needs [0 < W <= in_w] and
      [0 < H <= in_h]. Otherwise ffmpeg fails to configure the graph
      ("Invalid too big or non positive size").
    - [vstack] needs inputs of equal width and adds their heights.
    [None] is a graph ffmpeg refuses (or a stream without video). *)

(** A decimal integer with an optional sign, as ffmpeg reads [W] and [H]. *)
Fixpoint parse_digits (s : string) (acc : Z) : option Z :=
  match s with
  | EmptyString => Some acc
  | String c s' =>
      let d := (Z.of_nat (nat_of_ascii c) - 48)%Z in
      if ((0 <=? d) && (d <? 10))%Z then parse_digits s' (acc * 10 + d)%Z else None
  end.

Definition parse_int (v : value) : option Z :=
  match v with
  | PStr (String "-" s) => option_map Z.opp (parse_digits s 0)
  | PStr (String _ _ as s) => parse_digits s 0
  | _ => None
  end.

(** [av_rescale(a, b, c)] for positive [c]: [a * b / c] rounded to
    nearest, halves away from zero. *)
Definition av_rescale (a b c : Z) : Z := ((a * b + c / 2) / c)%Z.

Definition scale_size (W H : Z) (d : Z * Z) : option (Z * Z) :=
  let '(iw, ih) := d in
  if ((0 <? W) && (0 <? H))%Z then Some (W, H)
  else if ((0 <? W) && (H =? -1) && (0 <? iw))%Z then Some (W, av_rescale W ih iw)
  else if ((W =? -1) && (0 <? H) && (0 <? ih))%Z then Some (av_rescale H iw ih, H)
  else if ((W =? -1) && (H =? -1))%Z then Some d
  else None.

Definition crop_size (W H : Z) (d : Z * Z) : option (Z * Z) :=
  let '(iw, ih) := d in
  if ((0 <? W) && (W <=? iw) && (0 <? H) && (H <=? ih))%Z then Some (W, H) else None.

Fixpoint vstack_size (ds : list (option (Z * Z))) : option (Z * Z) :=
  match ds with
  | [] => None
  | [d] => d
  | Some (w, h) :: ds' =>
      match vstack_size ds' with
      | Some (w', h') => if (w =? w')%Z then Some (w, h + h')%Z else None
      | None => None
      end
  | None :: _ => None
  end.

Section Frames.
Variable dims : value -> option (Z * Z).

Fixpoint frame_size (s : stream) : option (Z * Z) :=
  match s with
  | SInput f _ => dims f
  | SSelect s' sel => if String.eqb sel "v" then frame_size s' else None
  | SFilter ins name args _ =>
      let fr := map frame_size ins in
      if String.eqb name "vstack" then vstack_size fr
      else match fr, args with
           | [Some d], [a; b] =>
               match parse_int a, parse_int b with
               | Some W, Some H =>
                   if String.eqb name "scale" then scale_size W H d
                   else if String.eqb name "crop" then crop_size W H d
                   else None
               | _, _ => None
               end
           | _, _ => None
           end
  end.
End Frames.

(** The frame size of an output's video track. *)
Definition output_frame (dims : value -> option (Z * Z)) (o : output) : option (Z * Z) :=
  match out_streams o with v :: _ => frame_size dims v | [] => None end.

(** ** Theorems *)

Section SplitScreen.
Variables (podcast_url gameplay_url bgm_url start_time : value)
          (duration : spec_float) (path : string).

Let o := split_screen_output podcast_url gameplay_url bgm_url start_time duration path.

(** C31: the podcast is on top, trimmed to [start_time] for [duration]
    seconds; the gameplay is below it, trimmed to its first [duration]
    seconds whatever [start_time] is. *)
Theorem split_screen_video_layout :
  output_video_layout o =
  [(podcast_url, Window start_time (Some (PFloat duration)));
   (gameplay_url, Window (PInt 0) (Some (PFloat duration)))].
Proof. subst o. unfold split_screen_output. by destruct (truthy bgm_url). Qed.

(** The audio is the podcast's own over the same window, plus the
    background track looped from its start exactly when [bgm_url] is
    truthy. *)
Theorem split_screen_audio_mix :
  output_audio_mix o =
  (podcast_url, Window start_time (Some (PFloat duration)), false)
    :: (if truthy bgm_url then [(bgm_url, Window (PInt 0) None, true)] else []).
Proof. subst o. unfold split_screen_output. by destruct (truthy bgm_url). Qed.

(** The mixer is used exactly when [bgm_url] is truthy, and the
    graph is well formed: [amix] gets the two inputs it declares. *)
Theorem split_screen_amix :
  existsb (String.eqb "amix") (output_filters o) = truthy bgm_url /\ wf_output o = true.
Proof. subst o. unfold split_screen_output. by destruct (truthy bgm_url). Qed.

(** The inputs are the podcast trimmed to the window, the gameplay
    from 0, and the background track when [bgm_url] is truthy. The
    podcast node occurs twice (video and audio), which ffmpeg-python
    merges into one [-i]. *)
Theorem split_screen_inputs :
  output_inputs o =
  [(podcast_url, [("ss", start_time); ("t", PFloat duration)]);
   (gameplay_url, [("ss", PInt 0); ("t", PFloat duration)]);
   (podcast_url, [("ss", start_time); ("t", PFloat duration)])]
  ++ (if truthy bgm_url then [(bgm_url, [])] else []).
Proof. subst o. unfold split_screen_output. by destruct (truthy bgm_url). Qed.
End SplitScreen.

(** ** The frame of the split-screen clip *)

Section ClipFrame.
Variable dims : value -> option (Z * Z).

(** A source that [scale=1080:-1] then [crop=1080:960] accept. *)
Definition fits_crop (u : value) : bool :=
  match dims u with
  | Some (w, h) => ((0 <? w) && (960 <=? av_rescale 1080 h w))%Z
  | None => false
  end.

Lemma parse_int_1080 : parse_int (PStr "1080") = Some 1080%Z.
Proof. reflexivity. Qed.
Lemma parse_int_m1 : parse_int (PStr "-1") = Some (-1)%Z.
Proof. reflexivity. Qed.
Lemma parse_int_960 : parse_int (PStr "960") = Some 960%Z.
Proof. reflexivity. Qed.

(** [scale=1080:-1] then [crop=1080:960] keeps a source exactly when
    its height scaled to width 1080 is at least 960. *)
Lemma scale_crop_frame s :
  frame_size dims (scale_crop s) =
  match frame_size dims s with
  | Some (w, h) => if ((0 <? w) && (960 <=? av_rescale 1080 h w))%Z then Some (1080%Z, 960%Z) else None
  | None => None
  end.
Proof.
  unfold scale_crop, video. cbn [frame_size map].
  rewrite parse_int_1080, parse_int_m1, parse_int_960. cbn [String.eqb Ascii.eqb Bool.eqb].
  destruct (frame_size dims s) as [[w h]|]; [|done]. unfold scale_size, crop_size. cbn -[av_rescale].
  by destruct (0 <? w)%Z.
Qed.

(** The clip's frame is [1080 x 1920] when both sources fit the crop,
    and ffmpeg refuses the graph otherwise. *)
Lemma split_screen_frame pu gu bu st duration path :
  output_frame dims (split_screen_output pu gu bu st duration path) =
  if fits_crop pu && fits_crop gu then Some (1080%Z, 1920%Z) else None.
Proof.
  unfold output_frame, split_screen_output, stacked_video, fits_crop, podcast_input, gameplay_input.
  cbn [out_streams overwrite_output ffmpeg_output frame_size map String.eqb Ascii.eqb Bool.eqb].
  rewrite !scale_crop_frame. cbn [frame_size].
  destruct (dims pu) as [[w h]|], (dims gu) as [[w' h']|]; cbn [andb vstack_size];
    repeat case_match; by simplify_eq.
Qed.

Lemma wide_no_fit w h : (0 < w)%Z -> (5 * h < 4 * w)%Z -> (960 <=? av_rescale 1080 h w)%Z = false.
Proof.
  intros Hw Hh. apply Z.leb_gt. unfold av_rescale. apply Z.div_lt_upper_bound; [lia|].
  pose proof (Z.mul_div_le w 2). lia.
Qed.

Lemma tall_fit w h : (0 < w)%Z -> (w <= h)%Z -> (960 <=? av_rescale 1080 h w)%Z = true.
Proof.
  intros Hw Hh. apply Z.leb_le. unfold av_rescale. apply Z.div_le_lower_bound; [lia|].
  pose proof (Z.div_pos w 2). lia.
Qed.
(** C29: a split-screen clip of a source wider than 5:4 (4:3, 16:9, ...)
    cannot be made. [scale=1080:-1] gives it a height below 960, so
    [crop=1080:960] asks for more rows than the frame has and ffmpeg
    refuses the graph; the spec's "scale and center-crop to 1080x960"
    only holds for sources at most about 9:8 wide. *)
Theorem wide_source_no_clip pu gu bu st duration path u w h :
  (u = pu \/ u = gu) -> dims u = Some (w, h) -> (0 < w)%Z -> (5 * h < 4 * w)%Z ->
  output_frame dims (split_screen_output pu gu bu st duration path) = None.
Proof.
  intros Hu Hd Hw Hh. rewrite split_screen_frame.
  assert (Hf : fits_crop u = false) by (unfold fits_crop; rewrite Hd, wide_no_fit; [apply andb_false_r|lia..]).
  destruct Hu as [<-| <-]; rewrite Hf; [done|]. by rewrite andb_false_r.
Qed.

(** C30: with two portrait or square sources the clip's frame is
    1080x1920: each is scaled to width 1080, cropped to 1080x960, and
    the two are stacked. *)
Theorem tall_sources_clip pu gu bu st duration path w h w' h' :
  dims pu = Some (w, h) -> dims gu = Some (w', h') ->
  (0 < w <= h)%Z -> (0 < w' <= h')%Z ->
  output_frame dims (split_screen_output pu gu bu st duration path) = Some (1080%Z, 1920%Z).
Proof.
  intros Hp Hg Hw Hw'. rewrite split_screen_frame. unfold fits_crop. rewrite Hp, Hg, !tall_fit by lia.
  replace (0 <? w)%Z with true by lia. by replace (0 <? w')%Z with true by lia.
Qed.
End ClipFrame.

(** ** Witnesses *)

(** A 1920x1080 podcast recording. *)
Lemma wide_source_no_clip_witness :
  let dims := fun _ : value => Some (1920%Z, 1080%Z) in
  (5 * 1080 < 4 * 1920)%Z /\
  output_frame dims (split_screen_output (PStr "p") (PStr "g") PNone (PInt 10)
                       (binary_normalize prec emax 15 0 false) "/tmp/c.mp4") = None.
Proof.
  intros dims. split; [lia|].
  apply (wide_source_no_clip dims _ _ _ _ _ _ (PStr "p") 1920 1080); [by left|reflexivity|lia|lia].
Defined.

(** Two 1080x1920 phone recordings. *)
Lemma tall_sources_clip_witness :
  let dims := fun _ : value => Some (1080%Z, 1920%Z) in
  output_frame dims (split_screen_output (PStr "p") (PStr "g") PNone (PInt 10)
                       (binary_normalize prec emax 15 0 false) "/tmp/c.mp4") = Some (1080%Z, 1920%Z).
Proof.
  intros dims. apply (tall_sources_clip dims _ _ _ _ _ _ 1080 1920 1080 1920); [reflexivity|reflexivity|lia|lia].
Defined.
