(* ===== verification/World.v ===== *)
(** * The world the handler acts on, and its external collaborators

    [process_video] touches four kinds of state:
    - the local file system, where ffmpeg writes [/tmp/<uuid>.mp3|.mp4]
      and [os.remove] deletes it (line 22);
    - the GCS bucket, where [blob.upload_from_filename] writes (line 21);
    - the entropy [uuid.uuid4()] draws through [os.urandom(16)]
      (lines 36, 64);
    - ghost state: the log of external calls in the order made, which
      lets theorems say which calls a request made.

    ffmpeg and the storage client are not modelled. Each is an interface,
    a class of operations ([Ffmpeg], [Gcs]), with a class of laws
    ([FfmpegLaws], [GcsLaws]). The laws state only which part of the
    world the collaborator may change. Theorems about the handler assume
    the laws; [Model] gives one executable instance of each, used to run
    the handler on concrete requests. [os.remove] is modelled here. *)

From S2P Require Import Prelude PyValue Uuid Pipeline.
From Stdlib Require Import Strings.Byte.

(** ** State *)

Definition bytes : Type := list Byte.byte.

(** External calls, in the order the handler makes them. *)
Inductive event : Type :=
| EvUrandom
| EvFfmpegRun (o : output)
| EvUpload (bucket : option string) (blob : string) (path : string)
| EvRemove (path : string).

Record world : Type := World {
  w_fs : gmap string bytes;
  w_store : gmap (string * string) bytes;
  w_draws : nat;
  w_log : list event
}.

Definition set_fs (fs : gmap string bytes) (w : world) : world :=
  World fs (w_store w) (w_draws w) (w_log w).
Definition set_store (st : gmap (string * string) bytes) (w : world) : world :=
  World (w_fs w) st (w_draws w) (w_log w).
Definition add_log (e : event) (w : world) : world :=
  World (w_fs w) (w_store w) (w_draws w) (w_log w ++ [e]).

(** The world after one draw of [os.urandom]. *)
Definition after_draw (w : world) : world :=
  World (w_fs w) (w_store w) (S (w_draws w)) (w_log w ++ [EvUrandom]).

(** Python code on this world: it may change it and may raise. *)
Abbreviation PyM := (st world exn).

Definition log_event (e : event) : PyM unit := st_modify (add_log e).

(** ** Interfaces *)

(** [os.urandom(16)]: the [n]-th draw. *)
Class Entropy := { urandom : nat -> bytes }.
Class EntropyLaws `{Entropy} := { urandom_length n : List.length (urandom n) = 16%nat }.

(** [ffmpeg.output(...).run()]: run a pipeline. *)
Class Ffmpeg := { ffmpeg_run : output -> world -> world * (exn + unit) }.

(** ffmpeg writes its output file and nothing else; on success the file
    exists. It leaves the bucket, the entropy and the log alone. *)
Class FfmpegLaws `{Ffmpeg} := {
  ffmpeg_run_frame o w w' r p :
    ffmpeg_run o w = (w', r) -> p <> out_filename o -> w_fs w' !! p = w_fs w !! p;
  ffmpeg_run_rest o w w' r :
    ffmpeg_run o w = (w', r) ->
    w_store w' = w_store w /\ w_draws w' = w_draws w /\ w_log w' = w_log w;
  ffmpeg_run_ok o w w' :
    ffmpeg_run o w = (w', inr tt) -> is_Some (w_fs w' !! out_filename o)
}.

(** [storage_client.bucket(b).blob(n).upload_from_filename(p)] and
    [blob.public_url]. *)
Class Gcs := {
  gcs_upload : option string -> string -> string -> world -> world * (exn + unit);
  gcs_public_url : option string -> string -> string
}.

(** An upload that succeeds stores the bytes of the local file under
    [(bucket, name)] and changes nothing else. An upload that fails
    changes nothing. *)
Class GcsLaws `{Gcs} := {
  gcs_upload_ok b n p w w' :
    gcs_upload b n p w = (w', inr tt) ->
    exists bn data, b = Some bn /\ w_fs w !! p = Some data /\
                    w' = set_store (<[(bn, n) := data]> (w_store w)) w;
  gcs_upload_err b n p w w' e :
    gcs_upload b n p w = (w', inl e) -> w' = w
}.

(** ** Operations on the world *)

Section Ops.
Context `{Entropy} `{Ffmpeg} `{Gcs}.

(** [uuid.uuid4()]: one draw of [os.urandom(16)]. *)
Definition py_uuid4 : PyM Z :=
  fun w => (after_draw w, inr (uuid4 (urandom (w_draws w)))).

(** [o.run()], logged. *)
Definition run_pipeline (o : output) : PyM unit :=
  st_bind (log_event (EvFfmpegRun o)) (fun _ => ffmpeg_run o).

(** [blob.upload_from_filename(p)], logged. *)
Definition upload_from_filename (b : option string) (n p : string) : PyM unit :=
  st_bind (log_event (EvUpload b n p)) (fun _ => gcs_upload b n p).

(** [os.remove(p)]: [FileNotFoundError] when [p] does not exist. *)
Definition os_remove (p : string) : PyM unit :=
  fun w =>
    let w1 := add_log (EvRemove p) w in
    match w_fs w !! p with
    | Some _ => (set_fs (delete p (w_fs w1)) w1, inr tt)
    | None => (w1, inl (FileNotFoundError
                         ("[Errno 2] No such file or directory: '" ++ p ++ "'")))
    end.
End Ops.

(** Unfold the world updates and the monad's return, and project. *)
Ltac world_simpl :=
  cbv [st_ret st_lift set_fs set_store add_log after_draw] in *; cbn [w_fs w_store w_draws w_log] in *.
