(* ===== verification/BlobUrl.v ===== *)
(** * [blob.public_url]: the URL the handler answers with

    Line 23 of [upload_to_gcs] returns [blob.public_url], a property of
    google-cloud-storage's [Blob]:
    [f"{endpoint}/{bucket_name}/{_quote(name, safe=b'/~')}"], where the
    endpoint is the client's, [https://storage.googleapis.com] by default,
    and [_quote] encodes the name in UTF-8 and applies
    [urllib.parse.quote_from_bytes]: a byte among [_ALWAYS_SAFE] (ASCII
    letters, digits, [_.-~]) or [safe] is kept, any other becomes [%XX]
    in uppercase hex ([url_quote]). A bucket name [None] is formatted as
    ["None"]; the handler never gets there, since the upload fails first.

    [GcsPublicUrl] is the law that the [Gcs] interface's [gcs_public_url]
    is this property. Lemmas: the names of the handler's objects are
    left as they are ([uuid_str_safe], [url_quote_plain]), which
    [Upload.upload_public_url] uses. *)

From S2P Require Import Prelude PyValue Uuid PyFloat Utf8 World.

(** ** [urllib.parse.quote_from_bytes] *)

(** [_ALWAYS_SAFE] and the [safe] argument [b"/~"]. *)
Definition quote_safe (c : ascii) : bool :=
  let n := nat_of_ascii c in
  ((48 <=? n) && (n <=? 57)) || ((65 <=? n) && (n <=? 90)) || ((97 <=? n) && (n <=? 122))
  || Ascii.eqb c "_" || Ascii.eqb c "." || Ascii.eqb c "-" || Ascii.eqb c "~" || Ascii.eqb c "/".

(** ['{:02X}'] digits. *)
Definition hexdig_upper (d : nat) : ascii :=
  match String.get d "0123456789ABCDEF" with Some c => c | None => "0"%char end.

(** [Quoter.__missing__]: a safe byte as itself, another as [%XX]. *)
Definition quote_byte (b : ascii) : string :=
  if quote_safe b then String b EmptyString
  else String "%" (String (hexdig_upper (nat_of_ascii b / 16))
                     (String (hexdig_upper (nat_of_ascii b mod 16)) EmptyString)).

Definition quote_char (c : ascii) : string := String.concat EmptyString (map quote_byte (utf8_char c)).

(** [_quote(name, safe=b"/~")]: the quoted bytes of the UTF-8 encoding. *)
Fixpoint url_quote (s : string) : string :=
  match s with
  | EmptyString => EmptyString
  | String c s' => (quote_char c ++ url_quote s')%string
  end.

(** ** [Blob.public_url] *)

Definition api_endpoint : string := "https://storage.googleapis.com".

Definition blob_public_url (bucket_name : option string) (name : string) : string :=
  (api_endpoint ++ "/" ++ default "None" bucket_name ++ "/" ++ url_quote name)%string.

(** The storage client is google-cloud-storage's: the URL of a blob is
    [Blob.public_url]. *)
Class GcsPublicUrl `{Gcs} := { gcs_public_url_blob b n : gcs_public_url b n = blob_public_url b n }.

(** ** The names of the handler's objects are not quoted *)

Lemma quote_char_plain c : quote_safe c = true -> quote_char c = String c EmptyString.
Proof. destruct c as [[] [] [] [] [] [] [] []]; try discriminate; reflexivity. Qed.

Lemma url_quote_plain s : all_chars quote_safe s = true -> url_quote s = s.
Proof.
  induction s as [|c s IH]; [done|]. cbn [all_chars url_quote]. intros [Hc Hs]%andb_true_iff.
  by rewrite quote_char_plain, IH.
Qed.

Lemma hexdig_safe d : quote_safe (hexdig d) = true.
Proof.
  unfold hexdig. generalize (Z.to_nat d) as n. intros n.
  do 16 (destruct n as [|n]; [reflexivity|]). reflexivity.
Qed.

Lemma hex_digits_safe k n : all_chars quote_safe (hex_digits k n) = true.
Proof. induction k as [|k IH]; [done|]. cbn [hex_digits all_chars]. by rewrite hexdig_safe, IH. Qed.

Lemma all_chars_substring f s i k : all_chars f s = true -> all_chars f (substring i k s) = true.
Proof.
  revert i k. induction s as [|c s IH]; intros [|i] [|k]; cbn [substring all_chars]; try done.
  - intros [Hc Hs]%andb_true_iff. rewrite Hc. cbn [andb]. by apply IH.
  - intros [_ Hs]%andb_true_iff. by apply IH.
  - intros [_ Hs]%andb_true_iff. by apply IH.
Qed.

Lemma uuid_str_safe u : all_chars quote_safe (uuid_str u) = true.
Proof.
  unfold uuid_str. rewrite !all_chars_app, !all_chars_substring by apply hex_digits_safe. reflexivity.
Qed.
