(* ===== verification/Model.v ===== *)
(** * An executable instance of the collaborators

    The handler's theorems hold for every [Ffmpeg], [Gcs] and [Entropy]
    that satisfies the laws of [World]. This file gives one instance of
    each and proves its laws. The theorems' witnesses run the handler
    on it.
    - [os.urandom]: the [n]-th draw is [n] as 16 big-endian bytes.
    - ffmpeg: succeeds when every input is an [https://] URL and the
      graph is well formed ([wf_output]). It then writes a fixed byte
      string to the output path. Otherwise it raises [ffmpeg.Error].
    - GCS: fails without a bucket name or without the local file.
      Otherwise it stores the file. Public URLs are google-cloud-storage's
      [Blob.public_url] ([BlobUrl.blob_public_url]).
    - [float(str)]: CPython's parser, [PyFloat.cpython_float].
    - [json.loads]'s recursion guard: room for 990 levels. *)

From S2P Require Import Prelude PyValue PyFloat Json Pipeline World BlobUrl.
From Stdlib Require Import Strings.Byte.

Module Model.

(** [z] as [k] big-endian bytes. *)
Fixpoint be_bytes (k : nat) (z : Z) : list Byte.byte :=
  match k with
  | O => []
  | S k' =>
      be_bytes k' (z / 256)%Z
      ++ [match Byte.of_N (Z.to_N (z mod 256)) with Some b => b | None => Byte.x00 end]
  end.

Lemma length_be_bytes k z : List.length (be_bytes k z) = k.
Proof. revert z. induction k as [|k IH]; intros z; [done|]. simpl. rewrite length_app, IH. simpl. lia. Qed.

#[export] Instance entropy : Entropy := { urandom n := be_bytes 16 (Z.of_nat n) }.

#[export] Instance entropy_laws : EntropyLaws.
Proof. constructor. intros n. apply length_be_bytes. Qed.

(** CPython's parser of [float(str)]. *)
#[export] Instance float_parser : FloatParser := cpython_float.

(** A recursion guard with room for 990 levels: CPython's default
    recursion limit of 1000 less a few frames of the caller. *)
#[export] Instance recursion_limit : RecursionLimit := {| json_room := 990 |}.

#[export] Instance recursion_limit_laws : RecursionLimitLaws.
Proof. constructor. cbn. lia. Qed.

Definition fetchable (v : value) : bool :=
  match v with PStr s => String.prefix "https://" s | _ => false end.

Definition media : bytes := list_byte_of_string "media".

#[export] Instance ffmpeg : Ffmpeg := {
  ffmpeg_run o w :=
    if forallb (fun n => fetchable n.1) (output_inputs o) && wf_output o
    then (set_fs (<[out_filename o := media]> (w_fs w)) w, inr tt)
    else (w, inl (FFmpegError "ffmpeg error (see stderr output for detail)"))
}.

#[export] Instance ffmpeg_laws : FfmpegLaws.
Proof.
  constructor.
  - intros o w w' r p. cbn. destruct (_ && _); intros E Hp; inversion E; subst; [|done].
    cbn. by rewrite lookup_insert_ne by congruence.
  - intros o w w' r. cbn. destruct (_ && _); intros E; inversion E; subst; done.
  - intros o w w'. cbn. destruct (_ && _); intros E; inversion E; subst.
    cbn. by rewrite lookup_insert_eq.
Qed.

#[export] Instance gcs : Gcs := {
  gcs_upload b n p w :=
    match b, w_fs w !! p with
    | Some bn, Some data => (set_store (<[(bn, n) := data]> (w_store w)) w, inr tt)
    | None, _ => (w, inl (GoogleAPIError "Cannot determine path without bucket name."))
    | Some _, None => (w, inl (FileNotFoundError
                                 ("[Errno 2] No such file or directory: '" ++ p ++ "'")))
    end;
  gcs_public_url := blob_public_url
}.

#[export] Instance gcs_public_url_laws : GcsPublicUrl.
Proof. by constructor. Qed.

#[export] Instance gcs_laws : GcsLaws.
Proof.
  constructor; intros b n p w w'; cbn.
  - destruct b as [bn|], (w_fs w !! p) as [data|] eqn:E; intros H; inversion H; subst; eauto.
  - intros e. destruct b as [bn|], (w_fs w !! p); intros H; inversion H; done.
Qed.

End Model.
