(* ===== verification/Upload.v ===== *)
(** * [upload_to_gcs] (lines 16-23)

    The helper names the object [os.path.basename(local_path)]. It uploads
    the file to the bucket, removes the local file, and returns the
    object's public URL. The theorems [upload_to_gcs_cases] and [upload_to_gcs_spec] give its
    two outcomes. Either the upload succeeds: the bucket holds the file's
    bytes under that name and the local file is gone. Or the upload
    raises: nothing has changed and the local file is still there, which
    the caller leaks (spec, section 7). With google-cloud-storage's
    [public_url] ([BlobUrl]), the URL of a temporary file's object is
    the endpoint, the bucket and the name unchanged ([upload_public_url]). *)

From S2P Require Import Prelude PyValue Uuid PyFloat Paths Pipeline World BlobUrl Model.

Section Upload.
Context `{Entropy} `{Ffmpeg} `{Gcs}.

(** Lines 16-23. [storage_client.bucket(bucket_name)] and
    [bucket.blob(name)] only build handles; the effects are the upload
    (line 21) and [os.remove] (line 22). *)
Definition upload_to_gcs (local_path : string) (bucket_name : option string) : PyM string :=
  let destination_blob_name := basename local_path in
  let* _ := upload_from_filename bucket_name destination_blob_name local_path in
  let* _ := os_remove local_path in
  ret (gcs_public_url bucket_name destination_blob_name).

Context `{!GcsLaws}.

(** The world after a successful upload of [p] as [(bn, n)]. *)
Definition uploaded_world (w : world) (b : option string) (bn n p : string) (data : bytes) : world :=
  World (delete p (w_fs w)) (<[(bn, n) := data]> (w_store w)) (w_draws w)
        (w_log w ++ [EvUpload b n p; EvRemove p]).

(** The two outcomes of [upload_to_gcs]. *)
Lemma upload_to_gcs_cases p b w :
  (exists bn data, b = Some bn /\ w_fs w !! p = Some data /\
     upload_to_gcs p b w =
     (uploaded_world w b bn (basename p) p data, inr (gcs_public_url b (basename p))))
  \/ (exists e, upload_to_gcs p b w = (add_log (EvUpload b (basename p) p) w, inl e)).
Proof.
  unfold upload_to_gcs, upload_from_filename, log_event, st_modify, st_bind.
  destruct (gcs_upload b (basename p) p (add_log (EvUpload b (basename p) p) w))
    as [w1 [e|[]]] eqn:E.
  - right. exists e. by rewrite (gcs_upload_err _ _ _ _ _ _ E).
  - left. destruct (gcs_upload_ok _ _ _ _ _ E) as (bn & data & -> & Hp & ->). cbn in Hp.
    exists bn, data. split; [done|]. split; [exact Hp|].
    unfold os_remove. cbn. rewrite Hp. unfold uploaded_world. cbn.
    world_simpl. by rewrite <- app_assoc.
Qed.

(** C28: when [upload_to_gcs p b] returns a URL, the bucket name was set,
    the local file existed, its bytes are stored under
    [(bucket, basename p)], the local file is deleted and the URL is the
    object's public URL. When it raises, nothing has changed but the log
    of the attempted upload, so the local file stays on disk. *)
Theorem upload_to_gcs_spec p b w w' r :
  upload_to_gcs p b w = (w', r) ->
  match r with
  | inr url =>
      url = gcs_public_url b (basename p) /\
      exists bn data, b = Some bn /\ w_fs w !! p = Some data /\
                      w' = uploaded_world w b bn (basename p) p data
  | inl _ => w' = add_log (EvUpload b (basename p) p) w /\ w_fs w' !! p = w_fs w !! p
  end.
Proof.
  destruct (upload_to_gcs_cases p b w) as [(bn & data & -> & Hp & ->)|(e & ->)];
    intros [= <- <-]; [split; [done|by exists bn, data]|done].
Qed.
End Upload.

(** ** The URL of an object of the handler *)

Section PublicUrl.
Context `{Entropy} `{Ffmpeg} `{Gcs} `{!GcsLaws} `{!GcsPublicUrl}.

(** C35: When [upload_to_gcs] uploads a temporary file of the handler,
    [/tmp/<uuid><ext>], the URL it returns is the endpoint, the bucket
    and the object's name [<uuid><ext>] as they are, and that object is
    in the bucket. *)
Theorem upload_public_url u ext b w w' url :
  ext = ".mp3" \/ ext = ".mp4" ->
  upload_to_gcs ("/tmp/" ++ uuid_str u ++ ext) b w = (w', inr url) ->
  exists bn, b = Some bn /\
    url = ("https://storage.googleapis.com/" ++ bn ++ "/" ++ uuid_str u ++ ext)%string /\
    is_Some (w_store w' !! (bn, (uuid_str u ++ ext)%string)).
Proof.
  intros Hext. destruct (upload_to_gcs_cases ("/tmp/" ++ uuid_str u ++ ext) b w)
    as [(bn & data & -> & _ & E)|(e & E)]; rewrite E; [|discriminate].
  rewrite basename_tmp by (destruct Hext as [-> | ->]; reflexivity).
  intros [= <- <-]. exists bn. split; [done|]. split.
  - rewrite gcs_public_url_blob. unfold blob_public_url. rewrite url_quote_plain; [done|].
    rewrite all_chars_app, uuid_str_safe. by destruct Hext as [-> | ->].
  - cbn. rewrite lookup_insert_eq. by eexists.
Qed.
End PublicUrl.

(** ** Witness *)

Section UploadWitness.
Import Model.

(** The model's bucket store, run on a world holding one local file. *)
Lemma upload_to_gcs_spec_witness :
  let w := World {[ "/tmp/a.mp3" := media ]} ∅ 0 [] in
  let res := upload_to_gcs "/tmp/a.mp3" (Some "bkt"%string) w in
  match snd res with
  | inr url =>
      url = gcs_public_url (Some "bkt"%string) (basename "/tmp/a.mp3") /\
      exists bn data, Some "bkt"%string = Some bn /\ w_fs w !! "/tmp/a.mp3" = Some data /\
        fst res = uploaded_world w (Some "bkt"%string) bn (basename "/tmp/a.mp3") "/tmp/a.mp3" data
  | inl _ =>
      fst res = add_log (EvUpload (Some "bkt"%string) (basename "/tmp/a.mp3") "/tmp/a.mp3") w /\
      w_fs (fst res) !! "/tmp/a.mp3" = w_fs w !! "/tmp/a.mp3"
  end.
Proof. intros w res. apply upload_to_gcs_spec. apply surjective_pairing. Defined.

(** The object of the first draw's temporary file. *)
Lemma upload_public_url_witness :
  let u := uuid4 (urandom 0) in
  let p := ("/tmp/" ++ uuid_str u ++ ".mp3")%string in
  let w := World {[ p := media ]} ∅ 0 [] in
  exists w' url, upload_to_gcs p (Some "bkt"%string) w = (w', inr url) /\
    exists bn, Some "bkt"%string = Some bn /\
      url = ("https://storage.googleapis.com/" ++ bn ++ "/" ++ uuid_str u ++ ".mp3")%string /\
      is_Some (w_store w' !! (bn, (uuid_str u ++ ".mp3")%string)).
Proof.
  intros u p w.
  assert (E : upload_to_gcs p (Some "bkt"%string) w =
              (fst (upload_to_gcs p (Some "bkt"%string) w),
               inr (match snd (upload_to_gcs p (Some "bkt"%string) w) with inr url => url | inl _ => EmptyString end)))
    by (vm_compute; reflexivity).
  eexists _, _. split; [exact E|].
  exact (upload_public_url u ".mp3" _ w _ _ (or_introl eq_refl) E).
Defined.
End UploadWitness.
