(* ===== verification/Handler.v ===== *)
(** * [process_video] (lines 25-94) and Flask's dispatch

    The handler reads [operation] from the body with [data.get]. For
    [extract_audio] and [create_split_screen_clip] it validates the fields
    it needs by Python truthiness and draws a uuid. Then, inside
    [try]/[except Exception], it runs a pipeline and uploads. Any other
    [operation] answers 400.

    A Python exception raised outside the [try] blocks escapes the
    handler. Flask turns it into a 500 HTML page ([flask_dispatch]).
    These escapes are [data.get] on a body that is not a dict (line 28),
    [params.get] on a [params] that is not a dict (lines 54-58), and
    [float()] on a start or end time that is not a number (line 63).

    Everything is parametric in the collaborators ([Ffmpeg], [Gcs],
    [Entropy]), the float parser, and the bucket name read from the
    environment at start-up ([DESTINATION_BUCKET_NAME], line 14).
    Section [CPythonTimes] takes CPython's [float()] ([PyFloat]), under
    which a start time ["nan"] passes every check. *)

From S2P Require Import Prelude PyValue Uuid Paths Pipeline World Model Upload.
From Stdlib Require Import Floats.SpecFloat.

Local Open Scope Z_scope.

(** ** Responses *)

Inductive body : Type :=
| JsonBody (v : value)
| HtmlBody (s : string).

Record response : Type := Response { status : Z; resp_body : body }.

(** Flask: a returned [(jsonify(d), code)] is sent as is; an uncaught
    exception becomes [500 Internal Server Error]. *)
Definition flask_dispatch (r : exn + (value * Z)) : response :=
  match r with
  | inl _ => Response 500 (HtmlBody "Internal Server Error")
  | inr (v, code) => Response code (JsonBody v)
  end.

(** [x == 'lit'] for a JSON value: true only for an equal [str]. *)
Definition py_eq_str (v : value) (s : string) : bool :=
  match v with PStr s' => String.eqb s' s | _ => false end.

Section Handler.
Context `{FloatParser} `{Entropy} `{Ffmpeg} `{Gcs}.

(** Line 14: [os.environ.get('GCS_BUCKET_NAME')]. *)
Variable DESTINATION_BUCKET_NAME : option string.

(** Lines 48-49 and 90-91. *)
Definition ffmpeg_error (e : exn) : PyM (value * Z) :=
  ret (PDict [("error", PStr ("FFmpeg error: " ++ exn_str e))], 500).

(** Lines 31-49. *)
Definition extract_audio (data : value) : PyM (value * Z) :=
  let* video_url := st_lift (py_get data "videoUrl" PNone) in
  if negb (truthy video_url) then
    ret (PDict [("error", PStr "Missing 'videoUrl' for 'extract_audio' operation")], 400)
  else
    let* u := py_uuid4 in
    let path := local_audio_path u in
    st_try
      (let* _ := run_pipeline (extract_audio_output video_url path) in
       let* public_audio_url := upload_to_gcs path DESTINATION_BUCKET_NAME in
       ret (PDict [("audioUrl", PStr public_audio_url)], 200))
      ffmpeg_error.

(** Lines 52-91. *)
Definition create_split_screen_clip (data : value) : PyM (value * Z) :=
  let* params := st_lift (py_get data "params" (PDict [])) in
  let* podcast_url := st_lift (py_get params "podcast_url" PNone) in
  let* gameplay_url := st_lift (py_get params "gameplay_url" PNone) in
  let* bgm_url := st_lift (py_get params "bgm_url" PNone) in
  let* start_time := st_lift (py_get params "start_time" PNone) in
  let* end_time := st_lift (py_get params "end_time" PNone) in
  if negb (py_all [podcast_url; gameplay_url; start_time; end_time]) then
    ret (PDict [("error", PStr "Missing parameters for 'create_split_screen_clip' operation")], 400)
  else
    let* end_f := st_lift (py_float end_time) in
    let* start_f := st_lift (py_float start_time) in
    let duration := py_fsub end_f start_f in
    let* u := py_uuid4 in
    let path := local_output_path u in
    st_try
      (let* _ := run_pipeline
                   (split_screen_output podcast_url gameplay_url bgm_url start_time duration path) in
       let* public_clip_url := upload_to_gcs path DESTINATION_BUCKET_NAME in
       ret (PDict [("clipUrl", PStr public_clip_url)], 200))
      ffmpeg_error.

(** Lines 26-94. *)
Definition process_video (data : value) : PyM (value * Z) :=
  let* operation := st_lift (py_get data "operation" PNone) in
  if py_eq_str operation "extract_audio" then extract_audio data
  else if py_eq_str operation "create_split_screen_clip" then create_split_screen_clip data
  else ret (PDict [("error", PStr "Invalid or missing 'operation' specified")], 400).

(** A request served by Flask: the handler's result, dispatched. *)
Definition serve (data : value) (w : world) : world * response :=
  let (w', r) := process_video data w in (w', flask_dispatch r).
End Handler.

(** ** How a request ends *)

(** The JSON error of lines 49 and 91. *)
Definition error_reply (e : exn) : value * Z :=
  (PDict [("error", PStr ("FFmpeg error: " ++ exn_str e))], 500).

Lemma py_get_dict kvs k d : py_get (PDict kvs) k d = inr (default d (dict_lookup k kvs)).
Proof. unfold py_get. by destruct (dict_lookup k kvs). Qed.

(** The three ways the [try] block of an operation ends, when it runs
    pipeline [o] writing [path] from world [w] and answers [{key: url}]. *)
Inductive try_result `{Gcs} (b : option string) (o : output) (path key : string) (w : world) :
  world -> value * Z -> Prop :=
| TryUploaded bn data :
    b = Some bn ->
    try_result b o path key w
      (World (delete path (w_fs w)) (<[(bn, basename path) := data]> (w_store w)) (w_draws w)
             (w_log w ++ [EvFfmpegRun o; EvUpload b (basename path) path; EvRemove path]))
      (PDict [(key, PStr (gcs_public_url b (basename path)))], 200)
| TryFfmpegFailed e w' :
    w_store w' = w_store w -> w_draws w' = w_draws w ->
    w_log w' = w_log w ++ [EvFfmpegRun o] ->
    (forall p, p <> path -> w_fs w' !! p = w_fs w !! p) ->
    try_result b o path key w w' (error_reply e)
| TryUploadFailed e w' :
    w_store w' = w_store w -> w_draws w' = w_draws w ->
    w_log w' = w_log w ++ [EvFfmpegRun o; EvUpload b (basename path) path] ->
    (forall p, p <> path -> w_fs w' !! p = w_fs w !! p) ->
    is_Some (w_fs w' !! path) ->
    try_result b o path key w w' (error_reply e).

Section HandlerProofs.
Context `{FloatParser} `{Entropy} `{Ffmpeg} `{Gcs} `{!FfmpegLaws} `{!GcsLaws}.
Variable b : option string.

(** The [try] block of lines 38-49 and 66-91. *)
Definition try_run_upload (o : output) (path key : string) : PyM (value * Z) :=
  st_try
    (let* _ := run_pipeline o in
     let* url := upload_to_gcs path b in
     ret (PDict [(key, PStr url)], 200))
    ffmpeg_error.

(** The [try] block never raises, and ends in one of the three ways. *)
Lemma try_run_upload_result o path key w w' r :
  out_filename o = path -> try_run_upload o path key w = (w', r) ->
  exists v, r = inr v /\ try_result b o path key w w' v.
Proof.
  intros Hp. unfold try_run_upload, run_pipeline, log_event, st_modify, st_try, st_bind.
  destruct (ffmpeg_run o (add_log (EvFfmpegRun o) w)) as [w1 [e|[]]] eqn:E1;
    destruct (ffmpeg_run_rest _ _ _ _ E1) as (Hs & Hd & Hl); world_simpl.
  - intros [= <- <-]. eexists; split; [done|].
    apply TryFfmpegFailed; try done.
    intros p Hne. rewrite (ffmpeg_run_frame _ _ _ _ _ E1) by congruence. done.
  - assert (Hfr : forall p, p <> path -> w_fs w1 !! p = w_fs w !! p).
    { intros p Hne. rewrite (ffmpeg_run_frame _ _ _ _ _ E1) by congruence. done. }
    pose proof (ffmpeg_run_ok _ _ _ E1) as Hok. rewrite Hp in Hok.
    destruct (upload_to_gcs_cases path b w1) as [(bn & data & -> & Hdata & E2)|(e & E2)];
      rewrite E2; world_simpl; intros [= <- <-]; eexists; (split; [done|]).
    + unfold uploaded_world. rewrite Hs, Hd, Hl, <- app_assoc.
      replace (delete path (w_fs w1)) with (delete path (w_fs w)).
      { by apply TryUploaded. }
      apply map_eq. intros p. destruct (decide (p = path)) as [->|Hne].
      * by rewrite !lookup_delete_eq.
      * by rewrite !lookup_delete_ne, Hfr by congruence.
    + apply TryUploadFailed; try done. by rewrite Hl, <- app_assoc.
Qed.
End HandlerProofs.

Section Requests.
Context `{FloatParser} `{Entropy} `{Ffmpeg} `{Gcs}.
Variable b : option string.

Lemma extract_audio_reduce kvs url w :
  dict_lookup "videoUrl" kvs = Some url -> truthy url = true ->
  let path := local_audio_path (uuid4 (urandom (w_draws w))) in
  extract_audio b (PDict kvs) w =
  try_run_upload b (extract_audio_output url path) path "audioUrl" (after_draw w).
Proof.
  intros Hu Ht. unfold extract_audio. rewrite py_get_dict, Hu.
  autorewrite with pyrw. rewrite ?Ht. reflexivity.
Qed.

(** [params.get(k)] *)
Definition param (pk : list (string * value)) (k : string) : value :=
  default PNone (dict_lookup k pk).

Lemma split_reduce kvs pk ef sf w :
  default (PDict []) (dict_lookup "params" kvs) = PDict pk ->
  py_all [param pk "podcast_url"; param pk "gameplay_url"; param pk "start_time";
          param pk "end_time"] = true ->
  py_float (param pk "end_time") = inr ef -> py_float (param pk "start_time") = inr sf ->
  let path := local_output_path (uuid4 (urandom (w_draws w))) in
  create_split_screen_clip b (PDict kvs) w =
  try_run_upload b
    (split_screen_output (param pk "podcast_url") (param pk "gameplay_url")
       (param pk "bgm_url") (param pk "start_time") (py_fsub ef sf) path)
    path "clipUrl" (after_draw w).
Proof.
  intros Hp Hall He Hs. unfold create_split_screen_clip. rewrite py_get_dict, Hp.
  autorewrite with pyrw. rewrite !py_get_dict. autorewrite with pyrw.
  unfold param in *. py_all_facts Hall. cbn [py_all forallb].
  rewrite ?Hall1, ?Hall2, ?Hall3, ?Hall4. cbn [negb andb].
  rewrite ?He; autorewrite with pyrw. rewrite ?Hs; autorewrite with pyrw. reflexivity.
Qed.

(** The early exits of the two operations. *)
Lemma extract_missing kvs w :
  truthy (default PNone (dict_lookup "videoUrl" kvs)) = false ->
  extract_audio b (PDict kvs) w =
  (w, inr (PDict [("error", PStr "Missing 'videoUrl' for 'extract_audio' operation")], 400)).
Proof. intros Hu. unfold extract_audio. rewrite py_get_dict. autorewrite with pyrw. by rewrite Hu. Qed.

Lemma clip_missing kvs pk w :
  default (PDict []) (dict_lookup "params" kvs) = PDict pk ->
  py_all [param pk "podcast_url"; param pk "gameplay_url"; param pk "start_time";
          param pk "end_time"] = false ->
  create_split_screen_clip b (PDict kvs) w =
  (w, inr (PDict [("error", PStr "Missing parameters for 'create_split_screen_clip' operation")],
           400)).
Proof.
  intros Hp Hall. unfold create_split_screen_clip. rewrite py_get_dict, Hp. autorewrite with pyrw.
  rewrite !py_get_dict. autorewrite with pyrw. unfold param in Hall. by rewrite Hall.
Qed.

Lemma clip_params_not_dict kvs w :
  (forall pk, default (PDict []) (dict_lookup "params" kvs) <> PDict pk) ->
  exists e, create_split_screen_clip b (PDict kvs) w = (w, inl e).
Proof.
  intros Hp. unfold create_split_screen_clip. rewrite py_get_dict. autorewrite with pyrw.
  destruct (default (PDict []) (dict_lookup "params" kvs)); try (eexists; reflexivity).
  by destruct (Hp kvs0).
Qed.

Lemma clip_bad_time kvs pk e w :
  default (PDict []) (dict_lookup "params" kvs) = PDict pk ->
  py_all [param pk "podcast_url"; param pk "gameplay_url"; param pk "start_time";
          param pk "end_time"] = true ->
  (py_float (param pk "end_time") = inl e \/
   exists ef, py_float (param pk "end_time") = inr ef /\ py_float (param pk "start_time") = inl e) ->
  create_split_screen_clip b (PDict kvs) w = (w, inl e).
Proof.
  intros Hp Hall Hf. unfold create_split_screen_clip. rewrite py_get_dict, Hp.
  autorewrite with pyrw. rewrite !py_get_dict. autorewrite with pyrw. unfold param in *.
  py_all_facts Hall. cbn [py_all forallb]. rewrite ?Hall1, ?Hall2, ?Hall3, ?Hall4.
  cbn [negb andb]. destruct Hf as [He|(ef & He & Hs)]; rewrite He; autorewrite with pyrw; [done|].
  by rewrite Hs.
Qed.
End Requests.

(** ** Theorems about requests *)

Section Claims.
Context `{FloatParser} `{Entropy} `{Ffmpeg} `{Gcs} `{!FfmpegLaws} `{!GcsLaws}.
Variable b : option string.

(** C12: a request whose [operation] is missing or names neither
    operation is answered 400 and changes nothing. *)
Theorem invalid_operation kvs w :
  py_eq_str (param kvs "operation") "extract_audio" = false ->
  py_eq_str (param kvs "operation") "create_split_screen_clip" = false ->
  process_video b (PDict kvs) w =
  (w, inr (PDict [("error", PStr "Invalid or missing 'operation' specified")], 400)).
Proof.
  intros Hx Hc. unfold process_video. rewrite py_get_dict. autorewrite with pyrw.
  unfold param in *. by rewrite Hx, Hc.
Qed.

Lemma process_video_no_op kvs w :
  dict_lookup "operation" kvs = None ->
  process_video b (PDict kvs) w =
  (w, inr (PDict [("error", PStr "Invalid or missing 'operation' specified")], 400)).
Proof. intros Hop. unfold process_video. rewrite py_get_dict, Hop. reflexivity. Qed.

Lemma process_video_op kvs op w :
  dict_lookup "operation" kvs = Some op ->
  process_video b (PDict kvs) w =
  (if py_eq_str op "extract_audio" then extract_audio b (PDict kvs)
   else if py_eq_str op "create_split_screen_clip" then create_split_screen_clip b (PDict kvs)
   else ret (PDict [("error", PStr "Invalid or missing 'operation' specified")], 400)) w.
Proof. intros Hop. unfold process_video. rewrite py_get_dict, Hop. reflexivity. Qed.

(** C8: a well-formed [extract_audio] request never escapes the handler.
    It draws one uuid, runs [extract_audio_output url path] on
    [path = /tmp/<uuid>.mp3], and ends in one of the three ways of
    [try_result]. (1) [200 {"audioUrl": url}] with the file stored as
    [<uuid>.mp3] and removed locally. (2) [500] after ffmpeg failed.
    (3) [500] after the upload failed, leaving the file. *)
Theorem extract_audio_request kvs url w w' r :
  dict_lookup "operation" kvs = Some (PStr "extract_audio") ->
  dict_lookup "videoUrl" kvs = Some url -> truthy url = true ->
  process_video b (PDict kvs) w = (w', r) ->
  let path := local_audio_path (uuid4 (urandom (w_draws w))) in
  exists v, r = inr v /\
    try_result b (extract_audio_output url path) path "audioUrl" (after_draw w) w' v.
Proof.
  intros Hop Hu Ht E. rewrite (process_video_op _ _ _ Hop) in E. cbn [py_eq_str String.eqb Ascii.eqb Bool.eqb] in E.
  rewrite (extract_audio_reduce _ _ _ _ Hu Ht) in E.
  by eapply try_run_upload_result.
Qed.

(** C9: a well-formed [create_split_screen_clip] request never escapes
    the handler. It runs the split-screen pipeline with
    [duration = float(end_time) - float(start_time)] on
    [/tmp/<uuid>.mp4], and ends in one of the three ways of
    [try_result]. *)
Theorem split_screen_request kvs pk ef sf w w' r :
  dict_lookup "operation" kvs = Some (PStr "create_split_screen_clip") ->
  default (PDict []) (dict_lookup "params" kvs) = PDict pk ->
  py_all [param pk "podcast_url"; param pk "gameplay_url"; param pk "start_time";
          param pk "end_time"] = true ->
  py_float (param pk "end_time") = inr ef -> py_float (param pk "start_time") = inr sf ->
  process_video b (PDict kvs) w = (w', r) ->
  let path := local_output_path (uuid4 (urandom (w_draws w))) in
  exists v, r = inr v /\
    try_result b
      (split_screen_output (param pk "podcast_url") (param pk "gameplay_url")
         (param pk "bgm_url") (param pk "start_time") (py_fsub ef sf) path)
      path "clipUrl" (after_draw w) w' v.
Proof.
  intros Hop Hp Hall He Hs E. rewrite (process_video_op _ _ _ Hop) in E.
  cbn [py_eq_str String.eqb Ascii.eqb Bool.eqb] in E.
  rewrite (split_reduce _ _ _ _ _ _ Hp Hall He Hs) in E.
  by eapply try_run_upload_result.
Qed.

(** C10: an [extract_audio] request without a truthy [videoUrl] is
    answered 400 and changes nothing: no uuid, no ffmpeg, no upload. *)
Theorem extract_audio_missing kvs w :
  dict_lookup "operation" kvs = Some (PStr "extract_audio") ->
  truthy (default PNone (dict_lookup "videoUrl" kvs)) = false ->
  process_video b (PDict kvs) w =
  (w, inr (PDict [("error", PStr "Missing 'videoUrl' for 'extract_audio' operation")], 400)).
Proof.
  intros Hop Hu. rewrite (process_video_op _ _ _ Hop). cbn [py_eq_str String.eqb Ascii.eqb Bool.eqb].
  by apply extract_missing.
Qed.

(** C11: a [create_split_screen_clip] request where one of [podcast_url],
    [gameplay_url], [start_time], [end_time] is falsy is answered 400
    and changes nothing. *)
Theorem split_screen_missing kvs pk w :
  dict_lookup "operation" kvs = Some (PStr "create_split_screen_clip") ->
  default (PDict []) (dict_lookup "params" kvs) = PDict pk ->
  py_all [param pk "podcast_url"; param pk "gameplay_url"; param pk "start_time";
          param pk "end_time"] = false ->
  process_video b (PDict kvs) w =
  (w, inr (PDict [("error", PStr "Missing parameters for 'create_split_screen_clip' operation")],
           400)).
Proof.
  intros Hop Hp Hall. rewrite (process_video_op _ _ _ Hop). cbn [py_eq_str String.eqb Ascii.eqb Bool.eqb].
  by apply (clip_missing _ _ pk).
Qed.

(** C32: a body that is not a JSON object makes [data.get] raise
    [AttributeError] outside any [try]. Flask answers its HTML 500 page,
    not the JSON error of the spec, and nothing changes. *)
Theorem non_dict_body v w :
  (forall kvs, v <> PDict kvs) ->
  serve b v w = (w, Response 500 (HtmlBody "Internal Server Error")).
Proof. intros Hv. destruct v; try reflexivity. by destruct (Hv kvs). Qed.

(** C33: a split-screen request whose [params] is present but not an
    object makes [params.get] raise: Flask's HTML 500, nothing changes. *)
Theorem params_not_dict kvs w :
  dict_lookup "operation" kvs = Some (PStr "create_split_screen_clip") ->
  (forall pk, default (PDict []) (dict_lookup "params" kvs) <> PDict pk) ->
  serve b (PDict kvs) w = (w, Response 500 (HtmlBody "Internal Server Error")).
Proof.
  intros Hop Hp. unfold serve. rewrite (process_video_op _ _ _ Hop).
  cbn [py_eq_str String.eqb Ascii.eqb Bool.eqb].
  by destruct (clip_params_not_dict b _ w Hp) as [e ->].
Qed.

(** C24: [float()] of lines 63 runs outside the [try]. A start or end
    time that [float()] rejects (a non-numeric string, a list, ...) is
    not answered 400 but with Flask's HTML 500. No uuid is drawn and
    nothing changes. *)
Theorem bad_time_uncaught kvs pk e w :
  dict_lookup "operation" kvs = Some (PStr "create_split_screen_clip") ->
  default (PDict []) (dict_lookup "params" kvs) = PDict pk ->
  py_all [param pk "podcast_url"; param pk "gameplay_url"; param pk "start_time";
          param pk "end_time"] = true ->
  (py_float (param pk "end_time") = inl e \/
   exists ef, py_float (param pk "end_time") = inr ef /\ py_float (param pk "start_time") = inl e) ->
  serve b (PDict kvs) w = (w, Response 500 (HtmlBody "Internal Server Error")).
Proof.
  intros Hop Hp Hall Hf. unfold serve. rewrite (process_video_op _ _ _ Hop).
  cbn [py_eq_str String.eqb Ascii.eqb Bool.eqb]. by rewrite (clip_bad_time b _ _ _ _ Hp Hall Hf).
Qed.

(** C22: a clip that starts at second 0 is rejected. [not all([...])] treats
    [start_time = 0] (or [0.0]) as missing, so the request is answered
    400 although every parameter is present. *)
Theorem start_time_zero_rejected kvs pk w :
  dict_lookup "operation" kvs = Some (PStr "create_split_screen_clip") ->
  default (PDict []) (dict_lookup "params" kvs) = PDict pk ->
  (param pk "start_time" = PInt 0 \/ exists sg, param pk "start_time" = PFloat (S754_zero sg)) ->
  process_video b (PDict kvs) w =
  (w, inr (PDict [("error", PStr "Missing parameters for 'create_split_screen_clip' operation")],
           400)).
Proof.
  intros Hop Hp Hz. rewrite (process_video_op _ _ _ Hop). cbn [py_eq_str String.eqb Ascii.eqb Bool.eqb].
  apply (clip_missing _ _ pk); [done|].
  unfold py_all. cbn [forallb]. destruct Hz as [->|[sg ->]]; cbn; by rewrite !andb_false_r.
Qed.

(** C26: when ffmpeg succeeds and the upload raises, the answer is 500
    and the temporary file stays on disk: [os.remove] runs only on the
    success path (spec, section 7). *)
Theorem extract_audio_leak kvs url w w1 w2 e w' r :
  dict_lookup "operation" kvs = Some (PStr "extract_audio") ->
  dict_lookup "videoUrl" kvs = Some url -> truthy url = true ->
  let path := local_audio_path (uuid4 (urandom (w_draws w))) in
  let o := extract_audio_output url path in
  ffmpeg_run o (add_log (EvFfmpegRun o) (after_draw w)) = (w1, inr tt) ->
  gcs_upload b (basename path) path (add_log (EvUpload b (basename path) path) w1) = (w2, inl e) ->
  process_video b (PDict kvs) w = (w', r) ->
  r = inr (error_reply e) /\ is_Some (w_fs w' !! path).
Proof.
  intros Hop Hu Ht path o E1 E2 E. rewrite (process_video_op _ _ _ Hop) in E.
  cbn [py_eq_str String.eqb Ascii.eqb Bool.eqb] in E.
  rewrite (extract_audio_reduce _ _ _ _ Hu Ht) in E. fold path o in E.
  unfold try_run_upload, run_pipeline, log_event, st_modify, st_try, st_bind in E.
  world_simpl. rewrite E1 in E. unfold upload_to_gcs, upload_from_filename, log_event,
    st_modify, st_bind in E. world_simpl. rewrite E2 in E. injection E as <- <-.
  split; [done|]. rewrite (gcs_upload_err _ _ _ _ _ _ E2). world_simpl.
  exact (ffmpeg_run_ok _ _ _ E1).
Qed.
End Claims.

(** ** Times that [float()] accepts *)

Section CPythonTimes.
#[local] Existing Instance Model.float_parser.
Context `{Entropy} `{Ffmpeg} `{Gcs} `{!FfmpegLaws} `{!GcsLaws}.
Variable b : option string.

Lemma py_fsub_nan f : py_fsub f S754_nan = S754_nan.
Proof. by destruct f. Qed.

(** C23: with CPython's [float()], a clip request whose [start_time] is
    the string ["nan"] passes the validation of line 60 (a non-empty
    string is truthy) and [float()] of line 63. It runs the split-screen
    pipeline with the podcast trimmed from ["nan"] for [NaN] seconds and
    the gameplay for [NaN] seconds. The spec wants numeric times; the
    code checks neither that the times are finite nor that they are
    numbers. *)
Theorem nan_start_time kvs pk ef w w' r :
  dict_lookup "operation" kvs = Some (PStr "create_split_screen_clip") ->
  default (PDict []) (dict_lookup "params" kvs) = PDict pk ->
  truthy (param pk "podcast_url") = true -> truthy (param pk "gameplay_url") = true ->
  truthy (param pk "end_time") = true -> py_float (param pk "end_time") = inr ef ->
  param pk "start_time" = PStr "nan" ->
  process_video b (PDict kvs) w = (w', r) ->
  let path := local_output_path (uuid4 (urandom (w_draws w))) in
  exists v, r = inr v /\
    try_result b
      (split_screen_output (param pk "podcast_url") (param pk "gameplay_url")
         (param pk "bgm_url") (PStr "nan") S754_nan path)
      path "clipUrl" (after_draw w) w' v.
Proof.
  intros Hop Hp Hpod Hgame Hend He Hs E. rewrite (process_video_op _ _ _ _ Hop) in E.
  cbn [py_eq_str String.eqb Ascii.eqb Bool.eqb] in E.
  assert (Hall : py_all [param pk "podcast_url"; param pk "gameplay_url"; param pk "start_time";
                         param pk "end_time"] = true) by (cbn; by rewrite Hpod, Hgame, Hs, Hend).
  assert (Hn : py_float (param pk "start_time") = inr S754_nan) by (rewrite Hs; reflexivity).
  rewrite (split_reduce _ _ _ _ _ _ Hp Hall He Hn), py_fsub_nan, Hs in E.
  by eapply try_run_upload_result.
Qed.
End CPythonTimes.

(** ** Witnesses: the theorems applied to concrete requests *)

Section Witnesses.
Import Model.

Definition w0 : world := World ∅ ∅ 0 [].
Definition bkt : option string := Some "bkt"%string.
Definition video1 : value := PStr "https://example.com/v.mp4".
Definition extract_req : list (string * value) :=
  [("operation", PStr "extract_audio"); ("videoUrl", video1)].
Definition clip_params (start : value) : list (string * value) :=
  [("podcast_url", PStr "https://a.example/p.mp4"); ("gameplay_url", PStr "https://b.example/g.mp4");
   ("start_time", start); ("end_time", PInt 25)].
Definition clip_req (start : value) : list (string * value) :=
  [("operation", PStr "create_split_screen_clip"); ("params", PDict (clip_params start))].

Lemma extract_audio_request_witness :
  let p := process_video bkt (PDict extract_req) w0 in
  let path := local_audio_path (uuid4 (urandom (w_draws w0))) in
  exists v, snd p = inr v /\
    try_result bkt (extract_audio_output video1 path) path "audioUrl" (after_draw w0) (fst p) v.
Proof.
  intros p path. apply (extract_audio_request bkt extract_req video1 w0 (fst p) (snd p));
    [reflexivity | reflexivity | reflexivity | apply surjective_pairing].
Defined.

Lemma split_screen_request_witness :
  let p := process_video bkt (PDict (clip_req (PInt 10))) w0 in
  let pk := clip_params (PInt 10) in
  let path := local_output_path (uuid4 (urandom (w_draws w0))) in
  exists v, snd p = inr v /\
    try_result bkt
      (split_screen_output (param pk "podcast_url") (param pk "gameplay_url")
         (param pk "bgm_url") (param pk "start_time")
         (py_fsub (binary_normalize prec emax 25 0 false) (binary_normalize prec emax 10 0 false))
         path)
      path "clipUrl" (after_draw w0) (fst p) v.
Proof.
  intros p pk path.
  apply (split_screen_request bkt (clip_req (PInt 10)) pk); reflexivity.
Defined.

Lemma extract_audio_missing_witness :
  process_video bkt (PDict [("operation", PStr "extract_audio"); ("videoUrl", PStr "")]) w0 =
  (w0, inr (PDict [("error", PStr "Missing 'videoUrl' for 'extract_audio' operation")], 400)).
Proof. apply extract_audio_missing; reflexivity. Defined.

Lemma split_screen_missing_witness :
  process_video bkt (PDict [("operation", PStr "create_split_screen_clip")]) w0 =
  (w0, inr (PDict [("error", PStr "Missing parameters for 'create_split_screen_clip' operation")],
            400)).
Proof. apply (split_screen_missing bkt _ []); reflexivity. Defined.

Lemma invalid_operation_witness :
  process_video bkt (PDict [("operation", PStr "transcode")]) w0 =
  (w0, inr (PDict [("error", PStr "Invalid or missing 'operation' specified")], 400)).
Proof. apply invalid_operation; reflexivity. Defined.

Lemma non_dict_body_witness :
  serve bkt (PList [PStr "extract_audio"]) w0 = (w0, Response 500 (HtmlBody "Internal Server Error")).
Proof. apply non_dict_body. intros kvs. discriminate. Defined.

Lemma params_not_dict_witness :
  serve bkt (PDict [("operation", PStr "create_split_screen_clip"); ("params", PNone)]) w0 =
  (w0, Response 500 (HtmlBody "Internal Server Error")).
Proof. apply params_not_dict; [reflexivity | intros pk; discriminate]. Defined.

Lemma bad_time_uncaught_witness :
  serve bkt (PDict (clip_req (PStr "ten"))) w0 = (w0, Response 500 (HtmlBody "Internal Server Error")).
Proof.
  apply (bad_time_uncaught bkt _ (clip_params (PStr "ten"))
           (ValueError "could not convert string to float: 'ten'")); try reflexivity.
  right. eexists. split; reflexivity.
Defined.

Lemma start_time_zero_rejected_witness :
  process_video bkt (PDict (clip_req (PInt 0))) w0 =
  (w0, inr (PDict [("error", PStr "Missing parameters for 'create_split_screen_clip' operation")],
            400)).
Proof. apply (start_time_zero_rejected bkt _ (clip_params (PInt 0))); [reflexivity..|left; reflexivity]. Defined.

Lemma extract_audio_leak_witness :
  let p := process_video None (PDict extract_req) w0 in
  let path := local_audio_path (uuid4 (urandom (w_draws w0))) in
  snd p = inr (error_reply (GoogleAPIError "Cannot determine path without bucket name."))
  /\ is_Some (w_fs (fst p) !! path).
Proof.
  intros p path.
  eapply (extract_audio_leak None extract_req video1 w0); reflexivity.
Defined.
(** A clip request with the start time ["nan"], served with CPython's
    [float()]. *)
Lemma nan_start_time_witness :
  let p := process_video bkt (PDict (clip_req (PStr "nan"))) w0 in
  let pk := clip_params (PStr "nan") in
  let path := local_output_path (uuid4 (urandom (w_draws w0))) in
  exists v, snd p = inr v /\
    try_result bkt
      (split_screen_output (param pk "podcast_url") (param pk "gameplay_url")
         (param pk "bgm_url") (PStr "nan") S754_nan path)
      path "clipUrl" (after_draw w0) (fst p) v.
Proof.
  intros p pk path.
  apply (nan_start_time bkt (clip_req (PStr "nan")) pk (binary_normalize prec emax 25 0 false) w0);
    [reflexivity ..|apply surjective_pairing].
Defined.
End Witnesses.
