(* ===== verification/Service.v ===== *)
(** * The service over many requests

    Flask serves the requests one after another, each from the world the
    previous one left ([serve_all], [reachable]). This file:
    - classifies every request ([process_video_cases]). A request either
      changes nothing, answering 400 or raising, or is one run of the
      [try] block on the fresh temporary path of its uuid;
    - proves invariants of every reachable world by rule induction.
      Local files are only temporary paths, and bucket objects are named
      [<uuid>.mp3] or [<uuid>.mp4];
    - proves that no upload of a run overwrites an object, when the
      uuids drawn in the run are distinct.
    The request contract of the spec and the refinement theorem are in
    [Contract]. *)

From S2P Require Import Prelude PyValue Uuid Paths Pipeline World Model Upload Handler.

Local Open Scope Z_scope.

(** ** Classifying a request *)

(** The ways a request can end: nothing changed (a 400 answer or an
    escaping exception), or a run of the [try] block of one operation on
    its temporary path. *)
Inductive request_effect `{Entropy} `{Gcs} (b : option string) (w : world) :
  world -> exn + value * Z -> Prop :=
| EffNone r :
    (forall v, r = inr v -> snd v = 400) -> request_effect b w w r
| EffAudio url w' v :
    let path := local_audio_path (uuid4 (urandom (w_draws w))) in
    try_result b (extract_audio_output url path) path "audioUrl" (after_draw w) w' v ->
    request_effect b w w' (inr v)
| EffClip o w' v :
    let path := local_output_path (uuid4 (urandom (w_draws w))) in
    out_filename o = path ->
    try_result b o path "clipUrl" (after_draw w) w' v ->
    request_effect b w w' (inr v).

Section Cases.
Context `{FloatParser} `{Entropy} `{Ffmpeg} `{Gcs} `{!FfmpegLaws} `{!GcsLaws}.
Variable b : option string.

Lemma no_effect_400 w v : request_effect b w w (inr (v, 400)).
Proof. apply EffNone. by intros ? [= <-]. Qed.

Lemma no_effect_exn w e : request_effect b w w (inl e).
Proof. apply EffNone. discriminate. Qed.

Lemma extract_audio_cases kvs w w' r :
  extract_audio b (PDict kvs) w = (w', r) -> request_effect b w w' r.
Proof.
  intros E. destruct (truthy (default PNone (dict_lookup "videoUrl" kvs))) eqn:Ht.
  - destruct (dict_lookup "videoUrl" kvs) as [url|] eqn:Hu; [|discriminate].
    rewrite (extract_audio_reduce _ _ _ _ Hu Ht) in E.
    destruct (try_run_upload_result _ _ _ _ _ _ _ eq_refl E) as (v & -> & Hr).
    by eapply EffAudio.
  - rewrite (extract_missing _ _ _ Ht) in E. injection E as <- <-. apply no_effect_400.
Qed.

Lemma split_cases kvs w w' r :
  create_split_screen_clip b (PDict kvs) w = (w', r) -> request_effect b w w' r.
Proof.
  intros E. destruct (default (PDict []) (dict_lookup "params" kvs)) as [| | | | | |pk] eqn:Hp;
    try (destruct (clip_params_not_dict b kvs w) as [e E']; [intros pk' Hpk; rewrite Hp in Hpk; discriminate|];
         rewrite E' in E; injection E as <- <-; apply no_effect_exn).
  destruct (py_all [param pk "podcast_url"; param pk "gameplay_url"; param pk "start_time";
                    param pk "end_time"]) eqn:Hall.
  2:{ rewrite (clip_missing _ _ _ _ Hp Hall) in E. injection E as <- <-. apply no_effect_400. }
  destruct (py_float (param pk "end_time")) as [e|ef] eqn:He.
  { rewrite (clip_bad_time b _ _ e _ Hp Hall (or_introl He)) in E.
    injection E as <- <-. apply no_effect_exn. }
  destruct (py_float (param pk "start_time")) as [e|sf] eqn:Hs.
  { rewrite (clip_bad_time b _ _ e _ Hp Hall (or_intror (ex_intro _ ef (conj He Hs)))) in E.
    injection E as <- <-. apply no_effect_exn. }
  rewrite (split_reduce _ _ _ _ _ _ Hp Hall He Hs) in E.
  destruct (try_run_upload_result _ _ _ _ _ _ _ eq_refl E) as (v & -> & Hr).
  refine (EffClip b w _ _ _ _ Hr). reflexivity.
Qed.

(** Every request changes nothing, or is one run of the [try] block of
    an operation on the temporary path of the uuid it draws. *)
Lemma process_video_cases data w w' r :
  process_video b data w = (w', r) -> request_effect b w w' r.
Proof.
  intros E. destruct data as [| | | | | |kvs];
    try (cbn in E; injection E as <- <-; apply no_effect_exn).
  destruct (dict_lookup "operation" kvs) as [op|] eqn:Hop.
  - rewrite (process_video_op _ _ _ _ Hop) in E.
    destruct (py_eq_str op "extract_audio"); [by apply extract_audio_cases in E|].
    destruct (py_eq_str op "create_split_screen_clip"); [by apply split_cases in E|].
    injection E as <- <-. apply no_effect_400.
  - rewrite process_video_no_op in E by done.
    injection E as <- <-. apply no_effect_400.
Qed.
End Cases.

(** ** What one request does to the world *)

Section Effects.
Context `{Entropy} `{Gcs}.
Variable b : option string.

Lemma try_result_fs o path key w w' v :
  try_result b o path key w w' v -> forall p, p <> path -> w_fs w' !! p = w_fs w !! p.
Proof. destruct 1; intros p Hp; [cbn; by rewrite lookup_delete_ne by congruence|auto..]. Qed.

Lemma try_result_draws o path key w w' v :
  try_result b o path key w w' v -> w_draws w' = w_draws w.
Proof. by destruct 1. Qed.

(** The bucket is unchanged, or holds one more object, named after the
    temporary file, in the configured bucket. *)
Lemma try_result_store o path key w w' v :
  try_result b o path key w w' v ->
  w_store w' = w_store w \/
  exists bn data, b = Some bn /\ w_store w' = <[(bn, basename path) := data]> (w_store w).
Proof. destruct 1; [right; by eexists _, _ | by left ..]. Qed.

(** The temporary path and the object name of the request [w] serves. *)
Definition draw_uuid (w : world) : Z := uuid4 (urandom (w_draws w)).

Lemma request_effect_cases w w' r :
  request_effect b w w' r ->
  w' = w \/
  exists path ext, path = ("/tmp/" ++ uuid_str (draw_uuid w) ++ ext)%string /\
    (ext = ".mp3" \/ ext = ".mp4") /\ w_draws w' = S (w_draws w) /\
    (forall p, p <> path -> w_fs w' !! p = w_fs w !! p) /\
    (w_store w' = w_store w \/
     exists bn data, b = Some bn /\
       w_store w' = <[(bn, (uuid_str (draw_uuid w) ++ ext)%string) := data]> (w_store w)).
Proof.
  destruct 1 as [r|url w' v path Hr|o w' v path Ho Hr]; [by left| |]; right.
  - exists path, ".mp3". split; [done|]. split; [by left|].
    rewrite (try_result_draws _ _ _ _ _ _ Hr). split; [done|]. split.
    + intros p Hp. by rewrite (try_result_fs _ _ _ _ _ _ Hr p Hp).
    + subst path. rewrite <- (basename_tmp _ ".mp3") by done. apply (try_result_store _ _ _ _ _ _ Hr).
  - exists path, ".mp4". split; [done|]. split; [by right|].
    rewrite (try_result_draws _ _ _ _ _ _ Hr). split; [done|]. split.
    + intros p Hp. by rewrite (try_result_fs _ _ _ _ _ _ Hr p Hp).
    + subst path. rewrite <- (basename_tmp _ ".mp4") by done. apply (try_result_store _ _ _ _ _ _ Hr).
Qed.
End Effects.

(** ** Runs of the server *)

Section Run.
Context `{FloatParser} `{Entropy} `{Ffmpeg} `{Gcs}.
Variable b : option string.

(** The requests [ds] served in order from [w]. *)
Fixpoint serve_all (ds : list value) (w : world) : world * list response :=
  match ds with
  | [] => (w, [])
  | d :: ds' =>
      let (w1, resp) := serve b d w in
      let (w2, resps) := serve_all ds' w1 in (w2, resp :: resps)
  end.

(** The worlds a server started in [w0] reaches. *)
Inductive reachable (w0 : world) : world -> Prop :=
| reach_init : reachable w0 w0
| reach_step w d w' resp : reachable w0 w -> serve b d w = (w', resp) -> reachable w0 w'.

Lemma serve_all_reachable ds w0 w :
  reachable w0 w -> reachable w0 (fst (serve_all ds w)).
Proof.
  revert w. induction ds as [|d ds IH]; intros w Hw; [done|]. cbn.
  destruct (serve b d w) as [w1 resp] eqn:E. destruct (serve_all ds w1) as [w2 rs] eqn:E2.
  specialize (IH w1 (reach_step _ _ _ _ _ Hw E)). by rewrite E2 in IH.
Qed.

Lemma serve_effect `{!FfmpegLaws} `{!GcsLaws} d w w' resp :
  serve b d w = (w', resp) -> request_effect b w w' (snd (process_video b d w)).
Proof.
  unfold serve. destruct (process_video b d w) as [w1 r] eqn:E. intros [= -> _].
  exact (process_video_cases b d w _ r E).
Qed.
End Run.

(** ** Invariants of a running server *)

(** The local files are temporary files of the service. *)
Definition tmp_only (w : world) : Prop :=
  forall p, is_Some (w_fs w !! p) ->
  exists u ext, p = ("/tmp/" ++ uuid_str u ++ ext)%string /\ (ext = ".mp3" \/ ext = ".mp4").

(** Every object is in the configured bucket and named after a uuid
    drawn earlier in the run. *)
Definition objects_from_draws `{Entropy} (b : option string) (w : world) : Prop :=
  forall bn n, is_Some (w_store w !! (bn, n)) ->
  b = Some bn /\
  exists i ext, (i < w_draws w)%nat /\ n = (uuid_str (uuid4 (urandom i)) ++ ext)%string /\
                (ext = ".mp3" \/ ext = ".mp4").

Section Invariants.
Context `{FloatParser} `{Entropy} `{!EntropyLaws} `{Ffmpeg} `{Gcs} `{!FfmpegLaws} `{!GcsLaws}.
Variable b : option string.

Lemma objects_from_draws_empty w : w_store w = ∅ -> objects_from_draws b w.
Proof. intros E bn n [x Hx]. by rewrite E, lookup_empty in Hx. Qed.

(** A property every request preserves holds in every reachable world. *)
Lemma reachable_inv (P : world -> Prop) w0 w :
  (forall w d w' resp, P w -> serve b d w = (w', resp) -> P w') ->
  P w0 -> reachable b w0 w -> P w.
Proof. intros Hstep Hinit Hr. induction Hr; eauto. Qed.

Lemma tmp_only_step w d w' resp : tmp_only w -> serve b d w = (w', resp) -> tmp_only w'.
Proof.
  intros IH E.
  destruct (request_effect_cases b _ _ _ (serve_effect b d w w' resp E))
    as [->|(path & ext & -> & Hext & _ & Hfs & _)]; [done|].
  intros p Hp. destruct (decide (p = ("/tmp/" ++ uuid_str (draw_uuid w) ++ ext)%string)) as [->|Hne].
  - by exists (draw_uuid w), ext.
  - rewrite Hfs in Hp by done. by apply IH.
Qed.

Lemma objects_step w d w' resp :
  objects_from_draws b w -> serve b d w = (w', resp) -> objects_from_draws b w'.
Proof.
  intros IH E.
  destruct (request_effect_cases b _ _ _ (serve_effect b d w w' resp E))
    as [->|(path & ext & -> & Hext & Hd & _ & Hst)]; [done|].
  intros bn n Hn. rewrite Hd.
  destruct Hst as [Hst|(bn' & data & Hb & Hst)]; rewrite Hst in Hn.
  - destruct (IH bn n Hn) as (Hb & i & ext' & Hi & Hn' & He). split; [done|].
    exists i, ext'. split; [lia|done].
  - destruct (decide ((bn, n) = (bn', (uuid_str (draw_uuid w) ++ ext)%string))) as [Ek|Hne].
    + pose proof (f_equal fst Ek) as Eb. pose proof (f_equal snd Ek) as En.
      cbn [fst snd] in Eb, En. subst bn n.
      split; [done|]. exists (w_draws w), ext. split; [lia|done].
    + rewrite lookup_insert_ne in Hn by congruence.
      destruct (IH bn n Hn) as (Hb' & i & ext' & Hi & Hn' & He). split; [done|].
      exists i, ext'. split; [lia|done].
Qed.

(** Whatever requests a server serves, the only local files are
    [/tmp/<uuid>.mp3] and [/tmp/<uuid>.mp4]. The files the handler leaks
    are its temporary files and nothing else. *)
Theorem tmp_only_invariant w0 w : tmp_only w0 -> reachable b w0 w -> tmp_only w.
Proof. apply reachable_inv, tmp_only_step. Qed.

(** C27: every object in the bucket is in the configured bucket and is
    named [<uuid>.mp3] or [<uuid>.mp4] after a uuid drawn earlier in the
    run. *)
Theorem objects_invariant w0 w :
  objects_from_draws b w0 -> reachable b w0 w -> objects_from_draws b w.
Proof. apply reachable_inv, objects_step. Qed.

Lemma draw_name_inj i j (e1 e2 : string) :
  (uuid_str (uuid4 (urandom i)) ++ e1)%string = (uuid_str (uuid4 (urandom j)) ++ e2)%string ->
  uuid4 (urandom i) = uuid4 (urandom j).
Proof.
  intros E. apply (uuid_name_inj _ _ e1 e2); [apply uuid4_bound, urandom_length..|exact E].
Qed.

(** No request overwrites an object already in the bucket, provided
    the uuid it draws differs from the uuids drawn before. Objects are
    created once and never updated, as the spec says. *)
Theorem objects_never_overwritten w0 w d w' resp :
  objects_from_draws b w0 -> reachable b w0 w -> serve b d w = (w', resp) ->
  (forall i, (i < w_draws w)%nat -> uuid4 (urandom i) <> draw_uuid w) ->
  forall k, is_Some (w_store w !! k) -> w_store w' !! k = w_store w !! k.
Proof.
  intros Hinit Hr E Hfresh [bn n] Hk.
  destruct (reachable_inv _ w0 w objects_step Hinit Hr bn n Hk) as (_ & i & ext' & Hi & -> & _).
  destruct (request_effect_cases b _ _ _ (serve_effect b d w w' resp E))
    as [->|(path & ext & _ & _ & _ & _ & [Hst|(bn' & data & _ & Hst)])]; [done|by rewrite Hst|].
  rewrite Hst, lookup_insert_ne; [done|]. intros Ek. apply (f_equal snd) in Ek. cbn [snd] in Ek.
  unfold draw_uuid in *. exact (Hfresh i Hi (eq_sym (draw_name_inj _ _ _ _ Ek))).
Qed.
End Invariants.

(** ** Witnesses: runs of the model *)

Section ServiceWitnesses.
Import Model.

(** One [extract_audio] request served with no bucket configured: the
    upload raises and the temporary file is leaked. *)
Lemma tmp_only_invariant_witness :
  let w1 := fst (serve None (PDict extract_req) w0) in
  tmp_only w0 /\ reachable None w0 w1 /\ tmp_only w1.
Proof.
  intros w1.
  assert (H0 : tmp_only w0) by (intros p [x Hx]; unfold w0 in Hx; cbn [w_fs] in Hx; by rewrite lookup_empty in Hx).
  assert (Hr : reachable None w0 w1)
    by (eapply reach_step; [apply reach_init|apply surjective_pairing]).
  split; [exact H0|]. split; [exact Hr|]. exact (tmp_only_invariant None w0 w1 H0 Hr).
Defined.

(** Two [extract_audio] requests: the second draw differs from the first. *)
Lemma objects_invariant_witness :
  let w1 := fst (serve bkt (PDict extract_req) w0) in
  objects_from_draws bkt w0 /\ reachable bkt w0 w1 /\ objects_from_draws bkt w1.
Proof.
  intros w1.
  assert (H0 : objects_from_draws bkt w0) by (apply objects_from_draws_empty; reflexivity).
  assert (Hr : reachable bkt w0 w1)
    by (eapply reach_step; [apply reach_init|apply surjective_pairing]).
  split; [exact H0|]. split; [exact Hr|]. exact (objects_invariant bkt w0 w1 H0 Hr).
Defined.

Lemma objects_never_overwritten_witness :
  let w1 := fst (serve bkt (PDict extract_req) w0) in
  let w2 := fst (serve bkt (PDict extract_req) w1) in
  (forall i, (i < w_draws w1)%nat -> uuid4 (urandom i) <> draw_uuid w1) /\
  forall k, is_Some (w_store w1 !! k) -> w_store w2 !! k = w_store w1 !! k.
Proof.
  intros w1 w2.
  assert (Hf : forall i, (i < w_draws w1)%nat -> uuid4 (urandom i) <> draw_uuid w1).
  { intros i Hi. vm_compute in Hi. assert (i = O) as -> by lia. vm_compute. discriminate. }
  split; [exact Hf|].
  apply (objects_never_overwritten bkt w0 w1 (PDict extract_req) w2
           (snd (serve bkt (PDict extract_req) w1))).
  - apply objects_from_draws_empty; reflexivity.
  - eapply reach_step; [apply reach_init|apply surjective_pairing].
  - apply surjective_pairing.
  - exact Hf.
Defined.
End ServiceWitnesses.
