(* ===== verification/Contract.v ===== *)
(** * The request contract of the spec, and its refinement by [serve]

    The spec (sections 3, 4, 6 and 7) describes the handler as a contract
    on one request. The request is a tagged union of two jobs. A missing
    field or an unknown operation is answered 400 with nothing done. A
    job is answered [200 {key: url}], having stored one object named
    after the job's random name and removed its temporary file, or
    [500 {"error": "FFmpeg error: ..."}], having stored nothing, with only
    the temporary file possibly changed (section 7's leak).

    This file states that contract on an abstract state, the set of
    stored objects and the set of local files ([astate], [abs]), and
    proves that [serve] implements it ([serve_refines]) for every request
    in the grammar of section 6 ([classify d <> JobOutside]). The random
    name of a request is the uuid it draws. The requests outside the
    grammar are those of [Handler.non_dict_body], [Handler.params_not_dict]
    and [Handler.bad_time_uncaught]. *)

From S2P Require Import Prelude PyValue Uuid Paths Pipeline World Model Upload Handler Service.

Local Open Scope Z_scope.

(** ** The abstract state and the abstract request *)

Record astate : Type := AState { a_objs : gset (string * string); a_files : gset string }.

(** The abstraction of a world: the names of its objects and local files. *)
Definition abs (w : world) : astate := AState (dom (w_store w)) (dom (w_fs w)).

(** The job request of spec section 3, as the handler reads it. *)
Inductive job : Type :=
| JobAudio (video_url : value)
| JobClip (podcast_url gameplay_url bgm_url start_time end_time : value)
| JobMissing
| JobInvalid
| JobOutside.

Section Classify.
Context `{FloatParser}.

Definition is_ok {A B} (r : A + B) : bool := match r with inr _ => true | inl _ => false end.

(** Which request of section 6 a body is. A time [float()] rejects, or a
    body or [params] that is not an object, is outside the grammar. *)
Definition classify (d : value) : job :=
  match d with
  | PDict kvs =>
      let op := param kvs "operation" in
      if py_eq_str op "extract_audio" then
        if truthy (param kvs "videoUrl") then JobAudio (param kvs "videoUrl") else JobMissing
      else if py_eq_str op "create_split_screen_clip" then
        match default (PDict []) (dict_lookup "params" kvs) with
        | PDict pk =>
            if negb (py_all [param pk "podcast_url"; param pk "gameplay_url";
                             param pk "start_time"; param pk "end_time"]) then JobMissing
            else if is_ok (py_float (param pk "end_time")) && is_ok (py_float (param pk "start_time"))
            then JobClip (param pk "podcast_url") (param pk "gameplay_url") (param pk "bgm_url")
                         (param pk "start_time") (param pk "end_time")
            else JobOutside
        | _ => JobOutside
        end
      else JobInvalid
  | _ => JobOutside
  end.
End Classify.

(** The reply key and file extension of a job. *)
Definition job_output (j : job) : option (string * string) :=
  match j with
  | JobAudio _ => Some ("audioUrl", ".mp3")
  | JobClip _ _ _ _ _ => Some ("clipUrl", ".mp4")
  | _ => None
  end.

Definition json_reply (code : Z) (kvs : list (string * value)) : response :=
  Response code (JsonBody (PDict kvs)).

(** ** The contract *)

Section Contract.
Context `{Gcs}.
Variable b : option string.

(** [contract name j s s' resp]: the request [j], whose random name is
    [name], may take the abstract state [s] to [s'] answering [resp]. *)
Inductive contract (name : string) : job -> astate -> astate -> response -> Prop :=
| CRejected j s msg :
    j = JobMissing \/ j = JobInvalid ->
    contract name j s s (json_reply 400 [("error", PStr msg)])
| CDone j s key ext bn :
    job_output j = Some (key, ext) -> b = Some bn ->
    let n := (name ++ ext)%string in
    contract name j s
      (AState ({[(bn, n)]} ∪ a_objs s) (a_files s ∖ {[("/tmp/" ++ n)%string]}))
      (json_reply 200 [(key, PStr (gcs_public_url b n))])
| CFailed j s key ext files' msg :
    job_output j = Some (key, ext) ->
    files' ∖ {[("/tmp/" ++ name ++ ext)%string]} = a_files s ∖ {[("/tmp/" ++ name ++ ext)%string]} ->
    contract name j s (AState (a_objs s) files')
      (json_reply 500 [("error", PStr ("FFmpeg error: " ++ msg))]).
End Contract.

(** ** Refinement *)

Lemma dom_frame (m m' : gmap string bytes) (p : string) :
  (forall q, q <> p -> m' !! q = m !! q) -> dom m' ∖ {[p]} = dom m ∖ {[p]}.
Proof.
  intros Hfr. apply set_eq. intros q. rewrite !elem_of_difference, !elem_of_dom, elem_of_singleton.
  split; intros [Hq Hne]; (split; [|done]); [by rewrite <- Hfr | by rewrite Hfr].
Qed.

Section Refinement.
Context `{FloatParser} `{Entropy} `{Ffmpeg} `{Gcs} `{!FfmpegLaws} `{!GcsLaws}.
Variable b : option string.

Lemma serve_process d w w' resp :
  serve b d w = (w', resp) -> exists r, process_video b d w = (w', r) /\ resp = flask_dispatch r.
Proof. unfold serve. destruct (process_video b d w) as [w1 r]. intros [= <- <-]. eauto. Qed.

(** The view returns [(json, code)] and the contract allows that reply. *)
Definition replies (name : string) (j : job) (s s' : astate) (r : exn + value * Z) : Prop :=
  exists v, r = inr v /\ contract b name j s s' (Response (snd v) (JsonBody (fst v))).

(** Each way the [try] block ends is allowed by the contract. *)
Lemma try_result_contract j key ext name o w w' v :
  job_output j = Some (key, ext) ->
  basename ("/tmp/" ++ name ++ ext) = (name ++ ext)%string ->
  try_result b o ("/tmp/" ++ name ++ ext) key (after_draw w) w' v ->
  replies name j (abs w) (abs w') (inr v).
Proof.
  intros Hj Hbn Hr. exists v. split; [done|].
  destruct Hr as [bn data Hb|e w' Hs _ _ Hfs|e w' Hs _ _ Hfs _].
  - unfold abs. cbn [w_fs w_store after_draw]. rewrite dom_insert_L, dom_delete_L, Hbn.
    exact (CDone b name j (abs w) key ext bn Hj Hb).
  - unfold abs. rewrite Hs. exact (CFailed b name j (abs w) key ext _ (exn_str e) Hj (dom_frame _ _ _ Hfs)).
  - unfold abs. rewrite Hs. exact (CFailed b name j (abs w) key ext _ (exn_str e) Hj (dom_frame _ _ _ Hfs)).
Qed.

Lemma rejected_replies name j w msg :
  j = JobMissing \/ j = JobInvalid ->
  replies name j (abs w) (abs w) (inr (PDict [("error", PStr msg)], 400)).
Proof. intros Hj. eexists; split; [done|]. by apply CRejected. Qed.

Lemma param_lookup kvs k v : dict_lookup k kvs = Some v -> param kvs k = v.
Proof. unfold param. by intros ->. Qed.

(** The split-screen branch of [serve_refines]. *)
Lemma split_refines kvs w w' r :
  classify (PDict kvs) <> JobOutside ->
  py_eq_str (param kvs "operation") "extract_audio" = false ->
  py_eq_str (param kvs "operation") "create_split_screen_clip" = true ->
  create_split_screen_clip b (PDict kvs) w = (w', r) ->
  replies (uuid_str (draw_uuid w)) (classify (PDict kvs)) (abs w) (abs w') r.
Proof.
  unfold classify. intros Hj Hx Hc E. rewrite Hx, Hc in *.
  destruct (default (PDict []) (dict_lookup "params" kvs)) as [| | | | | |pk] eqn:Hp;
    try by destruct Hj.
  destruct (py_all _) eqn:Hall; cbn [negb] in *.
  2:{ rewrite (clip_missing _ _ _ _ Hp Hall) in E. injection E as <- <-.
      apply rejected_replies. by left. }
  destruct (py_float (param pk "end_time")) as [e|ef] eqn:He; [by destruct Hj|].
  destruct (py_float (param pk "start_time")) as [e|sf] eqn:Hs; [by destruct Hj|].
  rewrite (split_reduce _ _ _ _ _ _ Hp Hall He Hs) in E.
  destruct (try_run_upload_result _ _ _ _ _ _ _ eq_refl E) as (v & -> & Hr).
  eapply try_result_contract; [reflexivity|by apply basename_tmp|exact Hr].
Qed.

(** The reply [process_video] returns for a request of the grammar. *)
Lemma process_video_replies d w w' r :
  classify d <> JobOutside -> process_video b d w = (w', r) ->
  replies (uuid_str (draw_uuid w)) (classify d) (abs w) (abs w') r.
Proof.
  intros Hj Ep. destruct d as [| | | | | |kvs]; try by destruct Hj.
  destruct (dict_lookup "operation" kvs) as [op|] eqn:Hop.
  2:{ rewrite process_video_no_op in Ep by done. injection Ep as <- <-.
      unfold classify, param. rewrite Hop. apply rejected_replies. by right. }
  rewrite (process_video_op _ _ _ _ Hop) in Ep. rewrite <- (param_lookup _ _ _ Hop) in Ep.
  destruct (py_eq_str (param kvs "operation") "extract_audio") eqn:Hx.
  - unfold classify in *. rewrite Hx in *.
    destruct (truthy (param kvs "videoUrl")) eqn:Ht.
    + destruct (dict_lookup "videoUrl" kvs) as [url|] eqn:Hu; [|by unfold param in Ht; rewrite Hu in Ht].
      rewrite (param_lookup _ _ _ Hu) in Ht.
      rewrite (extract_audio_reduce _ _ _ _ Hu Ht) in Ep.
      destruct (try_run_upload_result _ _ _ _ _ _ _ eq_refl Ep) as (v & -> & Hr).
      eapply try_result_contract; [reflexivity|by apply basename_tmp|exact Hr].
    + rewrite (extract_missing _ _ _ Ht) in Ep. injection Ep as <- <-.
      apply rejected_replies. by left.
  - destruct (py_eq_str (param kvs "operation") "create_split_screen_clip") eqn:Hc.
    + by apply split_refines.
    + injection Ep as <- <-. unfold classify. rewrite Hx, Hc. apply rejected_replies. by right.
Qed.

(** C1: [serve] refines the request contract of the spec. For every
    request in the grammar of spec section 6, the answer and the change
    of the stored objects and local files are those the contract allows
    the request, with the uuid the request draws as its random name:
    400 and nothing changed for a missing field or an unknown operation;
    200 with one more object [<uuid>.mp3] or [<uuid>.mp4] and its
    temporary file gone; or the 500 pipeline error with no new object
    and no local file changed but the temporary one. *)
Theorem serve_refines d w w' resp :
  classify d <> JobOutside -> serve b d w = (w', resp) ->
  contract b (uuid_str (draw_uuid w)) (classify d) (abs w) (abs w') resp.
Proof.
  intros Hj E. destruct (serve_process _ _ _ _ E) as (r & Ep & ->).
  destruct (process_video_replies _ _ _ _ Hj Ep) as ([v code] & -> & Hc). exact Hc.
Qed.

(** The split-screen branch of [outside_uncaught]. *)
Lemma split_outside kvs w :
  classify (PDict kvs) = JobOutside ->
  py_eq_str (param kvs "operation") "extract_audio" = false ->
  py_eq_str (param kvs "operation") "create_split_screen_clip" = true ->
  exists e, create_split_screen_clip b (PDict kvs) w = (w, inl e).
Proof.
  unfold classify. intros Hj Hx Hc. rewrite Hx, Hc in Hj.
  destruct (default (PDict []) (dict_lookup "params" kvs)) as [| | | | | |pk] eqn:Hp;
    try (apply clip_params_not_dict; intros pk; by rewrite Hp).
  destruct (py_all _) eqn:Hall; [|done]. cbn [negb] in Hj.
  destruct (py_float (param pk "end_time")) as [e|ef] eqn:He.
  { exists e. apply (clip_bad_time b _ pk); [done|done|by left]. }
  destruct (py_float (param pk "start_time")) as [e|sf] eqn:Hs; [|done].
  exists e. apply (clip_bad_time b _ pk); [done|done|by right; exists ef].
Qed.

(** A request outside the grammar raises outside the [try] blocks and
    changes nothing. *)
Lemma process_video_outside d w :
  classify d = JobOutside -> exists e, process_video b d w = (w, inl e).
Proof.
  intros Hj. destruct d as [| | | | | |kvs]; try (eexists; reflexivity).
  destruct (dict_lookup "operation" kvs) as [op|] eqn:Hop.
  2:{ unfold classify, param in Hj. by rewrite Hop in Hj. }
  rewrite (process_video_op _ _ _ _ Hop), <- (param_lookup _ _ _ Hop).
  destruct (py_eq_str (param kvs "operation") "extract_audio") eqn:Hx.
  { unfold classify in Hj. rewrite Hx in Hj. by destruct (truthy _). }
  destruct (py_eq_str (param kvs "operation") "create_split_screen_clip") eqn:Hc.
  - exact (split_outside _ w Hj Hx Hc).
  - unfold classify in Hj. by rewrite Hx, Hc in Hj.
Qed.

(** C13: every request outside the grammar of spec section 6 (a body or
    [params] that is not an object, a time [float()] rejects) raises
    outside the [try] blocks: Flask answers its HTML 500 page, not the
    JSON errors the contract lists, and the world is unchanged. *)
Theorem outside_uncaught d w :
  classify d = JobOutside ->
  serve b d w = (w, Response 500 (HtmlBody "Internal Server Error")).
Proof. intros Hj. unfold serve. by destruct (process_video_outside d w Hj) as [e ->]. Qed.
End Refinement.

(** ** Witnesses *)

Section ContractWitnesses.
Import Model.

(** A split-screen request in the grammar, served with the model. *)
Lemma serve_refines_witness :
  let d := PDict (clip_req (PInt 10)) in
  classify d <> JobOutside /\
  contract bkt (uuid_str (draw_uuid w0)) (classify d) (abs w0) (abs (fst (serve bkt d w0)))
    (snd (serve bkt d w0)).
Proof.
  intros d. assert (Hj : classify d <> JobOutside) by (vm_compute; discriminate).
  split; [exact Hj|]. apply serve_refines; [exact Hj|apply surjective_pairing].
Defined.

(** A start time [float()] rejects. *)
Lemma outside_uncaught_witness :
  let d := PDict (clip_req (PStr "ten")) in
  classify d = JobOutside /\
  serve bkt d w0 = (w0, Response 500 (HtmlBody "Internal Server Error")).
Proof.
  intros d. assert (Hj : classify d = JobOutside) by reflexivity.
  split; [exact Hj|]. exact (outside_uncaught bkt d w0 Hj).
Defined.
End ContractWitnesses.
