(* ===== verification/App.v ===== *)
(** * The application around the handler: start-up, routing, [get_json]

    [process_video] is reached through three layers of [src/app.py] and
    Flask, which this file models and composes with [Handler.serve]:
    - start-up (lines 7-14): importing the module builds the storage
      client and reads [GCS_BUCKET_NAME] from the environment once
      ([load_app]);
    - routing (line 25): Werkzeug's URL map sends [POST /process] to the
      view, answers [OPTIONS] itself, and refuses other methods (405)
      and other paths (404) ([match_route]);
    - the view's first line (line 27): [request.get_json()] refuses a
      body whose content type is not JSON (415) and one [json.loads]
      rejects (400), before the handler reads anything ([get_json]); a
      body nested deeper than [json.loads]'s recursion guard allows
      raises [RecursionError], which is no [ValueError]: Flask answers
      it with its 500 page;
    - the reply: [jsonify]'s text, or Flask's HTML pages ([render]).
    [handle] serves one HTTP request and [handle_all] a sequence of them.

    The versions modelled are current Flask and Werkzeug (3.x), outside
    debug mode; the repository pins none. An HTML page of Werkzeug is
    abbreviated to its title, as [Handler.flask_dispatch] does.

    A body is a string of bytes, which [json.loads] decodes after
    guessing their encoding ([Utf8.json_loads_bytes]): an ill-formed
    UTF-8 body is a [ValueError], answered 400. A body in UTF-16 or
    UTF-32, or holding a code point above U+00FF, is outside the model
    ([BodyOut]). Theorem [bom_ignored]: a UTF-8 byte order mark before
    the body changes no answer. *)

From S2P Require Import Prelude PyValue Uuid PyFloat Json Utf8 Paths Pipeline World Model Upload Handler Service Contract.
From Stdlib Require Import Floats.SpecFloat.

Local Open Scope Z_scope.

(** ** Start-up (lines 7-14) *)

(** The process environment, [os.environ]. *)
Definition environ : Type := gmap string string.

(** Line 14: [os.environ.get('GCS_BUCKET_NAME')]. *)
Definition DESTINATION_BUCKET_NAME (env : environ) : option string := env !! "GCS_BUCKET_NAME".

(** Line 11: [storage.Client()] looks for credentials and a project in
    the environment and raises when it finds none. How it looks is the
    library's business: a parameter. *)
Class StorageClientInit := { storage_client_init : environ -> exn + unit }.

(** The module's globals after its import. *)
Record app : Type := App { app_bucket : option string }.

(** Lines 7-14, in order: the client first, then the bucket name. An
    exception of [storage.Client()] aborts the import, and the server
    does not start. *)
Definition load_app `{StorageClientInit} (env : environ) : exn + app :=
  match storage_client_init env with
  | inl e => inl e
  | inr _ => inr (App (DESTINATION_BUCKET_NAME env))
  end.

(** ** HTTP requests and responses *)

Record http_request : Type := HttpRequest {
  req_method : string;
  req_path : string;
  req_content_type : option string;
  req_data : string
}.

Record http_response : Type := HttpResponse { h_status : Z; h_mimetype : string; h_text : string }.

Definition error_page (code : Z) (title : string) : http_response := HttpResponse code "text/html" title.

(** ** Routing (line 25) *)

Inductive route : Type := RouteView | RouteOptions | RouteNotFound | RouteMethodNotAllowed.

(** [@app.route('/process', methods=['POST'])]: Flask adds [OPTIONS] to
    the rule's methods and answers it itself; Werkzeug's map answers 404
    for another path and 405 for another method of this path. *)
Definition match_route (method path : string) : route :=
  if negb (String.eqb path "/process") then RouteNotFound
  else if String.eqb method "POST" then RouteView
  else if String.eqb method "OPTIONS" then RouteOptions
  else RouteMethodNotAllowed.

(** ** [request.get_json()] (line 27) *)

(** [str.isspace] on the code points below 256. *)
Definition py_isspace (c : ascii) : bool :=
  let n := nat_of_ascii c in
  ((9 <=? n) && (n <=? 13))%nat || ((28 <=? n) && (n <=? 32))%nat || (n =? 133)%nat || (n =? 160)%nat.

(** [str.strip()]. *)
Definition py_strip (s : string) : string := strip_by py_isspace s.

(** [str.lower()] on the code points below 256: [A-Z] and the Latin-1
    capitals (code points 192-222) but the multiplication sign (215). *)
Definition py_lower_char (c : ascii) : ascii :=
  let n := nat_of_ascii c in
  if ((65 <=? n) && (n <=? 90))%nat || ((192 <=? n) && (n <=? 222) && negb (n =? 215))%nat
  then ascii_of_nat (n + 32) else c.

Fixpoint py_lower (s : string) : string :=
  match s with
  | String c s' => String (py_lower_char c) (py_lower s')
  | EmptyString => EmptyString
  end.

(** [value.partition(";")[0]]. *)
Fixpoint before_semicolon (s : string) : string :=
  match s with
  | String c s' => if Ascii.eqb c ";" then EmptyString else String c (before_semicolon s')
  | EmptyString => EmptyString
  end.

(** Werkzeug's [Request.mimetype]: [parse_options_header] keeps the
    stripped text before the first [;], and [mimetype] lowercases it. *)
Definition mimetype (content_type : option string) : string :=
  py_lower (py_strip (before_semicolon (default EmptyString content_type))).

(** [s.endswith(suffix)]. *)
Definition ends_with (suffix s : string) : bool :=
  let n := String.length s in let m := String.length suffix in
  (m <=? n)%nat && String.eqb (substring (n - m) m s) suffix.

(** Werkzeug's [Request.is_json]. *)
Definition is_json (mt : string) : bool :=
  String.eqb mt "application/json" || (String.prefix "application/" mt && ends_with "+json" mt).

Inductive json_body : Type :=
| BodyOk (v : value)
| BodyAbort (code : Z) (title : string)
| BodyOut.

Section GetJson.
Context `{FloatParser} `{RecursionLimit}.

(** Werkzeug's [get_json()] with Flask's [on_json_loading_failure]: a
    content type that is not JSON raises [UnsupportedMediaType] (415),
    and a [ValueError] of [json.loads] raises [BadRequest] (400). Werkzeug
    catches only [ValueError]: the [RecursionError] of the scanner's
    guard leaves the view, and Flask answers it with its 500 page. *)
Definition get_json (content_type : option string) (data : string) : json_body :=
  if negb (is_json (mimetype content_type)) then BodyAbort 415 "Unsupported Media Type"
  else match json_loads_bytes data with
       | SOk v _ => BodyOk v
       | SErr => BodyAbort 400 "Bad Request"
       | SDeep => BodyAbort 500 "Internal Server Error"
       | SOut | SFuel => BodyOut
       end.
End GetJson.

(** ** The reply on the wire *)

(** [jsonify(d)] sends [application/json] and [json.dumps(d)] with a
    newline; Flask's pages are HTML. A reply [jsonify] cannot encode is
    outside the model; the handler has none ([serve_reply_wf]). *)
Definition render (resp : response) : option http_response :=
  match resp_body resp with
  | HtmlBody s => Some (HttpResponse (status resp) "text/html" s)
  | JsonBody v =>
      match jsonify_text v with
      | Dumped t => Some (HttpResponse (status resp) "application/json" t)
      | _ => None
      end
  end.

(** ** Serving HTTP requests *)

Section Http.
Context `{FloatParser} `{RecursionLimit} `{Entropy} `{Ffmpeg} `{Gcs}.

(** One request through Flask: the route, then the view, which reads
    the body (line 27) and runs [process_video] on it (lines 28-94).
    [None] is a request outside the model. *)
Definition handle (a : app) (req : http_request) (w : world) : option (world * http_response) :=
  match match_route (req_method req) (req_path req) with
  | RouteNotFound => Some (w, error_page 404 "Not Found")
  | RouteMethodNotAllowed => Some (w, error_page 405 "Method Not Allowed")
  | RouteOptions => Some (w, HttpResponse 200 "text/html" EmptyString)
  | RouteView =>
      match get_json (req_content_type req) (req_data req) with
      | BodyAbort code title => Some (w, error_page code title)
      | BodyOut => None
      | BodyOk d =>
          let (w', resp) := serve (app_bucket a) d w in
          match render resp with Some h => Some (w', h) | None => None end
      end
  end.

(** The requests [reqs] served one after another. *)
Fixpoint handle_all (a : app) (reqs : list http_request) (w : world) :
    option (world * list http_response) :=
  match reqs with
  | [] => Some (w, [])
  | req :: reqs' =>
      match handle a req w with
      | Some (w1, h) =>
          match handle_all a reqs' w1 with
          | Some (w2, hs) => Some (w2, h :: hs)
          | None => None
          end
      | None => None
      end
  end.

End Http.

(** ** The replies of the handler *)

(** The replies of spec section 6: a JSON object with one string member,
    [audioUrl] or [clipUrl] with 200 and [error] with 400 or 500; or
    Flask's HTML 500 page. *)
Definition reply_wf (resp : response) : bool :=
  match resp with
  | Response code (JsonBody (PDict [(k, PStr _)])) =>
      ((code =? 200) && (String.eqb k "audioUrl" || String.eqb k "clipUrl")) ||
      (((code =? 400) || (code =? 500)) && String.eqb k "error")
  | Response code (HtmlBody s) => (code =? 500) && String.eqb s "Internal Server Error"
  | _ => false
  end.

Lemma contract_reply_wf `{Gcs} b name j s s' resp :
  contract b name j s s' resp -> reply_wf resp = true.
Proof.
  destruct 1 as [|j s key ext bn Hj|j s key ext f msg Hj]; [done| |done].
  destruct j; cbn in Hj; try discriminate; by injection Hj as <- <-.
Qed.

Section Replies.
Context `{FloatParser} `{Entropy} `{Ffmpeg} `{Gcs} `{!FfmpegLaws} `{!GcsLaws}.

(** Every answer of the handler has the shape of spec section 6, or is
    Flask's HTML 500 page for an exception the handler does not catch. *)
Lemma serve_reply_wf b d w : reply_wf (snd (serve b d w)) = true.
Proof.
  destruct (serve b d w) as [w' resp] eqn:E. cbn [snd].
  assert (Hdec : classify d = JobOutside \/ classify d <> JobOutside)
    by (destruct (classify d); (by left) || (by right)).
  destruct Hdec as [Hj|Hj].
  - unfold serve in E. destruct (process_video_outside b d w Hj) as [e Ep].
    rewrite Ep in E. by injection E as <- <-.
  - destruct (serve_process b d w w' resp E) as (r & Ep & ->).
    destruct (process_video_replies b d w w' r Hj Ep) as ([v code] & -> & Hc).
    exact (contract_reply_wf _ _ _ _ _ _ Hc).
Qed.
End Replies.

(** ** The replies on the wire *)

Lemma canonical_str_member k s : canonical (PDict [(k, PStr s)]) = true.
Proof. cbn. rewrite bool_decide_eq_true_2; [done|]. apply NoDup_singleton. Qed.

Lemma stop_newline : stop (String "010" EmptyString) = true.
Proof. reflexivity. Qed.

Section Wire.
Context `{FloatParser} `{RecursionLimit} `{!RecursionLimitLaws}.

(** A reply of spec section 6 is sent as [jsonify]'s text, and a client's
    [json.loads] of that text gives the reply back. *)
Lemma render_json code v :
  reply_wf (Response code (JsonBody v)) = true ->
  exists t, render (Response code (JsonBody v)) = Some (HttpResponse code "application/json" t) /\
            json_loads t = SOk v EmptyString.
Proof.
  intros Hwf. assert (Hc : canonical v = true).
  { destruct v as [| | | | | |[|[k [| | | | | |]] [|]]]; try discriminate. apply canonical_str_member. }
  assert (Hd : (vdepth v <= json_room)%nat).
  { destruct v as [| | | | | |[|[k [| | | | | |]] [|]]]; try discriminate. pose proof json_room_pos. cbn. lia. }
  destruct (dumps_reads_back v Hc) as (t & Ht). exists (t ++ String "010" EmptyString)%string.
  split.
  - unfold render, jsonify_text. cbn [resp_body status]. by rewrite (proj1 Ht).
  - by apply dumps_back_loads.
Qed.

(** A body that [jsonify] could have sent is read by [get_json] as the
    value it encodes. *)
Lemma get_json_dumps ct d t :
  is_json (mimetype ct) = true -> canonical d = true -> (vdepth d <= json_room)%nat -> json_dumps d = Dumped t ->
  get_json ct t = BodyOk d.
Proof.
  intros Hct Hc Hdp Hd. pose proof (dumps_printable d t Hd) as Hp.
  unfold get_json, json_loads_bytes. rewrite Hct, decode_printable by done. cbn [negb].
  destruct (dumps_reads_back d Hc) as (t' & Ht'). rewrite (proj1 Ht') in Hd. injection Hd as ->.
  by rewrite <- (string_app_nil_r t), (dumps_back_loads d t EmptyString Ht').
Qed.
End Wire.

(** An answer on the wire as spec section 6 describes it: a JSON text
    that decodes to an object with one string member, [audioUrl] or
    [clipUrl] with 200 and [error] with 400 or 500; or an HTML page of
    Flask or Werkzeug. *)
Definition http_reply_wf `{FloatParser} `{RecursionLimit} (h : http_response) : bool :=
  if String.eqb (h_mimetype h) "application/json" then
    match json_loads (h_text h) with
    | SOk v EmptyString => reply_wf (Response (h_status h) (JsonBody v))
    | _ => false
    end
  else String.eqb (h_mimetype h) "text/html" && existsb (Z.eqb (h_status h)) [200; 400; 404; 405; 415; 500].

Lemma get_json_abort `{FloatParser} `{RecursionLimit} ct data code title :
  get_json ct data = BodyAbort code title -> code = 415 \/ code = 400 \/ code = 500.
Proof.
  unfold get_json. destruct (is_json _); cbn [negb]; [|intros [= <- _]; by left].
  destruct (json_loads_bytes data); intros E; try discriminate; injection E as <- _; lia.
Qed.

Section Answers.
Context `{FloatParser} `{RecursionLimit} `{!RecursionLimitLaws} `{Entropy} `{Ffmpeg} `{Gcs}
  `{!FfmpegLaws} `{!GcsLaws}.

(** The answer to a body the view reads is the handler's, on the wire. *)
Lemma render_serve b d w :
  exists h, render (snd (serve b d w)) = Some h /\ http_reply_wf h = true /\
            h_status h = status (snd (serve b d w)).
Proof.
  pose proof (serve_reply_wf b d w) as Hwf. destruct (snd (serve b d w)) as [code [v|s]].
  - destruct (render_json code v Hwf) as (t & -> & Ht). eexists. split; [done|].
    unfold http_reply_wf. cbn -[json_loads reply_wf]. by rewrite Ht.
  - apply andb_true_iff in Hwf as [Hc%Z.eqb_eq _]. subst code. by eexists.
Qed.

Lemma handle_view a req w :
  match_route (req_method req) (req_path req) = RouteView ->
  handle a req w =
  match get_json (req_content_type req) (req_data req) with
  | BodyAbort code title => Some (w, error_page code title)
  | BodyOut => None
  | BodyOk d => option_map (pair (fst (serve (app_bucket a) d w))) (render (snd (serve (app_bucket a) d w)))
  end.
Proof.
  intros Hr. unfold handle. rewrite Hr. destruct (get_json _ _); [|done|done].
  destruct (serve (app_bucket a) v w) as [w' resp]. cbn. by destruct (render resp).
Qed.

(** C3: Every answer the service sends has the shape of spec section 6 on
    the wire: a JSON text a client decodes to an object with one string
    member, [audioUrl] or [clipUrl] with status 200 and [error] with 400
    or 500; or an HTML page (Flask's 500, Werkzeug's 400, 404, 405 and
    415, the empty answer to [OPTIONS]). *)
Theorem handle_reply_wf a req w w' h :
  handle a req w = Some (w', h) -> http_reply_wf h = true.
Proof.
  destruct (match_route (req_method req) (req_path req)) eqn:Hr;
    [|unfold handle; rewrite Hr; by intros [= <- <-] ..].
  rewrite handle_view by done. destruct (get_json _ _) as [d|code title|] eqn:Hg; [|intros [= <- <-]|done].
  - destruct (render_serve (app_bucket a) d w) as (h' & -> & Hwf & _). by intros [= <- <-].
  - unfold http_reply_wf. cbn. by destruct (get_json_abort _ _ _ _ Hg) as [-> | [-> | ->]].
Qed.

(** C2: A request whose body a client encoded as [jsonify] does, sent as
    [POST /process] with a JSON content type, is served exactly as the
    handler serves the value it encodes: [get_json] reads the value back,
    the handler runs on it, and its reply is sent. The HTTP layer refines
    [Handler.serve] on every body that encodes a value. *)
Theorem wire_refines a ct d t w :
  is_json (mimetype ct) = true -> canonical d = true -> (vdepth d <= json_room)%nat -> json_dumps d = Dumped t ->
  exists h, render (snd (serve (app_bucket a) d w)) = Some h /\
    handle a (HttpRequest "POST" "/process" ct t) w = Some (fst (serve (app_bucket a) d w), h).
Proof.
  intros Hct Hc Hdp Hd. destruct (render_serve (app_bucket a) d w) as (h & Hh & _).
  exists h. split; [done|]. rewrite handle_view by reflexivity. cbn [req_content_type req_data].
  by rewrite (get_json_dumps ct d t Hct Hc Hdp Hd), Hh.
Qed.

(** C14: A [POST /process] whose content type is not JSON is refused by
    [request.get_json()] with Werkzeug's HTML 415 page before the handler
    reads anything: no uuid, no ffmpeg run, no upload, the world
    unchanged. The spec's contract has no 415: it promises a JSON 400
    for invalid input. *)
Theorem wrong_content_type a ct data w :
  is_json (mimetype ct) = false ->
  handle a (HttpRequest "POST" "/process" ct data) w = Some (w, error_page 415 "Unsupported Media Type").
Proof. intros Hct. rewrite handle_view by reflexivity. cbn [req_content_type req_data]. unfold get_json. by rewrite Hct. Qed.

(** C15: A [POST /process] with a JSON content type whose body [json.loads]
    rejects, as ill-formed UTF-8 or as text that is not JSON, is answered
    with Werkzeug's HTML 400 page, not the spec's JSON error, and nothing
    changes. *)
Theorem malformed_json a ct data w :
  is_json (mimetype ct) = true -> json_loads_bytes data = SErr ->
  handle a (HttpRequest "POST" "/process" ct data) w = Some (w, error_page 400 "Bad Request").
Proof.
  intros Hct Hl. rewrite handle_view by reflexivity. cbn [req_content_type req_data].
  unfold get_json. by rewrite Hct, Hl.
Qed.

(** C17: A body that starts with UTF-8's byte order mark is answered as
    the same body without it, when [json.detect_encoding] takes that body
    for UTF-8: ['utf-8-sig'] drops the mark before the handler reads
    anything. *)
Theorem bom_ignored a ct data w :
  detect_encoding data = EncUtf8 ->
  handle a (HttpRequest "POST" "/process" ct (BOM_UTF8 ++ data)) w =
  handle a (HttpRequest "POST" "/process" ct data) w.
Proof.
  intros Hd. rewrite !handle_view by reflexivity. cbn [req_content_type req_data].
  unfold get_json. by rewrite loads_bom.
Qed.

Lemma nest_text_printable n : all_printable (nest_text n) = true.
Proof. induction n as [|n IH]; [done|]. cbn [nest_text]. by rewrite !all_printable_app, IH. Qed.

(** C16: A [POST /process] with a JSON content type whose body is valid
    JSON, arrays nested one level deeper than [json.loads]'s recursion
    guard allows, is answered with Flask's HTML 500 page and nothing
    changes: the guard's [RecursionError] is no [ValueError], so
    [get_json] does not turn it into a 400. *)
Theorem deep_json_uncaught a ct w :
  is_json (mimetype ct) = true ->
  handle a (HttpRequest "POST" "/process" ct (nest_text json_room)) w =
  Some (w, error_page 500 "Internal Server Error").
Proof.
  intros Hct. rewrite handle_view by reflexivity. cbn [req_content_type req_data].
  unfold get_json, json_loads_bytes. rewrite Hct, decode_printable by apply nest_text_printable.
  cbn [negb]. by rewrite loads_nest_deep.
Qed.

(** ** Without a bucket *)

(** With no bucket name, the handler stores nothing and never answers 200. *)
Lemma serve_unconfigured d w :
  status (snd (serve None d w)) <> 200 /\ w_store (fst (serve None d w)) = w_store w.
Proof.
  destruct (serve None d w) as [w' resp] eqn:E. cbn [fst snd]. split.
  - assert (Hdec : classify d = JobOutside \/ classify d <> JobOutside)
      by (destruct (classify d); (by left) || (by right)).
    destruct Hdec as [Hj|Hj].
    + unfold serve in E. destruct (process_video_outside None d w Hj) as [e Ep].
      rewrite Ep in E. by injection E as <- <-.
    + destruct (serve_process None d w w' resp E) as (r & Ep & ->).
      destruct (process_video_replies None d w w' r Hj Ep) as ([v code] & -> & Hc).
      by inversion Hc.
  - by destruct (request_effect_cases None _ _ _ (serve_effect None d w w' resp E))
      as [->|(_ & _ & _ & _ & _ & _ & [Hst|(bn & data & Hb & _)])].
Qed.

Lemma handle_unconfigured a req w w' h :
  app_bucket a = None -> handle a req w = Some (w', h) ->
  w_store w' = w_store w /\ (h_status h = 200 -> req_method req = "OPTIONS").
Proof.
  intros Hb. destruct (match_route (req_method req) (req_path req)) eqn:Hr;
    [|unfold handle; rewrite Hr; intros [= <- <-]; split; [done|cbn; try discriminate] ..].
  - rewrite handle_view by done. destruct (get_json _ _) as [d|code title|] eqn:Hg; [|intros [= <- <-]|done].
    + rewrite Hb. destruct (serve_unconfigured d w) as [Hs Hst].
      destruct (render_serve None d w) as (h' & -> & _ & Hc). intros [= <- <-]. by rewrite Hc.
    + split; [done|]. cbn. by destruct (get_json_abort _ _ _ _ Hg) as [-> | [-> | ->]].
  - intros _. unfold match_route in Hr.
    destruct (negb _), (String.eqb_spec (req_method req) "POST"), (String.eqb_spec (req_method req) "OPTIONS");
      done.
Qed.
End Answers.

(** C18: When [GCS_BUCKET_NAME] is unset the service still starts, but no
    request of any run stores an object, and the only 200 answers are
    those to [OPTIONS]: every job runs ffmpeg and then fails its upload
    with the 500 FFmpeg error. Nothing checks the setting at start-up. *)
Theorem unconfigured_never_stores `{StorageClientInit} `{FloatParser} `{RecursionLimit} `{Entropy}
    `{!RecursionLimitLaws} `{Ffmpeg} `{Gcs} `{!FfmpegLaws} `{!GcsLaws} env a reqs w w' hs :
  DESTINATION_BUCKET_NAME env = None -> load_app env = inr a -> handle_all a reqs w = Some (w', hs) ->
  w_store w' = w_store w /\ Forall2 (fun req h => h_status h = 200 -> req_method req = "OPTIONS") reqs hs.
Proof.
  unfold load_app. intros Hb Ha. destruct storage_client_init; [discriminate|]. injection Ha as <-.
  revert w hs. induction reqs as [|req reqs IH]; intros w hs; cbn [handle_all]; [by intros [= <- <-]|].
  destruct (handle _ req w) as [[w1 h]|] eqn:E1; [|discriminate].
  destruct (handle_all _ reqs w1) as [[w2 hs']|] eqn:E2; [|discriminate]. intros [= <- <-].
  destruct (handle_unconfigured (App (DESTINATION_BUCKET_NAME env)) req w w1 h Hb E1) as [Hs1 Hh1].
  destruct (IH w1 hs' E2) as [Hs2 Hh2]. split; [congruence|by constructor].
Qed.

(** ** Witnesses: requests on the wire, served with the model *)

Section AppWitnesses.
Import Model.

#[local] Instance client_ok : StorageClientInit := { storage_client_init _ := inr tt }.

(** The text of an [extract_audio] request, as [jsonify] would write it. *)
Definition extract_text : string :=
  match json_dumps (PDict extract_req) with Dumped t => t | _ => EmptyString end.

Definition post (ct : string) (body : string) : http_request := HttpRequest "POST" "/process" (Some ct) body.

Definition run_reqs : list http_request :=
  [post "application/json" extract_text; HttpRequest "GET" "/process" None EmptyString;
   HttpRequest "OPTIONS" "/process" None EmptyString; post "text/plain" extract_text;
   post "application/json" "{"; HttpRequest "POST" "/" None EmptyString].

Lemma handle_reply_wf_witness :
  let p := default (w0, error_page 0 EmptyString) (handle (App bkt) (post "application/json" extract_text) w0) in
  handle (App bkt) (post "application/json" extract_text) w0 = Some p /\ http_reply_wf p.2 = true.
Proof.
  intros p. assert (E : handle (App bkt) (post "application/json" extract_text) w0 = Some (p.1, p.2))
    by (vm_compute; reflexivity).
  split; [exact E|]. exact (handle_reply_wf _ _ _ _ _ E).
Defined.

Lemma wire_refines_witness :
  is_json (mimetype (Some "application/json"%string)) = true /\ canonical (PDict extract_req) = true /\
  (vdepth (PDict extract_req) <= json_room)%nat /\ json_dumps (PDict extract_req) = Dumped extract_text /\
  exists h, render (snd (serve bkt (PDict extract_req) w0)) = Some h /\
    handle (App bkt) (HttpRequest "POST" "/process" (Some "application/json"%string) extract_text) w0 =
    Some (fst (serve bkt (PDict extract_req) w0), h).
Proof.
  assert (H1 : is_json (mimetype (Some "application/json"%string)) = true) by reflexivity.
  assert (H2 : canonical (PDict extract_req) = true) by (vm_compute; reflexivity).
  assert (Hd : (vdepth (PDict extract_req) <= json_room)%nat) by (cbn; lia).
  assert (H3 : json_dumps (PDict extract_req) = Dumped extract_text) by (vm_compute; reflexivity).
  split; [exact H1|]. split; [exact H2|]. split; [exact Hd|]. split; [exact H3|].
  exact (wire_refines (App bkt) _ _ _ w0 H1 H2 Hd H3).
Defined.

Lemma wrong_content_type_witness :
  is_json (mimetype (Some "text/plain"%string)) = false /\
  handle (App bkt) (HttpRequest "POST" "/process" (Some "text/plain"%string) extract_text) w0 =
  Some (w0, error_page 415 "Unsupported Media Type").
Proof.
  assert (H1 : is_json (mimetype (Some "text/plain"%string)) = false) by reflexivity.
  split; [exact H1|]. exact (wrong_content_type (App bkt) _ extract_text w0 H1).
Defined.

(** A body with the byte 0xFF, which no UTF-8 text holds. *)
Lemma malformed_json_witness :
  let ct := Some "Application/JSON; charset=utf-8"%string in
  let data := bytes_of [123; 255; 125]%nat in
  is_json (mimetype ct) = true /\ json_loads_bytes data = SErr /\
  handle (App bkt) (HttpRequest "POST" "/process" ct data) w0 = Some (w0, error_page 400 "Bad Request").
Proof.
  intros ct data. assert (H1 : is_json (mimetype ct) = true) by reflexivity.
  assert (H2 : json_loads_bytes data = SErr) by (vm_compute; reflexivity).
  split; [exact H1|]. split; [exact H2|].
  exact (malformed_json (App bkt) ct data w0 H1 H2).
Defined.

Lemma bom_ignored_witness :
  detect_encoding extract_text = EncUtf8 /\
  handle (App bkt) (post "application/json" (BOM_UTF8 ++ extract_text)) w0 =
  handle (App bkt) (post "application/json" extract_text) w0.
Proof.
  assert (Hd : detect_encoding extract_text = EncUtf8) by (vm_compute; reflexivity).
  split; [exact Hd|]. exact (bom_ignored (App bkt) _ extract_text w0 Hd).
Defined.

Lemma deep_json_uncaught_witness :
  is_json (mimetype (Some "application/json"%string)) = true /\
  handle (App bkt) (HttpRequest "POST" "/process" (Some "application/json"%string) (nest_text json_room)) w0 =
  Some (w0, error_page 500 "Internal Server Error").
Proof.
  assert (H1 : is_json (mimetype (Some "application/json"%string)) = true) by reflexivity.
  split; [exact H1|]. exact (deep_json_uncaught (App bkt) _ w0 H1).
Defined.

(** The run above with [GCS_BUCKET_NAME] unset. *)
Lemma unconfigured_never_stores_witness :
  let p := default (w0, []) (handle_all (App None) run_reqs w0) in
  DESTINATION_BUCKET_NAME ∅ = None /\ load_app ∅ = inr (App None) /\
  handle_all (App None) run_reqs w0 = Some p /\
  w_store p.1 = w_store w0 /\
  Forall2 (fun req h => h_status h = 200 -> req_method req = "OPTIONS") run_reqs p.2.
Proof.
  intros p. assert (E : handle_all (App None) run_reqs w0 = Some (p.1, p.2)) by (vm_compute; reflexivity).
  split; [reflexivity|]. split; [reflexivity|]. split; [exact E|].
  exact (unconfigured_never_stores ∅ (App None) run_reqs w0 _ _ eq_refl eq_refl E).
Defined.
End AppWitnesses.
