(* ===== verification/Concurrency.v ===== *)
(** * Requests served concurrently

    Spec section 5: each request is handled on its own thread, with no
    limit, no queue and no coordination between requests. The state the
    requests share is the world: the local file system, the bucket and
    the entropy of [os.urandom]. A request acts on it at four points:
    - the draw of [uuid.uuid4()] (lines 36, 64), after validating;
    - ffmpeg's run (lines 44, 82-85), which writes the temporary file;
    - the upload (line 21), which writes the object;
    - [os.remove] (line 22), which deletes the temporary file.
    Between these points a request reads only its own local variables,
    so a thread of the server is a request stopped at one of these
    points ([phase]). [thread_step] runs it to the next one. [prepare]
    is the handler up to the draw ([prepare_extract_audio] for lines
    32-36, [prepare_split_screen_clip] for lines 53-64), and the three
    other steps are the [try] block of [Handler.try_run_upload], cut at
    its calls. The lemma [thread_alone] checks the cut: a thread run
    alone computes [Handler.process_video].

    The server ([cstep]) runs any thread that is not done for one step:
    every interleaving of the requests' steps is a run. Theorems, each
    by induction on the run ([rtc_cstep_inv]) with an invariant every
    step keeps:
    - the local files are temporary files of the handler
      ([conc_tmp_only]);
    - no upload overwrites an object, when the uuids drawn are distinct
      ([conc_no_overwrite]): the invariant [fresh_inv] pairs the names
      the threads hold with the bucket;
    - a request answered 200 holds the public URL of an object the
      bucket keeps for the rest of the run ([conc_answer_stored]): the
      invariant [thread_stored] ties a thread before [os.remove] to its
      uploaded object, and no step removes an object.
    Nothing here says that a run ends: ffmpeg and the upload are total
    functions of the model, while the real calls can block without a
    timeout (spec section 5). [schedule] is one scheduler among those
    [cstep] allows, which the witnesses run on two requests. *)

From S2P Require Import Prelude PyValue Uuid Paths Pipeline World Model Upload Handler Service.
From Stdlib Require Import Floats.SpecFloat.

Local Open Scope Z_scope.

(** ** Threads *)

(** Where a request's thread stands: not started, before ffmpeg, before
    the upload, before [os.remove], or answered. *)
Inductive phase : Type :=
| PhStart (d : value)
| PhRun (o : output) (path key : string)
| PhUpload (path key : string)
| PhRemove (path key : string)
| PhDone (r : exn + value * Z).

Section Threads.
Context `{FloatParser} `{Entropy} `{Ffmpeg} `{Gcs}.
Variable b : option string.

(** Lines 32-36: [extract_audio] up to its draw. *)
Definition prepare_extract_audio (data : value) : PyM ((value * Z) + (output * string * string)) :=
  let* video_url := st_lift (py_get data "videoUrl" PNone) in
  if negb (truthy video_url) then
    ret (inl (PDict [("error", PStr "Missing 'videoUrl' for 'extract_audio' operation")], 400))
  else
    let* u := py_uuid4 in
    let path := local_audio_path u in
    ret (inr (extract_audio_output video_url path, path, "audioUrl")).

(** Lines 53-64: [create_split_screen_clip] up to its draw. *)
Definition prepare_split_screen_clip (data : value) : PyM ((value * Z) + (output * string * string)) :=
  let* params := st_lift (py_get data "params" (PDict [])) in
  let* podcast_url := st_lift (py_get params "podcast_url" PNone) in
  let* gameplay_url := st_lift (py_get params "gameplay_url" PNone) in
  let* bgm_url := st_lift (py_get params "bgm_url" PNone) in
  let* start_time := st_lift (py_get params "start_time" PNone) in
  let* end_time := st_lift (py_get params "end_time" PNone) in
  if negb (py_all [podcast_url; gameplay_url; start_time; end_time]) then
    ret (inl (PDict [("error", PStr "Missing parameters for 'create_split_screen_clip' operation")], 400))
  else
    let* end_f := st_lift (py_float end_time) in
    let* start_f := st_lift (py_float start_time) in
    let duration := py_fsub end_f start_f in
    let* u := py_uuid4 in
    let path := local_output_path u in
    ret (inr (split_screen_output podcast_url gameplay_url bgm_url start_time duration path,
              path, "clipUrl")).

(** Lines 28-31, 52 and 93-94: the dispatch on the operation. The
    handler up to its draw answers, or raises, or gives the pipeline,
    the temporary path and the reply key of its [try] block. *)
Definition prepare (data : value) : PyM ((value * Z) + (output * string * string)) :=
  let* operation := st_lift (py_get data "operation" PNone) in
  if py_eq_str operation "extract_audio" then prepare_extract_audio data
  else if py_eq_str operation "create_split_screen_clip" then prepare_split_screen_clip data
  else ret (inl (PDict [("error", PStr "Invalid or missing 'operation' specified")], 400)).

(** One step of a thread: to its next call on the shared world. *)
Definition thread_step (ph : phase) (w : world) : phase * world :=
  match ph with
  | PhStart d =>
      let (w1, r) := prepare d w in
      (match r with
       | inl e => PhDone (inl e)
       | inr (inl v) => PhDone (inr v)
       | inr (inr (o, path, key)) => PhRun o path key
       end, w1)
  | PhRun o path key =>
      let (w1, r) := run_pipeline o w in
      (match r with inl e => PhDone (inr (error_reply e)) | inr _ => PhUpload path key end, w1)
  | PhUpload path key =>
      let (w1, r) := upload_from_filename b (basename path) path w in
      (match r with inl e => PhDone (inr (error_reply e)) | inr _ => PhRemove path key end, w1)
  | PhRemove path key =>
      let (w1, r) := os_remove path w in
      (match r with
       | inl e => PhDone (inr (error_reply e))
       | inr _ => PhDone (inr (PDict [(key, PStr (gcs_public_url b (basename path)))], 200))
       end, w1)
  | PhDone r => (PhDone r, w)
  end.

(** [n] steps of one thread with no other thread running. *)
Fixpoint run_thread (n : nat) (ph : phase) (w : world) : phase * world :=
  match n with
  | O => (ph, w)
  | S n' => let (ph', w') := thread_step ph w in run_thread n' ph' w'
  end.
End Threads.

(** ** A thread alone is the handler *)

Section Alone.
Context `{FloatParser} `{Entropy} `{Ffmpeg} `{Gcs}.
Variable b : option string.

(** What the handler does after [prepare]: answer, re-raise, or run the
    [try] block. *)
Definition finish (w1 : world) (r : exn + ((value * Z) + (output * string * string))) :
    world * (exn + value * Z) :=
  match r with
  | inl e => (w1, inl e)
  | inr (inl v) => (w1, inr v)
  | inr (inr (o, path, key)) => try_run_upload b o path key w1
  end.

Lemma process_video_prepare d w : process_video b d w = let (w1, r) := prepare d w in finish w1 r.
Proof.
  unfold process_video, prepare, prepare_extract_audio, prepare_split_screen_clip, extract_audio, create_split_screen_clip, finish, try_run_upload,
    py_uuid4, st_bind, st_lift, st_ret.
  repeat case_match; simplify_eq; reflexivity.
Qed.

(** The three steps after the draw are the [try] block. *)
Lemma try_steps o path key w :
  run_thread b 3 (PhRun o path key) w =
  (PhDone (snd (try_run_upload b o path key w)), fst (try_run_upload b o path key w)).
Proof.
  unfold run_thread, thread_step, try_run_upload, upload_to_gcs, st_try, st_bind, ffmpeg_error, st_ret.
  destruct (run_pipeline o w) as [w1 [e|[]]]; [reflexivity|].
  destruct (upload_from_filename b (basename path) path w1) as [w2 [e|[]]]; [reflexivity|].
  destruct (os_remove path w2) as [w3 [e|[]]]; reflexivity.
Qed.

Lemma run_thread_S n ph w :
  run_thread b (S n) ph w = let (ph', w') := thread_step b ph w in run_thread b n ph' w'.
Proof. reflexivity. Qed.

Lemma run_thread_done n r w : run_thread b n (PhDone r) w = (PhDone r, w).
Proof. induction n; [done|]. exact IHn. Qed.
(** A request's thread run alone for its four steps computes what
    [process_video] computes: the same answer and the same world. *)
Theorem thread_alone d w :
  run_thread b 4 (PhStart d) w = (PhDone (snd (process_video b d w)), fst (process_video b d w)).
Proof.
  rewrite process_video_prepare, run_thread_S. unfold thread_step at 1.
  destruct (prepare d w) as [w1 [e|[v|[[o path] key]]]]; cbn [finish fst snd];
    [by rewrite run_thread_done .. |]. apply try_steps.
Qed.
End Alone.

(** ** The server: any interleaving of the threads *)

Definition running (ph : phase) : bool := match ph with PhDone _ => false | _ => true end.

Section Server.
Context `{FloatParser} `{Entropy} `{Ffmpeg} `{Gcs}.
Variable b : option string.

(** The server runs one step of any thread that is not done. *)
Inductive cstep : list phase * world -> list phase * world -> Prop :=
| CStep ths w i ph :
    ths !! i = Some ph -> running ph = true ->
    cstep (ths, w) (<[i := fst (thread_step b ph w)]> ths, snd (thread_step b ph w)).
End Server.

(** ** What one step does to the world *)

(** A temporary path of the handler. *)
Definition tmp_path (p : string) : Prop :=
  exists u ext, p = ("/tmp/" ++ uuid_str u ++ ext)%string /\ (ext = ".mp3" \/ ext = ".mp4").

(** The paths a thread holds are temporary paths, and its pipeline writes
    its own path. *)
Definition thread_ok (ph : phase) : Prop :=
  match ph with
  | PhRun o path _ => out_filename o = path /\ tmp_path path
  | PhUpload path _ | PhRemove path _ => tmp_path path
  | _ => True
  end.

(** The object name a thread will upload, until it has uploaded it. *)
Definition held (ph : phase) : option string :=
  match ph with
  | PhRun _ path _ | PhUpload path _ => Some (basename path)
  | _ => None
  end.

Section Steps.
Context `{FloatParser} `{Entropy} `{Ffmpeg} `{Gcs} `{!FfmpegLaws} `{!GcsLaws}.
Variable b : option string.

(** [prepare] changes nothing, or draws once and gives a pipeline that
    writes the temporary path of that draw. *)
Lemma prepare_cases d w w1 r :
  prepare d w = (w1, r) ->
  (w1 = w /\ forall o path key, r <> inr (inr (o, path, key))) \/
  exists o path key ext, r = inr (inr (o, path, key)) /\ w1 = after_draw w /\ out_filename o = path /\
    path = ("/tmp/" ++ uuid_str (draw_uuid w) ++ ext)%string /\ (ext = ".mp3" \/ ext = ".mp4").
Proof.
  unfold prepare, prepare_extract_audio, prepare_split_screen_clip, py_uuid4, st_bind, st_lift, st_ret.
  repeat case_match; intros [= <- <-];
    first [left; split; [reflexivity|intros ? ? ? [=]]
          |right; do 4 eexists; split; [reflexivity|]; split; [reflexivity|]; split; [reflexivity|];
           split; [reflexivity|]; by (left + right)].
Qed.

Lemma run_pipeline_world o w w1 r :
  run_pipeline o w = (w1, r) ->
  w_store w1 = w_store w /\ w_draws w1 = w_draws w /\
  forall p, p <> out_filename o -> w_fs w1 !! p = w_fs w !! p.
Proof.
  unfold run_pipeline, log_event, st_modify, st_bind. intros E.
  destruct (ffmpeg_run_rest _ _ _ _ E) as (Hs & Hd & _). world_simpl.
  split; [done|]. split; [done|]. intros p Hp. by rewrite (ffmpeg_run_frame _ _ _ _ _ E Hp).
Qed.

Lemma upload_world n p w w1 r :
  upload_from_filename b n p w = (w1, r) ->
  w_fs w1 = w_fs w /\ w_draws w1 = w_draws w /\
  match r with
  | inr _ => exists bn data, b = Some bn /\ w_store w1 = <[(bn, n) := data]> (w_store w)
  | inl _ => w_store w1 = w_store w
  end.
Proof.
  unfold upload_from_filename, log_event, st_modify, st_bind. intros E.
  destruct r as [e|[]].
  - apply gcs_upload_err in E. subst w1. world_simpl. auto.
  - destruct (gcs_upload_ok _ _ _ _ _ E) as (bn & data & -> & _ & ->). world_simpl.
    split; [done|]. split; [done|]. by eexists _, _.
Qed.

Lemma os_remove_world p w w1 r :
  os_remove p w = (w1, r) ->
  w_store w1 = w_store w /\ w_draws w1 = w_draws w /\
  forall q, is_Some (w_fs w1 !! q) -> is_Some (w_fs w !! q).
Proof.
  unfold os_remove. destruct (w_fs w !! p) eqn:E; intros [= <- <-]; world_simpl;
    (split; [done|]); (split; [done|]); [|done].
  intros q. destruct (decide (q = p)) as [->|Hne]; [by rewrite lookup_delete_eq|].
  by rewrite lookup_delete_ne.
Qed.

(** A step keeps the local files temporary and the threads' paths
    temporary. *)
Lemma thread_step_tmp ph w :
  thread_ok ph -> tmp_only w -> thread_ok (fst (thread_step b ph w)) /\ tmp_only (snd (thread_step b ph w)).
Proof.
  intros Hok Hw. destruct ph as [d|o path key|path key|path key|r]; cbn [thread_step].
  - destruct (prepare d w) as [w1 r] eqn:E. cbn [fst snd].
    destruct (prepare_cases _ _ _ _ E) as [[-> Hr]|(o & path & key & ext & -> & -> & Ho & Hp & He)].
    + split; [|done]. destruct r as [e|[v|[[o path] key]]]; [done|done|]. by destruct (Hr o path key).
    + split; [split; [done|subst; by eexists _, _]|]. exact Hw.
  - destruct Hok as [Ho Hp]. destruct (run_pipeline o w) as [w1 r] eqn:E. cbn [fst snd].
    destruct (run_pipeline_world _ _ _ _ E) as (_ & _ & Hfs). split; [by destruct r|].
    intros q Hq. destruct (decide (q = path)) as [->|Hne]; [exact Hp|].
    apply Hw. rewrite <- Hfs; [done|congruence].
  - destruct (upload_from_filename b _ path w) as [w1 r] eqn:E. cbn [fst snd].
    destruct (upload_world _ _ _ _ _ E) as (Hfs & _). split; [by destruct r|].
    intros q. rewrite Hfs. apply Hw.
  - destruct (os_remove path w) as [w1 r] eqn:E. cbn [fst snd].
    destruct (os_remove_world _ _ _ _ E) as (_ & _ & Hfs). split; [by destruct r|].
    intros q Hq. by apply Hw, Hfs.
  - done.
Qed.

(** What a step does to the bucket and the draws, with the name each
    thread holds: nothing; or the upload of the name the thread held;
    or a draw whose name the thread now holds. *)
Lemma thread_step_effect ph w :
  let ph' := fst (thread_step b ph w) in let w' := snd (thread_step b ph w) in
  (w_store w' = w_store w /\ w_draws w' = w_draws w /\ (held ph' = held ph \/ held ph' = None)) \/
  (exists n bn data, held ph = Some n /\ held ph' = None /\ b = Some bn /\ w_draws w' = w_draws w /\
     w_store w' = <[(bn, n) := data]> (w_store w)) \/
  (exists ext, held ph = None /\ held ph' = Some (uuid_str (draw_uuid w) ++ ext)%string /\
     (ext = ".mp3" \/ ext = ".mp4") /\ w_store w' = w_store w /\ w_draws w' = S (w_draws w)).
Proof.
  destruct ph as [d|o path key|path key|path key|r]; cbn [thread_step].
  - destruct (prepare d w) as [w1 r] eqn:E. cbn [fst snd].
    destruct (prepare_cases _ _ _ _ E) as [[-> Hr]|(o & path & key & ext & -> & -> & Ho & Hp & He)].
    + left. split; [done|]. split; [done|]. right.
      destruct r as [e|[v|[[o path] key]]]; [done|done|]. by destruct (Hr o path key).
    + right; right. exists ext. split; [done|]. split.
      * cbn [held]. rewrite Hp, basename_tmp; [done|]. by destruct He as [-> | ->].
      * split; [done|]. by split.
  - destruct (run_pipeline o w) as [w1 r] eqn:E. cbn [fst snd].
    destruct (run_pipeline_world _ _ _ _ E) as (Hs & Hd & _). left. split; [done|]. split; [done|].
    destruct r; [by right|by left].
  - destruct (upload_from_filename b (basename path) path w) as [w1 r] eqn:E. cbn [fst snd].
    destruct (upload_world _ _ _ _ _ E) as (_ & Hd & Hs). destruct r as [e|[]].
    + left. split; [done|]. split; [done|]. by right.
    + right; left. destruct Hs as (bn & data & Hb & Hs). by exists (basename path), bn, data.
  - destruct (os_remove path w) as [w1 r] eqn:E. cbn [fst snd].
    destruct (os_remove_world _ _ _ _ E) as (Hs & Hd & _). left. split; [done|]. split; [done|].
    destruct r; by left.
  - left. by split; [|split; [|left]].
Qed.
End Steps.

(** ** Invariants under any interleaving *)

(** A name drawn earlier in the run. *)
Definition drawn_name `{Entropy} (w : world) (n : string) : Prop :=
  exists i ext, (i < w_draws w)%nat /\ n = (uuid_str (uuid4 (urandom i)) ++ ext)%string /\
                (ext = ".mp3" \/ ext = ".mp4").

Section Interleaving.
Context `{FloatParser} `{Entropy} `{!EntropyLaws} `{Ffmpeg} `{Gcs} `{!FfmpegLaws} `{!GcsLaws}.
Variable b : option string.

(** A property every step keeps holds along every run. *)
Lemma rtc_cstep_inv (P : list phase * world -> Prop) c0 c :
  (forall c1 c2, cstep b c1 c2 -> P c1 -> P c2) -> P c0 -> rtc (cstep b) c0 c -> P c.
Proof. intros Hstep Hc0 Hr. induction Hr as [|x y z Hxy _ IH]; [done|]. apply IH, (Hstep x); done. Qed.

Lemma start_ok ds : Forall thread_ok (map PhStart ds).
Proof. induction ds as [|d ds IH]; [constructor|constructor; [exact I|exact IH]]. Qed.

Lemma lookup_step (ths : list phase) k ph' i phi :
  <[k := ph']> ths !! i = Some phi -> (i = k /\ phi = ph') \/ (i <> k /\ ths !! i = Some phi).
Proof. rewrite list_lookup_insert_Some. intros [(-> & -> & _)|(Hne & Hi)]; [by left|by right]. Qed.

Lemma cstep_draws c c' : cstep b c c' -> (w_draws c.2 <= w_draws c'.2)%nat.
Proof.
  destruct 1 as [ths w i ph Hi Hr]. cbn [snd].
  destruct (thread_step_effect b ph w) as [(_ & -> & _)|[(? & ? & ? & _ & _ & _ & -> & _)|(? & _ & _ & _ & _ & ->)]];
    lia.
Qed.

(** C21: whatever interleaving the server runs the requests [ds] in, from
    a world whose local files are temporary files of the handler, every
    world it passes through has only such files: [/tmp/<uuid>.mp3] and
    [/tmp/<uuid>.mp4], the files of requests in flight and those leaked
    by failed uploads. *)
Theorem conc_tmp_only ds w0 ths w :
  tmp_only w0 -> rtc (cstep b) (map PhStart ds, w0) (ths, w) -> tmp_only w.
Proof.
  intros Hw0 Hr.
  enough (Hok : tmp_only (ths, w).2 /\ Forall thread_ok (ths, w).1) by apply Hok.
  apply (rtc_cstep_inv (fun c => tmp_only c.2 /\ Forall thread_ok c.1) (map PhStart ds, w0)); [|split|exact Hr].
  - intros c1 c2 [ths1 w1 i ph Hi Hrun] [Hw Hths]. cbn [fst snd] in *.
    destruct (thread_step_tmp b ph w1 (Forall_lookup_1 _ _ _ _ Hths Hi) Hw) as [Hok1 Hok2].
    split; [exact Hok2|]. by apply Forall_insert.
  - exact Hw0.
  - apply start_ok.
Qed.

(** The names the threads hold, against the bucket: every object is
    named after an earlier draw; a name a thread holds was drawn and is
    not yet an object; no two threads hold the same name. *)
Definition fresh_inv (c : list phase * world) : Prop :=
  objects_from_draws b c.2 /\
  (forall i ph n, c.1 !! i = Some ph -> held ph = Some n ->
     drawn_name c.2 n /\ forall bn, w_store c.2 !! (bn, n) = None) /\
  (forall i j phi phj n, i <> j -> c.1 !! i = Some phi -> c.1 !! j = Some phj ->
     held phi = Some n -> held phj = Some n -> False).

Lemma drawn_name_mono w w' n : drawn_name w n -> (w_draws w <= w_draws w')%nat -> drawn_name w' n.
Proof. intros (i & e & Hi & Hn & He) Hw. exists i, e. split; [lia|done]. Qed.

Lemma objects_mono w w' :
  objects_from_draws b w -> w_store w' = w_store w -> (w_draws w <= w_draws w')%nat ->
  objects_from_draws b w'.
Proof.
  intros Ho Hs Hd bn n Hn. rewrite Hs in Hn. destruct (Ho bn n Hn) as (Hb & i & e & Hi & He).
  split; [done|]. exists i, e. split; [lia|done].
Qed.

Lemma objects_drawn w bn n : objects_from_draws b w -> is_Some (w_store w !! (bn, n)) -> drawn_name w n.
Proof. intros Ho Hn. destruct (Ho bn n Hn) as (_ & i & e & Hi & He). by exists i, e. Qed.

Section Fresh.
Variable N : nat.
Hypothesis Hdistinct :
  forall i j, (i < N)%nat -> (j < N)%nat -> i <> j -> uuid4 (urandom i) <> uuid4 (urandom j).

(** The name of a new draw is none of the names drawn before. *)
Lemma fresh_draw w n ext :
  (S (w_draws w) <= N)%nat -> drawn_name w n -> n <> (uuid_str (draw_uuid w) ++ ext)%string.
Proof.
  intros HN (i & e & Hi & -> & _) E. unfold draw_uuid in E. apply draw_name_inj in E.
  revert E. apply Hdistinct; lia.
Qed.

Lemma fresh_keep ths w k ph ph' w' :
  fresh_inv (ths, w) -> ths !! k = Some ph ->
  w_store w' = w_store w -> w_draws w' = w_draws w -> (held ph' = held ph \/ held ph' = None) ->
  fresh_inv (<[k := ph']> ths, w').
Proof.
  intros (Hobj & Hheld & Hdist) Hk Hs Hd Hh. unfold fresh_inv; cbn [fst snd] in *.
  assert (Hk' : forall i phi n, <[k := ph']> ths !! i = Some phi -> held phi = Some n ->
                  exists ph0, ths !! i = Some ph0 /\ held ph0 = Some n).
  { intros i phi n Hi Hn. apply lookup_step in Hi as [[-> ->]|[_ Hi]]; [|by exists phi].
    exists ph. split; [done|]. destruct Hh as [<-|Hn0]; [done|congruence]. }
  split; [|split].
  - apply (objects_mono w); [done|done|lia].
  - intros i phi n Hi Hn. destruct (Hk' i phi n Hi Hn) as (ph0 & Hi0 & Hn0).
    destruct (Hheld i ph0 n Hi0 Hn0) as [Hdn Hfree]. split; [apply (drawn_name_mono w); [done|lia]|].
    intros bn. rewrite Hs. apply Hfree.
  - intros i j phi phj n Hij Hi Hj Hni Hnj.
    destruct (Hk' i phi n Hi Hni) as (phi0 & Hi0 & Hni0), (Hk' j phj n Hj Hnj) as (phj0 & Hj0 & Hnj0).
    exact (Hdist i j phi0 phj0 n Hij Hi0 Hj0 Hni0 Hnj0).
Qed.

Lemma fresh_upload ths w k ph ph' w' n0 bn data :
  fresh_inv (ths, w) -> ths !! k = Some ph -> held ph = Some n0 -> held ph' = None -> b = Some bn ->
  w_draws w' = w_draws w -> w_store w' = <[(bn, n0) := data]> (w_store w) ->
  fresh_inv (<[k := ph']> ths, w').
Proof.
  intros (Hobj & Hheld & Hdist) Hk Hn0 Hh' Hb Hd Hs. unfold fresh_inv; cbn [fst snd] in *.
  assert (Hother : forall i phi n, <[k := ph']> ths !! i = Some phi -> held phi = Some n ->
                     i <> k /\ ths !! i = Some phi).
  { intros i phi n Hi Hn. apply lookup_step in Hi as [[-> ->]|Hi]; [congruence|done]. }
  split; [|split].
  - intros bn' n Hn. rewrite Hs in Hn. destruct (decide ((bn', n) = (bn, n0))) as [E|Hne].
    + injection E as -> ->. split; [done|].
      destruct (Hheld k ph n0 Hk Hn0) as [(i & e & Hi & He) _]. exists i, e. split; [lia|done].
    + rewrite lookup_insert_ne in Hn by congruence. destruct (Hobj bn' n Hn) as (Hb' & i & e & Hi & He).
      split; [done|]. exists i, e. split; [lia|done].
  - intros i phi n Hi Hn. destruct (Hother i phi n Hi Hn) as [Hik Hi'].
    destruct (Hheld i phi n Hi' Hn) as [Hdn Hfree]. split; [apply (drawn_name_mono w); [done|lia]|].
    intros bn'. rewrite Hs. destruct (decide ((bn', n) = (bn, n0))) as [E|Hne].
    + injection E as -> ->. exfalso. exact (Hdist i k phi ph n0 Hik Hi' Hk Hn Hn0).
    + rewrite lookup_insert_ne by congruence. apply Hfree.
  - intros i j phi phj n Hij Hi Hj Hni Hnj.
    destruct (Hother i phi n Hi Hni) as [_ Hi'], (Hother j phj n Hj Hnj) as [_ Hj'].
    exact (Hdist i j phi phj n Hij Hi' Hj' Hni Hnj).
Qed.

Lemma fresh_new_draw ths w k ph ph' w' ext :
  fresh_inv (ths, w) -> ths !! k = Some ph -> held ph = None ->
  held ph' = Some (uuid_str (draw_uuid w) ++ ext)%string -> (ext = ".mp3" \/ ext = ".mp4") ->
  w_store w' = w_store w -> w_draws w' = S (w_draws w) -> (w_draws w' <= N)%nat ->
  fresh_inv (<[k := ph']> ths, w').
Proof.
  intros (Hobj & Hheld & Hdist) Hk Hh Hh' Hext Hs Hd HN. unfold fresh_inv; cbn [fst snd] in *.
  assert (Hnew : forall n, drawn_name w n -> n <> (uuid_str (draw_uuid w) ++ ext)%string)
    by (intros n; apply fresh_draw; lia).
  split; [|split].
  - apply (objects_mono w); [done|done|lia].
  - intros i phi n Hi Hn. apply lookup_step in Hi as [[-> ->]|[Hik Hi]].
    + rewrite Hh' in Hn. injection Hn as <-. split.
      * exists (w_draws w), ext. split; [lia|done].
      * intros bn. rewrite Hs. destruct (w_store w !! (bn, _)) eqn:E; [|done].
        exfalso. exact (Hnew _ (objects_drawn w bn _ Hobj ltac:(by rewrite E)) eq_refl).
    + destruct (Hheld i phi n Hi Hn) as [Hdn Hfree]. split; [apply (drawn_name_mono w); [done|lia]|].
      intros bn. rewrite Hs. apply Hfree.
  - intros i j phi phj n Hij Hi Hj Hni Hnj.
    apply lookup_step in Hi as [[-> ->]|[Hik Hi]]; apply lookup_step in Hj as [[-> ->]|[Hjk Hj]].
    + done.
    + rewrite Hh' in Hni. injection Hni as <-. exact (Hnew _ (proj1 (Hheld j phj _ Hj Hnj)) eq_refl).
    + rewrite Hh' in Hnj. injection Hnj as <-. exact (Hnew _ (proj1 (Hheld i phi _ Hi Hni)) eq_refl).
    + exact (Hdist i j phi phj n Hij Hi Hj Hni Hnj).
Qed.

(** Every step keeps the invariant, while the draws stay below [N]. *)
Lemma cstep_fresh c c' : cstep b c c' -> (w_draws c'.2 <= N)%nat -> fresh_inv c -> fresh_inv c'.
Proof.
  destruct 1 as [ths w k ph Hk Hrun]. cbn [fst snd]. intros HN Hinv.
  destruct (thread_step_effect b ph w)
    as [(Hs & Hd & Hh)|[(n0 & bn & data & Hn0 & Hh' & Hb & Hd & Hs)|(ext & Hh0 & Hh' & Hext & Hs & Hd)]].
  - exact (fresh_keep ths w k ph _ _ Hinv Hk Hs Hd Hh).
  - exact (fresh_upload ths w k ph _ _ n0 bn data Hinv Hk Hn0 Hh' Hb Hd Hs).
  - exact (fresh_new_draw ths w k ph _ _ ext Hinv Hk Hh0 Hh' Hext Hs Hd HN).
Qed.
End Fresh.

Lemma fresh_start ds w0 : objects_from_draws b w0 -> fresh_inv (map PhStart ds, w0).
Proof.
  assert (Hnone : forall i ph, map PhStart ds !! i = Some ph -> held ph = None).
  { induction ds as [|d ds IH]; intros [|i] ph; cbn; [done|done|by intros [= <-]|apply IH]. }
  intros Hw0. split; [done|split].
  - intros i ph n Hi Hn. by rewrite (Hnone i ph Hi) in Hn.
  - intros i j phi phj n _ Hi _ Hn _. by rewrite (Hnone i phi Hi) in Hn.
Qed.

(** A step writes no object the bucket already has. *)
Lemma cstep_keeps_objects c c' :
  cstep b c c' -> fresh_inv c -> forall k, is_Some (w_store c.2 !! k) -> w_store c'.2 !! k = w_store c.2 !! k.
Proof.
  destruct 1 as [ths w i ph Hi Hrun]. unfold fresh_inv; cbn [fst snd]. intros (_ & Hheld & _) [bn n] Hk.
  destruct (thread_step_effect b ph w)
    as [(-> & _)|[(n0 & bn0 & data & Hn0 & _ & _ & _ & ->)|(_ & _ & _ & _ & -> & _)]]; [done| |done].
  rewrite lookup_insert_ne; [done|]. intros [= <- <-].
  destruct (Hheld i ph n0 Hi Hn0) as [_ Hfree]. rewrite Hfree in Hk. by destruct Hk.
Qed.

(** C19: Under any interleaving of the threads of requests started on a
    bucket whose objects are named after earlier draws, a step writes no
    object the bucket already has, provided the uuids drawn up to that
    step are pairwise distinct. *)
Theorem conc_no_overwrite ds w0 c c' :
  (forall i j, (i < w_draws c'.2)%nat -> (j < w_draws c'.2)%nat -> i <> j ->
     uuid4 (urandom i) <> uuid4 (urandom j)) ->
  objects_from_draws b w0 -> rtc (cstep b) (map PhStart ds, w0) c -> cstep b c c' ->
  forall k, is_Some (w_store c.2 !! k) -> w_store c'.2 !! k = w_store c.2 !! k.
Proof.
  intros Hdis Hw0 Hr Hs. apply (cstep_keeps_objects c c' Hs).
  enough (Hle : (w_draws c.2 <= w_draws c'.2)%nat -> fresh_inv c) by exact (Hle (cstep_draws _ _ Hs)).
  apply (rtc_cstep_inv (fun c1 => (w_draws c1.2 <= w_draws c'.2)%nat -> fresh_inv c1) (map PhStart ds, w0));
    [|intros _; by apply fresh_start|exact Hr].
  intros c1 c2 H12 IH Hle. pose proof (cstep_draws _ _ H12).
  apply (cstep_fresh (w_draws c'.2) Hdis c1 c2 H12 Hle), IH. lia.
Qed.
End Interleaving.

(** ** The URLs the threads answer with *)

(** What a thread holds of the bucket: before [os.remove], its object
    is stored; answered 200, its reply is the public URL of a stored
    object. *)
Definition thread_stored `{Gcs} (b : option string) (w : world) (ph : phase) : Prop :=
  match ph with
  | PhRemove path _ => exists bn, b = Some bn /\ is_Some (w_store w !! (bn, basename path))
  | PhDone (inr (v, code)) =>
      code = 200 -> exists bn n key, b = Some bn /\ v = PDict [(key, PStr (gcs_public_url b n))] /\
                                     is_Some (w_store w !! (bn, n))
  | _ => True
  end.

Section Answers.
Context `{FloatParser} `{Entropy} `{Ffmpeg} `{Gcs} `{!FfmpegLaws} `{!GcsLaws}.
Variable b : option string.

(** The handler answers before its draw only with 400. *)
Lemma prepare_400 d w w1 v code : prepare d w = (w1, inr (inl (v, code))) -> code = 400.
Proof.
  unfold prepare, prepare_extract_audio, prepare_split_screen_clip, py_uuid4, st_bind, st_lift, st_ret.
  repeat case_match; intros E; simplify_eq; done.
Qed.

(** No step removes an object. *)
Lemma thread_step_store ph w k :
  is_Some (w_store w !! k) -> is_Some (w_store (snd (thread_step b ph w)) !! k).
Proof.
  intros Hk. destruct (thread_step_effect b ph w)
    as [(-> & _)|[(n0 & bn & data & _ & _ & _ & _ & ->)|(_ & _ & _ & _ & -> & _)]]; [done| |done].
  rewrite lookup_insert_is_Some'. by right.
Qed.

Lemma thread_stored_mono w w' ph :
  (forall k, is_Some (w_store w !! k) -> is_Some (w_store w' !! k)) -> thread_stored b w ph -> thread_stored b w' ph.
Proof.
  intros Hw. destruct ph as [| | |path key|[e|[v code]]]; cbn [thread_stored]; try done.
  - intros (bn & Hb & Hs). eauto.
  - intros Hv Hc. destruct (Hv Hc) as (bn & n & key & Hb & Hv' & Hs). eauto 10.
Qed.

(** A thread's own step keeps what it holds of the bucket. *)
Lemma thread_step_stored ph w :
  thread_stored b w ph -> thread_stored b (snd (thread_step b ph w)) (fst (thread_step b ph w)).
Proof.
  destruct ph as [d|o path key|path key|path key|r]; cbn [thread_step].
  - destruct (prepare d w) as [w1 [e|[[v code]|[[o path] key]]]] eqn:E; cbn; [done| |done].
    intros _ ->. by apply prepare_400 in E.
  - destruct (run_pipeline o w) as [w1 [e|[]]]; cbn; [by intros _ [=]|done].
  - destruct (upload_from_filename b (basename path) path w) as [w1 r] eqn:E. intros _.
    destruct (upload_world b _ _ _ _ _ E) as (_ & _ & Hs). destruct r as [e|[]]; cbn; [by intros [=]|].
    destruct Hs as (bn & data & Hb & ->). exists bn. split; [done|]. by rewrite lookup_insert_eq.
  - destruct (os_remove path w) as [w1 r] eqn:E. intros (bn & Hb & Hs).
    destruct (os_remove_world _ _ _ _ E) as (Hst & _ & _). destruct r as [e|[]]; cbn; [by intros [=]|].
    intros _. exists bn, (basename path), key. by rewrite Hst.
  - done.
Qed.

Definition stored_inv (c : list phase * world) : Prop :=
  forall i ph, c.1 !! i = Some ph -> thread_stored b c.2 ph.

Lemma cstep_stored c c' : cstep b c c' -> stored_inv c -> stored_inv c'.
Proof.
  destruct 1 as [ths w k ph Hk Hrun]. unfold stored_inv; cbn [fst snd]. intros Hinv i phi Hi.
  apply lookup_step in Hi as [[-> ->]|[_ Hi]]; [by apply thread_step_stored, (Hinv k)|].
  apply (thread_stored_mono w); [apply thread_step_store|exact (Hinv i phi Hi)].
Qed.

Lemma stored_start ds w : stored_inv (map PhStart ds, w).
Proof.
  unfold stored_inv; cbn [fst]. intros i ph Hi.
  apply list_elem_of_lookup_2, list_elem_of_In, in_map_iff in Hi as (d & <- & _). exact I.
Qed.

(** C20: Whatever the interleaving of concurrently served requests,
    a request answered 200 was answered with the public URL of an object
    the bucket holds at every later point of the run: a thread answers
    only after its own upload succeeded, and no other thread removes or
    replaces objects in between. *)
Theorem conc_answer_stored ds w0 ths w i v :
  rtc (cstep b) (map PhStart ds, w0) (ths, w) -> ths !! i = Some (PhDone (inr (v, 200))) ->
  exists bn n key, b = Some bn /\ v = PDict [(key, PStr (gcs_public_url b n))] /\ is_Some (w_store w !! (bn, n)).
Proof.
  intros Hr Hi. enough (Hinv : stored_inv (ths, w)) by exact (Hinv i _ Hi eq_refl).
  apply (rtc_cstep_inv b stored_inv (map PhStart ds, w0)); [exact cstep_stored|apply stored_start|exact Hr].
Qed.
End Answers.

(** ** A scheduler *)

Section Scheduler.
Context `{FloatParser} `{Entropy} `{Ffmpeg} `{Gcs}.
Variable b : option string.

(** Thread [k] can run. *)
Definition enabled (k : nat) (c : list phase * world) : bool :=
  match c.1 !! k with Some ph => running ph | None => false end.

(** Run thread [k] for one step, when it can. *)
Definition sched_step (k : nat) (c : list phase * world) : list phase * world :=
  match c.1 !! k with
  | Some ph => if running ph then (<[k := fst (thread_step b ph c.2)]> c.1, snd (thread_step b ph c.2)) else c
  | None => c
  end.

(** Run the threads in the order of [ks]. *)
Definition schedule (ks : list nat) (c : list phase * world) : list phase * world :=
  fold_left (fun c k => sched_step k c) ks c.

Lemma sched_step_cstep k c : enabled k c = true -> cstep b c (sched_step k c).
Proof.
  destruct c as [ths w]. unfold enabled, sched_step; cbn [fst snd].
  destruct (ths !! k) as [ph|] eqn:E; [|discriminate]. intros Hr. rewrite Hr. by econstructor.
Qed.

Lemma schedule_rtc ks c : rtc (cstep b) c (schedule ks c).
Proof.
  revert c; induction ks as [|k ks IH]; intros c; [done|]. cbn [schedule fold_left].
  apply (rtc_trans _ (sched_step k c)); [|apply IH].
  destruct (enabled k c) eqn:E; [by apply rtc_once, sched_step_cstep|].
  revert E. unfold enabled, sched_step. destruct (c.1 !! k) as [ph|]; [|done]. by intros ->.
Qed.
End Scheduler.

(** ** Witnesses: two requests served together *)

Section ConcWitnesses.
Import Model.

Definition two_extracts : list phase * world := (map PhStart [PDict extract_req; PDict extract_req], w0).

(** Both threads draw, both run ffmpeg, the first uploads. *)
Definition run_ab : list phase * world := schedule bkt [0; 1; 0; 1; 0]%nat two_extracts.

Lemma conc_tmp_only_witness : size (w_fs run_ab.2) = 2%nat /\ tmp_only run_ab.2.
Proof.
  split; [vm_compute; reflexivity|].
  apply (conc_tmp_only bkt [PDict extract_req; PDict extract_req] w0 run_ab.1 run_ab.2).
  - intros p [x Hx]. discriminate.
  - rewrite <- surjective_pairing. apply schedule_rtc.
Defined.

Lemma conc_no_overwrite_witness :
  let c' := sched_step bkt 1 run_ab in
  size (w_store run_ab.2) = 1%nat /\ size (w_store c'.2) = 2%nat /\
  forall k, is_Some (w_store run_ab.2 !! k) -> w_store c'.2 !! k = w_store run_ab.2 !! k.
Proof.
  intros c'. split; [vm_compute; reflexivity|split; [vm_compute; reflexivity|]].
  apply (conc_no_overwrite bkt [PDict extract_req; PDict extract_req] w0 run_ab c').
  - assert (Hd : w_draws c'.2 = 2%nat) by (vm_compute; reflexivity). rewrite Hd.
    intros i j Hi Hj Hij E.
    destruct i as [|[|i]]; destruct j as [|[|j]]; try lia; vm_compute in E; discriminate E.
  - intros bn n [x Hx]. discriminate.
  - apply schedule_rtc.
  - apply sched_step_cstep. vm_compute. reflexivity.
Defined.
(** The first thread removes its file and answers. *)
Lemma conc_answer_stored_witness :
  let c := sched_step bkt 0 run_ab in
  let v := match c.1 !! 0%nat with Some (PhDone (inr (v, _))) => v | _ => PNone end in
  c.1 !! 0%nat = Some (PhDone (inr (v, 200))) /\
  exists bn n key, bkt = Some bn /\ v = PDict [(key, PStr (gcs_public_url bkt n))] /\ is_Some (w_store c.2 !! (bn, n)).
Proof.
  intros c v. assert (E : c.1 !! 0%nat = Some (PhDone (inr (v, 200)))) by (vm_compute; reflexivity).
  split; [exact E|].
  apply (conc_answer_stored bkt [PDict extract_req; PDict extract_req] w0 c.1 c.2 0 v); [|exact E].
  rewrite <- surjective_pairing. change c with (schedule bkt [0; 1; 0; 1; 0; 0]%nat two_extracts). apply schedule_rtc.
Defined.
End ConcWitnesses.
